(** * DAO coin limit orders: fixed-point conversion of prices and quantities

    A shallow embedding of the numeric core of [routes/dao_coin_exchange.go]
    (the functions [CalculateScaledExchangeRate],
    [CalculateExchangeRateAsFloat], [CalculateQuantityToFillAsBaseUnits],
    [CalculateQuantityToFillAsFloat], [isCoinToFillDESO],
    [getDESOToDAOCoinBaseUnitsScalingFactor], [formatFloatAsString] and
    [getNumDigits]) together with the properties the specification states
    about them.

    Conventions of the embedding:
    - [*uint256.Int] is a [Z] in [0, 2^256); the operations that can wrap
      have the wrap-around written out;
    - [*big.Int] is a [Z];
    - a finite [float64] is a sign, a mantissa and a binary exponent, that is
      an exact dyadic rational; [float64_value] adds the infinities and NaN;
    - a Go call ends in a value, in an [error], in a run-time panic or in a
      loop that never exits: the four constructors of [outcome]. *)

From Stdlib Require Import ZArith QArith Qabs Qround Qreduction.
From Stdlib Require Import String Ascii List Bool Lia.
Import ListNotations.

Local Open Scope string_scope.
Local Open Scope Z_scope.

(** ** Outcomes of a call *)

(** The three error kinds of the specification, and the two sentinel errors
    of [strconv]. The Go code builds its errors with [errors.Errorf]; the
    message "too small to produce a scaled exchange rate" is [RangeError],
    the message "Overflow when convering" is [OverflowError]. *)
Inductive error : Type :=
| ParseError
| RangeError
| OverflowError
| ErrSyntax
| ErrRange.

Inductive outcome (A : Type) : Type :=
| Ok (a : A)
| Err (e : error)
| Panic
| Hang.

Arguments Ok {A} a.
Arguments Err {A} e.
Arguments Panic {A}.
Arguments Hang {A}.

Definition bind {A B : Type} (m : outcome A) (k : A -> outcome B) : outcome B :=
  match m with
  | Ok a => k a
  | Err e => Err e
  | Panic => Panic
  | Hang => Hang
  end.

Notation "x <- m ;; k" := (bind m (fun x => k))
  (at level 61, m at next level, right associativity).

Definition succeeds {A : Type} (m : outcome A) : Prop := exists a, m = Ok a.

(** The call comes back to its caller, with a value or with an error. *)
Definition returns {A : Type} (m : outcome A) : Prop :=
  (exists a, m = Ok a) \/ (exists e, m = Err e).

(** ** 256-bit unsigned integers *)

Module U256.

Definition modulus : Z := 2 ^ 256.

(** [z.SetUint64(x)] *)
Definition SetUint64 (x : Z) : Z := x mod 2 ^ 64.

(** [z.IsZero()] *)
Definition IsZero (x : Z) : bool := x =? 0.

(** [z.MulOverflow(x, y)]: the product modulo 2^256 and the overflow flag. *)
Definition MulOverflow (x y : Z) : Z * bool :=
  ((x * y) mod modulus, modulus <=? x * y).

(** [z.Div(x, y)]: the quotient, and zero when the divisor is zero. *)
Definition Div (x y : Z) : Z := if y =? 0 then 0 else x / y.

(** [z.Mod(x, y)]: the remainder, and zero when the divisor is zero. *)
Definition Mod (x y : Z) : Z := if y =? 0 then 0 else x mod y.

End U256.

(** ** Constants of the ledger library *)

(** Modelled from the spec: [lib.NanosPerUnit] of the ledger library, which
    is not part of this repository; the base units of one $DESO,
    [S_ref = 10^9]. *)
Definition NanosPerUnit : Z := 1000000000.

(** Modelled from the spec: [lib.BaseUnitsPerCoin] of the ledger library;
    the base units of one DAO coin, [S_gen = 10^18]. *)
Definition BaseUnitsPerCoin : Z := 1000000000000000000.

(** Modelled from the spec: [lib.OneE38] of the ledger library;
    [RATE_SCALE = 10^38]. *)
Definition OneE38 : Z := 100000000000000000000000000000000000000.

(** [getDESOToDAOCoinBaseUnitsScalingFactor]: [1e18 / 1e9]. *)
Definition getDESOToDAOCoinBaseUnitsScalingFactor : Z :=
  U256.Div BaseUnitsPerCoin (U256.SetUint64 NanosPerUnit).

(** ** [getNumDigits] *)

(** The loop of [getNumDigits], one iteration per unit of fuel.
    [big.Int.Div] is Euclidean division, which for the divisor ten is
    [Z.div]. [None] means the loop has not exited within the fuel. *)
Fixpoint getNumDigits_loop (fuel : nat) (quotient numDigits : Z) : option Z :=
  match fuel with
  | O => None
  | S fuel' =>
      if quotient =? 0 then Some numDigits
      else getNumDigits_loop fuel' (quotient / 10) (numDigits + 1)
  end.

(** Fuel that is enough for every non-negative argument (lemma
    [getNumDigits_loop_enough]); for a negative argument no fuel is enough
    (lemma [getNumDigits_loop_negative]). *)
Definition digits_fuel (val : Z) : nat := S (Z.to_nat (Z.log2 val + 1)).

Definition getNumDigits (val : Z) : outcome Z :=
  match getNumDigits_loop (digits_fuel val) val 0 with
  | Some n => Ok n
  | None => Hang
  end.

(** The number of decimal digits of a non-negative integer, and 0 for 0. *)
Definition numDigits (val : Z) : Z :=
  match getNumDigits val with
  | Ok n => n
  | _ => 0
  end.

(** ** Decimal strings *)

(** The character of a decimal digit. *)
Definition digit_char (d : Z) : ascii := ascii_of_nat (48 + Z.to_nat d).

(** The value of a decimal digit character, [None] for any other one. *)
Definition digit_val (c : ascii) : option Z :=
  let n := nat_of_ascii c in
  if ((48 <=? n) && (n <=? 57))%nat then Some (Z.of_nat (n - 48)) else None.

(** The [len] low decimal digits of [n], most significant first, in front
    of [acc]. *)
Fixpoint render_digits (len : nat) (n : Z) (acc : string) : string :=
  match len with
  | O => acc
  | S len' => render_digits len' (n / 10) (String (digit_char (n mod 10)) acc)
  end.

(** [%d] of a non-negative integer: its digits, and "0" for zero. *)
Definition utoa (n : Z) : string :=
  render_digits (Z.to_nat (Z.max 1 (numDigits n))) n "".

(** [%d] of an integer. *)
Definition itoa (n : Z) : string :=
  if n <? 0 then "-" ++ utoa (- n) else utoa n.

Fixpoint repeat_string (s : string) (count : nat) : string :=
  match count with
  | O => ""
  | S count' => s ++ repeat_string s count'
  end.

(** [strings.Repeat(s, count)], which panics on a negative count. *)
Definition strings_Repeat (s : string) (count : Z) : outcome string :=
  if count <? 0 then Panic else Ok (repeat_string s (Z.to_nat count)).

(** The number read from a string of decimal digits, most significant
    first, continuing from [acc]. *)
Fixpoint parse_digits_acc (s : string) (acc : Z) : option Z :=
  match s with
  | "" => Some acc
  | String c s' =>
      match digit_val c with
      | Some d => parse_digits_acc s' (acc * 10 + d)
      | None => None
      end
  end.

Definition parse_digits (s : string) : option Z := parse_digits_acc s 0.

(** The text before the first decimal point, and the text after it when
    there is one. *)
Fixpoint split_dot (s : string) : string * option string :=
  match s with
  | "" => ("", None)
  | String c s' =>
      if (c =? ".")%char then ("", Some s')
      else let (a, r) := split_dot s' in (String c a, r)
  end.

(** The decimal-number grammar: digits, optionally a point and digits, at
    least one digit in all; no sign, no other character. The result is the
    integer part, the fractional digits read as an integer, and the number
    of fractional digits. *)
Definition decimal_parts (s : string) : option (Z * Z * Z) :=
  let (ip, r) := split_dot s in
  let fp := match r with Some t => t | None => "" end in
  if (String.length ip + String.length fp =? 0)%nat then None
  else
    match parse_digits ip, parse_digits fp with
    | Some i, Some f => Some (i, f, Z.of_nat (String.length fp))
    | _, _ => None
    end.

(** The exact value of such a text. *)
Definition decimal_value (p : Z * Z * Z) : Q :=
  let '(i, f, k) := p in (i * 10 ^ k + f) # Z.to_pos (10 ^ k).

(** The number of characters after the first decimal point. *)
Definition frac_digits (s : string) : Z :=
  match snd (split_dot s) with
  | Some t => Z.of_nat (String.length t)
  | None => 0
  end.

(** ** The parser of the ledger library *)

(** Modelled from the spec: [ParseDecimalToScaled(text, F)] of section 4.2,
    the behaviour of [lib.ScaleFloatFormatStringToUint256], whose source is
    in the ledger library and not in this repository. The value is
    [integer_part * F + fractional_part * F / 10^fractional_digit_count],
    floored; a result of zero is a [RangeError], a result beyond 256 bits an
    [OverflowError], a text outside the grammar a [ParseError]. *)
Definition ParseDecimalToScaled (text : string) (F : Z) : outcome Z :=
  match decimal_parts text with
  | None => Err ParseError
  | Some (i, f, k) =>
      let scaled := i * F + f * F / 10 ^ k in
      if scaled =? 0 then Err RangeError
      else if U256.modulus <=? scaled then Err OverflowError
      else Ok scaled
  end.

(** The two entry points of the ledger library that the routes call. *)
Class LedgerLib : Type := {
  CalculateScaledExchangeRateFromString : string -> outcome Z;
  ScaleFloatFormatStringToUint256 : string -> Z -> outcome Z
}.

(** Modelled from the spec: the ledger library as sections 4.2 and 4.3
    describe it; [lib.CalculateScaledExchangeRateFromString] is
    [ParseDecimalToScaled] at [RATE_SCALE]. *)
#[export] Instance SpecLib : LedgerLib := {
  CalculateScaledExchangeRateFromString text := ParseDecimalToScaled text OneE38;
  ScaleFloatFormatStringToUint256 text F := ParseDecimalToScaled text F
}.

(** ** Finite [float64] values *)

(** The value of [mkFloat s m e] is [(-1)^s * m * 2^e], with [0 <= m]. The
    doubles are the values with [m < 2^53] and [-1074 <= e <= 971]; the
    formatting functions below are defined on every dyadic rational. NaN
    and the infinities are not values of this record; [float64_value] adds
    them, and [formatFloatAsString_value] says what the formatter does on
    them. *)
Record float64 : Type := mkFloat {
  f_neg : bool;
  f_mant : Z;
  f_exp : Z
}.

Definition is_double (f : float64) : Prop :=
  0 <= f_mant f < 2 ^ 53 /\ -1074 <= f_exp f <= 971.

Definition nonneg_float (f : float64) : Prop :=
  f_neg f = false /\ 0 <= f_mant f.

(** The exact value of a float. *)
Definition F2Q (f : float64) : Q :=
  let m := if f_neg f then - f_mant f else f_mant f in
  if 0 <=? f_exp f then inject_Z (m * 2 ^ f_exp f)
  else m # Z.to_pos (2 ^ (- f_exp f)).

(** [big.NewFloat(0).SetFloat64(f).Int(nil)]: truncation toward zero. *)
Definition Float_Int (f : float64) : Z :=
  let a := if 0 <=? f_exp f then f_mant f * 2 ^ f_exp f
           else f_mant f / 2 ^ (- f_exp f) in
  if f_neg f then - a else a.

(** The integer nearest to [n / d], ties to the even one ([0 <= n],
    [0 < d]). *)
Definition round_half_even (n d : Z) : Z :=
  let q := n / d in
  let r := n mod d in
  if 2 * r <? d then q
  else if d <? 2 * r then q + 1
  else if Z.even q then q else q + 1.

(** [|f| * 10^prec] rounded to an integer, as the correctly rounded decimal
    conversion of [strconv] does. *)
Definition scaled_round (prec : Z) (f : float64) : Z :=
  if 0 <=? f_exp f then f_mant f * 2 ^ f_exp f * 10 ^ prec
  else round_half_even (f_mant f * 10 ^ prec) (2 ^ (- f_exp f)).

(** [fmt.Sprintf("%.<prec>f", f)]: the sign, the integer part, and when
    [prec] is not zero a point and exactly [prec] digits. *)
Definition Sprintf_f (prec : Z) (f : float64) : string :=
  let scaled := scaled_round prec f in
  let whole := scaled / 10 ^ prec in
  let frac := scaled mod 10 ^ prec in
  (if f_neg f then "-" else "") ++
  utoa whole ++
  (if prec =? 0 then "" else "." ++ render_digits (Z.to_nat prec) frac "").

(** The double nearest to a non-negative rational in lowest terms, ties to
    even; [ErrRange] beyond the largest double. *)
Definition round_float64 (q : Q) : outcome float64 :=
  let n := Qnum q in
  let d := Zpos (Qden q) in
  if n <=? 0 then Ok (mkFloat false 0 (-1074))
  else
    let sig e := if 0 <=? e then round_half_even n (d * 2 ^ e)
                 else round_half_even (n * 2 ^ (- e)) d in
    let ge53 e := if 0 <=? e then 2 ^ 53 * d * 2 ^ e <=? n
                  else 2 ^ 53 * d <=? n * 2 ^ (- e) in
    let e0 := Z.log2 n - Z.log2 d - 53 in
    let e1 := if ge53 e0 then e0 + 1 else e0 in
    let e2 := Z.max e1 (-1074) in
    let m := sig e2 in
    let '(m', e3) := if m =? 2 ^ 53 then (2 ^ 52, e2 + 1) else (m, e2) in
    if 971 <? e3 then Err ErrRange else Ok (mkFloat false m' e3).

(** The double nearest to [n / d], for [0 <= n] and [0 < d]. *)
Definition nearest_double (n d : Z) : outcome float64 :=
  round_float64 (Qred (n # Z.to_pos d)).

(** [strconv.ParseFloat] on an unsigned decimal text: the correctly rounded
    double of the exact value. *)
Definition ParseFloat_unsigned (s : string) : outcome float64 :=
  match decimal_parts s with
  | None => Err ErrSyntax
  | Some p => round_float64 (Qred (decimal_value p))
  end.

Definition set_sign (neg : bool) (f : float64) : float64 :=
  mkFloat neg (f_mant f) (f_exp f).

(** [strconv.ParseFloat(s, 64)] on decimal texts with an optional sign;
    exponents, hexadecimal floats, underscores and the special values, which
    the routes never build, are not modelled. *)
Definition ParseFloat (s : string) : outcome float64 :=
  match s with
  | String "-" s' => f <- ParseFloat_unsigned s' ;; Ok (set_sign true f)
  | String "+" s' => ParseFloat_unsigned s'
  | _ => ParseFloat_unsigned s
  end.

(** ** The routes *)

(** [formatFloatAsString] *)
Definition formatFloatAsString (f : float64) : outcome string :=
  let fAsBigInt := Float_Int f in
  let supportedPrecisionDigits := 15 in
  numWholeNumberDigits <- getNumDigits fAsBigInt ;;
  if numWholeNumberDigits <=? supportedPrecisionDigits then
    Ok (Sprintf_f (supportedPrecisionDigits - numWholeNumberDigits) f)
  else
    let divisorToDropDigits :=
      10 ^ (numWholeNumberDigits - supportedPrecisionDigits) in
    let fAsBigInt := fAsBigInt / divisorToDropDigits in
    let fAsBigInt := fAsBigInt * divisorToDropDigits in
    Ok (itoa fAsBigInt ++ ".0").

(** [DAOCoinLimitOrderOperationTypeString] *)
Definition DAOCoinLimitOrderOperationTypeStringASK : string := "ASK".
Definition DAOCoinLimitOrderOperationTypeStringBID : string := "BID".

(** [isCoinToFillDESO]; the empty string names $DESO. *)
Definition isCoinToFillDESO
  (buyingCoin sellingCoin operationTypeString : string) : bool :=
  (buyingCoin =? "")%string &&
    (operationTypeString =? DAOCoinLimitOrderOperationTypeStringBID)%string ||
  (sellingCoin =? "")%string &&
    (operationTypeString =? DAOCoinLimitOrderOperationTypeStringASK)%string.

(** [fmt.Sprintf("%d.%s%d", whole, decimalLeadingZeros, decimal)] followed
    by [strconv.ParseFloat]. *)
Definition parse_whole_decimal
  (whole : Z) (decimalLeadingZeros : string) (decimal : Z) : outcome float64 :=
  let str := itoa whole ++ "." ++ decimalLeadingZeros ++ itoa decimal in
  ParseFloat str.

(** [CalculateExchangeRateAsFloat]; the divisions of [big.Int] are by
    positive constants, where Euclidean division is [Z.div]. *)
Definition CalculateExchangeRateAsFloat
  (buyingCoin sellingCoin : string) (scaledValue : Z) : outcome float64 :=
  let scaledValueAsBigInt :=
    if (buyingCoin =? "")%string then
      scaledValue / getDESOToDAOCoinBaseUnitsScalingFactor
    else if (sellingCoin =? "")%string then
      scaledValue * getDESOToDAOCoinBaseUnitsScalingFactor
    else scaledValue in
  let oneE38AsBigInt := OneE38 in
  let whole := scaledValueAsBigInt / oneE38AsBigInt in
  let decimal := scaledValueAsBigInt mod oneE38AsBigInt in
  n1 <- getNumDigits oneE38AsBigInt ;;
  n2 <- getNumDigits decimal ;;
  decimalLeadingZeros <- strings_Repeat "0" (n1 - n2 - 1) ;;
  parse_whole_decimal whole decimalLeadingZeros decimal.

(** [calculateQuantityToFillAsFloatWithScalingFactor] *)
Definition calculateQuantityToFillAsFloatWithScalingFactor
  (quantityAsScaledValue scalingFactor : Z) : outcome float64 :=
  let whole := U256.Div quantityAsScaledValue scalingFactor in
  let decimal := U256.Mod quantityAsScaledValue scalingFactor in
  n1 <- getNumDigits scalingFactor ;;
  n2 <- getNumDigits decimal ;;
  decimalLeadingZeros <- strings_Repeat "0" (n1 - n2 - 1) ;;
  parse_whole_decimal whole decimalLeadingZeros decimal.

(** [calculateQuantityToFillFromDAOCoinBaseUnitsToFloat] *)
Definition calculateQuantityToFillFromDAOCoinBaseUnitsToFloat
  (quantityInBaseUnits : Z) : outcome float64 :=
  calculateQuantityToFillAsFloatWithScalingFactor
    quantityInBaseUnits BaseUnitsPerCoin.

(** [calculateQuantityToFillFromDESONanosToFloat] *)
Definition calculateQuantityToFillFromDESONanosToFloat
  (quantityInNanos : Z) : outcome float64 :=
  calculateQuantityToFillAsFloatWithScalingFactor
    quantityInNanos (U256.SetUint64 NanosPerUnit).

(** [CalculateQuantityToFillAsFloat] *)
Definition CalculateQuantityToFillAsFloat
  (buyingCoin sellingCoin operationTypeString : string)
  (quantityToFillInBaseUnits : Z) : outcome float64 :=
  if isCoinToFillDESO buyingCoin sellingCoin operationTypeString then
    calculateQuantityToFillFromDESONanosToFloat quantityToFillInBaseUnits
  else
    calculateQuantityToFillFromDAOCoinBaseUnitsToFloat quantityToFillInBaseUnits.

Section Routes.

Context {lib : LedgerLib}.

(** [CalculateScaledExchangeRate] *)
Definition CalculateScaledExchangeRate
  (buyingCoin sellingCoin : string)
  (exchangeRateCoinsToSellPerCoinToBuy : float64) : outcome Z :=
  text <- formatFloatAsString exchangeRateCoinsToSellPerCoinToBuy ;;
  rawScaledExchangeRate <- CalculateScaledExchangeRateFromString text ;;
  if U256.IsZero rawScaledExchangeRate then Err RangeError
  else if (buyingCoin =? "")%string then
    let (product, overflow) :=
      U256.MulOverflow rawScaledExchangeRate
        getDESOToDAOCoinBaseUnitsScalingFactor in
    if overflow then Err OverflowError else Ok product
  else if (sellingCoin =? "")%string then
    let quotient :=
      U256.Div rawScaledExchangeRate getDESOToDAOCoinBaseUnitsScalingFactor in
    if U256.IsZero quotient then Err RangeError else Ok quotient
  else Ok rawScaledExchangeRate.

(** [calculateQuantityToFillToBaseUnitsWithScalingFactor] *)
Definition calculateQuantityToFillToBaseUnitsWithScalingFactor
  (quantityToFill : float64) (scalingFactor : Z) : outcome Z :=
  text <- formatFloatAsString quantityToFill ;;
  ScaleFloatFormatStringToUint256 text scalingFactor.

(** [calculateQuantityToFillAsDAOCoinBaseUnits] *)
Definition calculateQuantityToFillAsDAOCoinBaseUnits
  (quantityToFill : float64) : outcome Z :=
  calculateQuantityToFillToBaseUnitsWithScalingFactor
    quantityToFill BaseUnitsPerCoin.

(** [calculateQuantityToFillAsDESONanos] *)
Definition calculateQuantityToFillAsDESONanos
  (quantityToFill : float64) : outcome Z :=
  calculateQuantityToFillToBaseUnitsWithScalingFactor
    quantityToFill (U256.SetUint64 NanosPerUnit).

(** [CalculateQuantityToFillAsBaseUnits] *)
Definition CalculateQuantityToFillAsBaseUnits
  (buyingCoin sellingCoin operationTypeString : string)
  (quantityToFill : float64) : outcome Z :=
  if isCoinToFillDESO buyingCoin sellingCoin operationTypeString then
    calculateQuantityToFillAsDESONanos quantityToFill
  else
    calculateQuantityToFillAsDAOCoinBaseUnits quantityToFill.

End Routes.

(** ** The decision table of the unit model *)

Inductive Asset : Type := Reference | Generic.

Inductive OperationType : Type := ASK | BID.

(** The asset a coin identifier of the routes names: the empty string is
    $DESO, the reference asset. *)
Definition asset_of (coin : string) : Asset :=
  if (coin =? "")%string then Reference else Generic.

(** [orderOperationTypeToString] on the two operation types. *)
Definition operation_string (op : OperationType) : string :=
  match op with
  | ASK => DAOCoinLimitOrderOperationTypeStringASK
  | BID => DAOCoinLimitOrderOperationTypeStringBID
  end.

(** [QuantityAssetSide] in the words of section 4.1 of the specification,
    to be compared with [isCoinToFillDESO]. *)
Definition QuantityAssetSide
  (buyAsset sellAsset : Asset) (op : OperationType) : Asset :=
  match buyAsset, sellAsset, op with
  | Reference, _, BID => Reference
  | _, Reference, ASK => Reference
  | _, _, _ => Generic
  end.

(** The base units of one coin of an asset: [S_ref] and [S_gen]. *)
Definition base_units (a : Asset) : Z :=
  match a with
  | Reference => 10 ^ 9
  | Generic => 10 ^ 18
  end.

(** ** Prices as text *)

(** Modelled from the spec: [CalculateScaledExchangeRateFromPriceString],
    which the tests of the repository call and whose source is not among the
    routes at hand. The price is parsed at [RATE_SCALE]; a BID keeps the
    parsed rate, an ASK inverts it, [RATE_SCALE^2 / R] rounded up (section 8
    and the open question of section 9); then the correction of section 4.3
    for a pair with $DESO on one side. *)
Definition CalculateScaledExchangeRateFromPriceString
  (buyingCoin sellingCoin price : string) (operationType : OperationType)
  : outcome Z :=
  R <- ParseDecimalToScaled price OneE38 ;;
  let directional :=
    match operationType with
    | BID => R
    | ASK => (OneE38 * OneE38 + R - 1) / R
    end in
  if U256.modulus <=? directional then Err OverflowError
  else if (buyingCoin =? "")%string then
    let (product, overflow) :=
      U256.MulOverflow directional getDESOToDAOCoinBaseUnitsScalingFactor in
    if overflow then Err OverflowError else Ok product
  else if (sellingCoin =? "")%string then
    let quotient :=
      U256.Div directional getDESOToDAOCoinBaseUnitsScalingFactor in
    if U256.IsZero quotient then Err RangeError else Ok quotient
  else Ok directional.

(** ** Some doubles *)

(** The doubles of the literals [1.0], [3.0] and [0.0]. *)
Definition float_1 : float64 := mkFloat false 1 0.
Definition float_3 : float64 := mkFloat false 3 0.
Definition float_0 : float64 := mkFloat false 0 0.

(** The doubles of the literals [1e-16], [1e38] and [1e40]. *)
Definition float_1e_16 : float64 := mkFloat false 8112963841460668 (-106).
Definition float_1e38 : float64 := mkFloat false 5293955920339377 74.
Definition float_1e40 : float64 := mkFloat false 8271806125530277 80.

(** The double next above the one of [1e38]:
    100000000000000016638275754934614884352. *)
Definition float_above_1e38 : float64 := mkFloat false 5293955920339378 74.

(** The double of the literal [1e39], which is
    999999999999999939709166371603178586112. *)
Definition float_1e39 : float64 := mkFloat false 6617444900424221 77.

(** The double of the literal [1234567890123456789.0], which is
    1234567890123456768. *)
Definition float_1234567890123456789 : float64 :=
  mkFloat false 4822530820794753 8.

(** The double of the literal [0.9999999999999999], the largest one below
    one: [1 - 2^-53]. *)
Definition float_below_1 : float64 := mkFloat false 9007199254740991 (-53).

(** The double of the literal [1.1]. *)
Definition float_1_1 : float64 := mkFloat false 4953959590107546 (-52).

(** ** Orders of the ledger *)

(** The errors that the order routes build themselves, and the errors that
    reach them from the conversions. *)
Inductive route_error : Type :=
| UnknownOperationType (operationType : Z)
| UnknownOperationTypeString (operationTypeString : string)
| ConversionError (e : error).

(** The outcome of a call of the order routes: as [outcome], with the
    errors of the routes. *)
Inductive result (A : Type) : Type :=
| Value (a : A)
| Failure (e : route_error)
| Panicked
| Hung.

Arguments Value {A} a.
Arguments Failure {A} e.
Arguments Panicked {A}.
Arguments Hung {A}.

Definition of_outcome {A : Type} (m : outcome A) : result A :=
  match m with
  | Ok a => Value a
  | Err e => Failure (ConversionError e)
  | Panic => Panicked
  | Hang => Hung
  end.

Definition result_bind {A B : Type} (m : result A) (k : A -> result B)
  : result B :=
  match m with
  | Value a => k a
  | Failure e => Failure e
  | Panicked => Panicked
  | Hung => Hung
  end.

Notation "x <~ m ;; k" := (result_bind m (fun x => k))
  (at level 61, m at next level, right associativity).

(** The types, constants and functions of the ledger library that the
    order routes use; their declarations are not in this repository, so
    they are parameters. [Base58CheckEncode] is the encoding of a public
    key, [lib.Base58CheckEncode(pk, false, fes.Params)]; operation types are
    [uint64] values. *)
Class Ledger : Type := {
  PKID : Type;
  BlockHash : Type;
  UtxoView : Type;
  DAOCoinLimitOrderOperationTypeASK : Z;
  DAOCoinLimitOrderOperationTypeBID : Z;
  IsZeroPKID : PKID -> bool;
  BlockHash_String : BlockHash -> string;
  GetPublicKeyForPKID : UtxoView -> PKID -> list Byte.byte;
  Base58CheckEncode : list Byte.byte -> string
}.

(** The fields of [lib.DAOCoinLimitOrderEntry] that the routes read; the
    operation type field is [OperationType] in the source. *)
Record DAOCoinLimitOrderEntry {L : Ledger} : Type := {
  OrderID : BlockHash;
  TransactorPKID : PKID;
  BuyingDAOCoinCreatorPKID : PKID;
  SellingDAOCoinCreatorPKID : PKID;
  ScaledExchangeRateCoinsToSellPerCoinToBuy : Z;
  QuantityToFillInBaseUnits : Z;
  EntryOperationType : Z
}.

(** [DAOCoinLimitOrderEntryResponse]; the last two fields are
    [OperationType] and [OrderID] in the source. *)
Record DAOCoinLimitOrderEntryResponse : Type := {
  TransactorPublicKeyBase58Check : string;
  BuyingDAOCoinCreatorPublicKeyBase58Check : string;
  SellingDAOCoinCreatorPublicKeyBase58Check : string;
  ExchangeRateCoinsToSellPerCoinToBuy : float64;
  QuantityToFill : float64;
  ResponseOperationType : string;
  ResponseOrderID : string
}.

Section Orders.

Context {L : Ledger}.

(** [orderOperationTypeToString] *)
Definition orderOperationTypeToString (operationType : Z) : result string :=
  if operationType =? DAOCoinLimitOrderOperationTypeASK then
    Value DAOCoinLimitOrderOperationTypeStringASK
  else if operationType =? DAOCoinLimitOrderOperationTypeBID then
    Value DAOCoinLimitOrderOperationTypeStringBID
  else Failure (UnknownOperationType operationType).

(** [orderOperationTypeToUint64] *)
Definition orderOperationTypeToUint64 (operationType : string) : result Z :=
  if (operationType =? DAOCoinLimitOrderOperationTypeStringASK)%string then
    Value DAOCoinLimitOrderOperationTypeASK
  else if (operationType =? DAOCoinLimitOrderOperationTypeStringBID)%string then
    Value DAOCoinLimitOrderOperationTypeBID
  else Failure (UnknownOperationTypeString operationType).

(** [buildDAOCoinLimitOrderResponse] *)
Definition buildDAOCoinLimitOrderResponse
  (transactorPublicKeyBase58Check : string)
  (buyingCoinPublicKeyBase58Check sellingCoinPublicKeyBase58Check : string)
  (order : DAOCoinLimitOrderEntry) : result DAOCoinLimitOrderEntryResponse :=
  operationTypeString <~ orderOperationTypeToString (EntryOperationType order) ;;
  exchangeRate <~
    of_outcome
      (CalculateExchangeRateAsFloat
         buyingCoinPublicKeyBase58Check sellingCoinPublicKeyBase58Check
         (ScaledExchangeRateCoinsToSellPerCoinToBuy order)) ;;
  quantityToFill <~
    of_outcome
      (CalculateQuantityToFillAsFloat
         buyingCoinPublicKeyBase58Check sellingCoinPublicKeyBase58Check
         operationTypeString (QuantityToFillInBaseUnits order)) ;;
  Value {|
    TransactorPublicKeyBase58Check := transactorPublicKeyBase58Check;
    BuyingDAOCoinCreatorPublicKeyBase58Check := buyingCoinPublicKeyBase58Check;
    SellingDAOCoinCreatorPublicKeyBase58Check :=
      sellingCoinPublicKeyBase58Check;
    ExchangeRateCoinsToSellPerCoinToBuy := exchangeRate;
    QuantityToFill := quantityToFill;
    ResponseOperationType := operationTypeString;
    ResponseOrderID := BlockHash_String (OrderID order)
  |}.

(** [getPublicKeyBase58CheckForPKID] *)
Definition getPublicKeyBase58CheckForPKID
  (utxoView : UtxoView) (pkid : PKID) : string :=
  let base58Check := "" in
  if negb (IsZeroPKID pkid) then
    Base58CheckEncode (GetPublicKeyForPKID utxoView pkid)
  else base58Check.

(** The loop of [buildDAOCoinLimitOrderResponsesFromEntriesForCoinPair]
    over the orders that are left, with the responses appended so far; an
    order whose response cannot be built is skipped. *)
Fixpoint responsesForCoinPair_loop
  (utxoView : UtxoView)
  (buyingCoinPublicKeyBase58Check sellingCoinPublicKeyBase58Check : string)
  (orders : list DAOCoinLimitOrderEntry)
  (responses : list DAOCoinLimitOrderEntryResponse)
  : result (list DAOCoinLimitOrderEntryResponse) :=
  match orders with
  | [] => Value responses
  | order :: orders' =>
      let transactorPublicKey :=
        GetPublicKeyForPKID utxoView (TransactorPKID order) in
      match
        buildDAOCoinLimitOrderResponse
          (Base58CheckEncode transactorPublicKey)
          buyingCoinPublicKeyBase58Check sellingCoinPublicKeyBase58Check order
      with
      | Value response =>
          responsesForCoinPair_loop utxoView
            buyingCoinPublicKeyBase58Check sellingCoinPublicKeyBase58Check
            orders' (responses ++ [response])%list
      | Failure _ =>
          responsesForCoinPair_loop utxoView
            buyingCoinPublicKeyBase58Check sellingCoinPublicKeyBase58Check
            orders' responses
      | Panicked => Panicked
      | Hung => Hung
      end
  end.

(** [buildDAOCoinLimitOrderResponsesFromEntriesForCoinPair] *)
Definition buildDAOCoinLimitOrderResponsesFromEntriesForCoinPair
  (utxoView : UtxoView)
  (buyingCoinPublicKeyBase58Check sellingCoinPublicKeyBase58Check : string)
  (orders : list DAOCoinLimitOrderEntry)
  : result (list DAOCoinLimitOrderEntryResponse) :=
  responsesForCoinPair_loop utxoView
    buyingCoinPublicKeyBase58Check sellingCoinPublicKeyBase58Check orders [].

(** The loop of [buildDAOCoinLimitOrderResponsesForTransactor]; the log
    line of a skipped order is not modelled. *)
Fixpoint responsesForTransactor_loop
  (utxoView : UtxoView) (transactorPublicKeyBase58Check : string)
  (orders : list DAOCoinLimitOrderEntry)
  (responses : list DAOCoinLimitOrderEntryResponse)
  : result (list DAOCoinLimitOrderEntryResponse) :=
  match orders with
  | [] => Value responses
  | order :: orders' =>
      let buyingCoinPublicKeyBase58Check :=
        getPublicKeyBase58CheckForPKID utxoView
          (BuyingDAOCoinCreatorPKID order) in
      let sellingCoinPublicKeyBase58Check :=
        getPublicKeyBase58CheckForPKID utxoView
          (SellingDAOCoinCreatorPKID order) in
      match
        buildDAOCoinLimitOrderResponse transactorPublicKeyBase58Check
          buyingCoinPublicKeyBase58Check sellingCoinPublicKeyBase58Check order
      with
      | Value response =>
          responsesForTransactor_loop utxoView transactorPublicKeyBase58Check
            orders' (responses ++ [response])%list
      | Failure _ =>
          responsesForTransactor_loop utxoView transactorPublicKeyBase58Check
            orders' responses
      | Panicked => Panicked
      | Hung => Hung
      end
  end.

(** [buildDAOCoinLimitOrderResponsesForTransactor] *)
Definition buildDAOCoinLimitOrderResponsesForTransactor
  (utxoView : UtxoView) (transactorPublicKeyBase58Check : string)
  (orders : list DAOCoinLimitOrderEntry)
  : result (list DAOCoinLimitOrderEntryResponse) :=
  responsesForTransactor_loop utxoView transactorPublicKeyBase58Check
    orders [].

End Orders.

(** The operation type of an order is one of the two of the ledger. *)
Definition known_operation_type {L : Ledger} (order : DAOCoinLimitOrderEntry)
  : bool :=
  (EntryOperationType order =? DAOCoinLimitOrderOperationTypeASK) ||
  (EntryOperationType order =? DAOCoinLimitOrderOperationTypeBID).

(** The two numeric fields of an order are 256-bit values. *)
Definition order_in_range {L : Ledger} (order : DAOCoinLimitOrderEntry)
  : Prop :=
  0 <= ScaledExchangeRateCoinsToSellPerCoinToBuy order < 2 ^ 256 /\
  0 <= QuantityToFillInBaseUnits order < 2 ^ 256.

(** A ledger for examples: identifiers are numbers, PKID 0 is the zero
    PKID, ASK is 1 and BID is 2. *)
Definition ExampleLedger : Ledger := {|
  PKID := Z;
  BlockHash := Z;
  UtxoView := unit;
  DAOCoinLimitOrderOperationTypeASK := 1;
  DAOCoinLimitOrderOperationTypeBID := 2;
  IsZeroPKID := fun pkid => pkid =? 0;
  BlockHash_String := fun h => itoa h;
  GetPublicKeyForPKID := fun _ pkid => [Byte.x01];
  Base58CheckEncode := fun pk => "BC1Y" ++ itoa (Z.of_nat (List.length pk))
|}.

(** The quotient [n / (d * 2^e)] is below [2^53]. *)
Definition below_2_53 (n d e : Z) : Prop :=
  if 0 <=? e then n < 2 ^ 53 * d * 2 ^ e else n * 2 ^ (- e) < 2 ^ 53 * d.

(** What a response built for an order holds: the three keys it was given,
    the identifier and the operation string of the order, and the two
    converted numbers. *)
Definition response_of {L : Ledger}
  (t b s : string) (order : DAOCoinLimitOrderEntry)
  (response : DAOCoinLimitOrderEntryResponse) : Prop :=
  TransactorPublicKeyBase58Check response = t /\
  BuyingDAOCoinCreatorPublicKeyBase58Check response = b /\
  SellingDAOCoinCreatorPublicKeyBase58Check response = s /\
  ResponseOrderID response = BlockHash_String (OrderID order) /\
  orderOperationTypeToString (EntryOperationType order) =
    Value (ResponseOperationType response) /\
  CalculateExchangeRateAsFloat b s
    (ScaledExchangeRateCoinsToSellPerCoinToBuy order) =
    Ok (ExchangeRateCoinsToSellPerCoinToBuy response) /\
  CalculateQuantityToFillAsFloat b s (ResponseOperationType response)
    (QuantityToFillInBaseUnits order) = Ok (QuantityToFill response).

(** Three orders of the example ledger, each with its identifier, the
    PKIDs of the transactor, of the coin bought and of the coin sold, the
    scaled rate, the quantity and the operation type: a BID that buys $DESO
    (PKID 0) with the coin of PKID 7, an ASK between two coins, and an order
    with an operation type that the ledger does not have. *)
Definition example_bid : DAOCoinLimitOrderEntry (L := ExampleLedger) :=
  @Build_DAOCoinLimitOrderEntry ExampleLedger 11 5 0 7
    300000000000000000000000000000000000000000000000 2500000000 2.

Definition example_ask : DAOCoinLimitOrderEntry (L := ExampleLedger) :=
  @Build_DAOCoinLimitOrderEntry ExampleLedger 12 5 7 8
    50000000000000000000000000000000000000 1000000000000000000 1.

Definition example_bad : DAOCoinLimitOrderEntry (L := ExampleLedger) :=
  @Build_DAOCoinLimitOrderEntry ExampleLedger 13 5 7 8 1 1 3.


(** ** The special values of float64 *)

(** A value of Go's [float64]: a finite value, an infinity with its sign,
    or NaN. *)
Inductive float64_value : Type :=
| Finite (f : float64)
| Infinity (neg : bool)
| NaN.

(** [formatFloatAsString] on every value of float64. On NaN
    [big.NewFloat(0).SetFloat64(f)] panics with [big.ErrNaN]. On an infinity
    [Int(nil)] returns the nil pointer, and [getNumDigits] dereferences it
    in [big.NewInt(0).Set(val)], which panics. *)
Definition formatFloatAsString_value (x : float64_value) : outcome string :=
  match x with
  | Finite f => formatFloatAsString f
  | Infinity _ => Panic
  | NaN => Panic
  end.

(** ** The nearest double *)

(** [r] is the double nearest to the rational [q >= 0], ties to the even
    mantissa: a non-negative double in normal form (the mantissa has 53
    bits, or the exponent is the smallest one), no double is nearer to [q],
    and when another double is as near the mantissa of [r] is even. *)
Definition is_nearest_double (q : Q) (r : float64) : Prop :=
  is_double r /\ f_neg r = false /\
  (2 ^ 52 <= f_mant r \/ f_exp r = -1074) /\
  (forall r' : float64,
     is_double r' -> (Qabs (F2Q r - q) <= Qabs (F2Q r' - q))%Q) /\
  (forall r' : float64,
     is_double r' -> ~ F2Q r' == F2Q r ->
     Qabs (F2Q r' - q) == Qabs (F2Q r - q) ->
     Z.even (f_mant r) = true).

(** ** More doubles *)

(** The doubles of the decimals 1e23, 9.99999999999999e22, 1.5e-15 and
    1e-15. *)
Definition float_1e23 : float64 := mkFloat false 5960464477539062 24.
Definition float_99999999999999900000000 : float64 :=
  mkFloat false 5960464477539057 24.
Definition float_1_5e_15 : float64 := mkFloat false 7605903601369376 (-102).
Definition float_1e_15 : float64 := mkFloat false 5070602400912918 (-102).

(** The double 100000000000.0625, whose fourth decimal is an exact tie. *)
Definition float_100000000000_0625 : float64 :=
  mkFloat false 6553600000004096 (-16).
(** ** Lemmas about [getNumDigits] *)

Lemma getNumDigits_loop_more (fuel : nat) :
  forall q n r,
    getNumDigits_loop fuel q n = Some r ->
    forall fuel', (fuel <= fuel')%nat -> getNumDigits_loop fuel' q n = Some r.
Proof.
  induction fuel as [|fuel IH]; intros q n r H fuel' Hle; simpl in H.
  - discriminate.
  - destruct fuel' as [|fuel']; [lia|]. simpl.
    destruct (q =? 0); [exact H|].
    apply (IH _ _ _ H). lia.
Qed.

Lemma getNumDigits_loop_negative (fuel : nat) :
  forall q n, q < 0 -> getNumDigits_loop fuel q n = None.
Proof.
  induction fuel as [|fuel IH]; intros q n Hq; simpl.
  - reflexivity.
  - destruct (Z.eqb_spec q 0) as [E|_]; [lia|].
    apply IH. apply Z.div_lt_upper_bound; lia.
Qed.

Lemma getNumDigits_loop_enough (fuel : nat) :
  forall q n,
    0 <= q -> q < 2 ^ Z.of_nat fuel ->
    exists r, getNumDigits_loop (S fuel) q n = Some r.
Proof.
  induction fuel as [|fuel IH]; intros q n Hq Hlt.
  - change (2 ^ Z.of_nat 0) with 1 in Hlt.
    assert (q = 0) by lia. subst q. exists n. reflexivity.
  - cbn [getNumDigits_loop].
    destruct (Z.eqb_spec q 0) as [E|NE].
    + exists n. reflexivity.
    + apply IH.
      * apply Z.div_pos; lia.
      * rewrite Nat2Z.inj_succ, Z.pow_succ_r in Hlt by lia.
        apply Z.div_lt_upper_bound; lia.
Qed.

Lemma digits_fuel_enough (val : Z) :
  0 <= val -> val < 2 ^ Z.of_nat (Z.to_nat (Z.log2 val + 1)).
Proof.
  intros Hval.
  rewrite Z2Nat.id by (pose proof (Z.log2_nonneg val); lia).
  destruct (Z.eq_dec val 0) as [->|NE].
  - reflexivity.
  - replace (Z.log2 val + 1) with (Z.succ (Z.log2 val)) by lia.
    apply Z.log2_spec. lia.
Qed.

Lemma getNumDigits_nonneg_Ok (val : Z) :
  0 <= val -> getNumDigits val = Ok (numDigits val).
Proof.
  intros Hval. unfold numDigits, getNumDigits, digits_fuel.
  destruct (getNumDigits_loop_enough _ val 0 Hval (digits_fuel_enough val Hval))
    as [r Hr].
  rewrite Hr. reflexivity.
Qed.

Lemma getNumDigits_negative_Hang (val : Z) :
  val < 0 -> getNumDigits val = Hang.
Proof.
  intros Hval. unfold getNumDigits.
  rewrite getNumDigits_loop_negative by exact Hval. reflexivity.
Qed.

Lemma getNumDigits_loop_spec (fuel : nat) :
  forall q n r,
    0 <= q -> getNumDigits_loop fuel q n = Some r ->
    exists k : nat,
      r = n + Z.of_nat k /\
      (q = 0 -> k = O) /\
      (0 < q -> (1 <= k)%nat /\ 10 ^ (Z.of_nat k - 1) <= q < 10 ^ Z.of_nat k).
Proof.
  induction fuel as [|fuel IH]; intros q n r Hq H; simpl in H.
  - discriminate.
  - destruct (Z.eqb_spec q 0) as [E|NE].
    + injection H as <-. exists O. repeat split; try lia.
    + assert (Hq10 : 0 <= q / 10) by (apply Z.div_pos; lia).
      destruct (IH _ _ _ Hq10 H) as (k & Hr & Hz & Hp).
      exists (S k). split; [lia|]. split; [lia|]. intros _.
      split; [lia|].
      pose proof (Z.div_mod q 10 ltac:(lia)) as Hdm.
      pose proof (Z.mod_pos_bound q 10 ltac:(lia)) as Hmod.
      replace (Z.of_nat (S k) - 1) with (Z.of_nat k) by lia.
      rewrite Nat2Z.inj_succ, Z.pow_succ_r by lia.
      destruct (Z.eq_dec (q / 10) 0) as [E0|N0].
      * rewrite (Hz E0). change (10 ^ Z.of_nat 0) with 1. lia.
      * destruct (Hp ltac:(lia)) as (Hk & Hlo & Hhi).
        replace (Z.of_nat k) with (Z.succ (Z.of_nat k - 1)) at 1 by lia.
        rewrite Z.pow_succ_r by lia. lia.
Qed.

Lemma numDigits_zero : numDigits 0 = 0.
Proof. reflexivity. Qed.

Lemma numDigits_nonneg (val : Z) : 0 <= numDigits val.
Proof.
  unfold numDigits, getNumDigits.
  destruct (Z_lt_le_dec val 0) as [Hneg|Hpos].
  - rewrite getNumDigits_loop_negative by exact Hneg. lia.
  - destruct (getNumDigits_loop (digits_fuel val) val 0) as [r|] eqn:E; [|lia].
    destruct (getNumDigits_loop_spec _ _ _ _ Hpos E) as (k & -> & _). lia.
Qed.

Lemma numDigits_pos (val : Z) :
  0 < val ->
  1 <= numDigits val /\
  10 ^ (numDigits val - 1) <= val < 10 ^ numDigits val.
Proof.
  intros Hval.
  pose proof (getNumDigits_nonneg_Ok val ltac:(lia)) as H.
  unfold getNumDigits in H.
  destruct (getNumDigits_loop (digits_fuel val) val 0) as [r|] eqn:E;
    [|discriminate].
  injection H as H.
  assert (Hval0 : 0 <= val) by lia.
  destruct (getNumDigits_loop_spec _ _ _ _ Hval0 E) as (k & Hr & _ & Hp).
  destruct (Hp Hval) as (Hk & Hb).
  assert (Hn : numDigits val = Z.of_nat k) by lia.
  rewrite Hn. split; [lia|exact Hb].
Qed.

Lemma numDigits_lt_pow (val : Z) : 0 <= val -> val < 10 ^ numDigits val.
Proof.
  intros Hval. destruct (Z.eq_dec val 0) as [->|NE].
  - reflexivity.
  - apply numDigits_pos. lia.
Qed.

(** The digit count is determined by the decade of the value. *)
Lemma numDigits_unique (val k : Z) :
  1 <= k -> 10 ^ (k - 1) <= val < 10 ^ k -> numDigits val = k.
Proof.
  intros Hk [Hlo Hhi].
  assert (Hval : 0 < val).
  { pose proof (Z.pow_pos_nonneg 10 (k - 1) ltac:(lia) ltac:(lia)). lia. }
  destruct (numDigits_pos val Hval) as (Hd & Hdlo & Hdhi).
  destruct (Z_lt_le_dec (numDigits val) k) as [Hlt|Hge].
  - assert (10 ^ numDigits val <= 10 ^ (k - 1))
      by (apply Z.pow_le_mono_r; lia). lia.
  - destruct (Z_lt_le_dec k (numDigits val)) as [Hlt|Hle]; [|lia].
    assert (10 ^ k <= 10 ^ (numDigits val - 1))
      by (apply Z.pow_le_mono_r; lia). lia.
Qed.

(** ** Lemmas about decimal strings *)

Lemma digit_cases (d : Z) :
  0 <= d < 10 ->
  d = 0 \/ d = 1 \/ d = 2 \/ d = 3 \/ d = 4 \/
  d = 5 \/ d = 6 \/ d = 7 \/ d = 8 \/ d = 9.
Proof. lia. Qed.

Ltac digit_split H :=
  destruct (digit_cases _ H) as
    [->|[->|[->|[->|[->|[->|[->|[->|[->| ->]]]]]]]]].

Lemma digit_val_char (d : Z) :
  0 <= d < 10 -> digit_val (digit_char d) = Some d.
Proof. intros H. digit_split H; reflexivity. Qed.

Lemma digit_char_not_dot (d : Z) :
  0 <= d < 10 -> (digit_char d =? ".")%char = false.
Proof. intros H. digit_split H; reflexivity. Qed.

Lemma mod10_bound (n : Z) : 0 <= n mod 10 < 10.
Proof. apply Z.mod_pos_bound. lia. Qed.

Lemma append_assoc (a b c : string) : (a ++ b) ++ c = a ++ (b ++ c).
Proof. induction a as [|x a IH]; simpl; [reflexivity|now rewrite IH]. Qed.

Lemma append_nil_l (a : string) : "" ++ a = a.
Proof. reflexivity. Qed.

Lemma append_nil_r (a : string) : a ++ "" = a.
Proof. induction a as [|x a IH]; simpl; [reflexivity|now rewrite IH]. Qed.

Lemma length_append (a b : string) :
  String.length (a ++ b) = (String.length a + String.length b)%nat.
Proof. induction a as [|x a IH]; simpl; [reflexivity|now rewrite IH]. Qed.

Lemma render_digits_append (len : nat) :
  forall n acc t,
    render_digits len n acc ++ t = render_digits len n (acc ++ t).
Proof.
  induction len as [|len IH]; intros n acc t; simpl.
  - reflexivity.
  - rewrite IH. reflexivity.
Qed.

Lemma render_digits_length (len : nat) :
  forall n acc,
    String.length (render_digits len n acc) = (len + String.length acc)%nat.
Proof.
  induction len as [|len IH]; intros n acc; simpl.
  - reflexivity.
  - rewrite IH. simpl. lia.
Qed.

Lemma split_dot_render (len : nat) :
  forall n acc,
    split_dot (render_digits len n acc) =
    (render_digits len n (fst (split_dot acc)), snd (split_dot acc)).
Proof.
  induction len as [|len IH]; intros n acc; cbn [render_digits].
  - destruct (split_dot acc); reflexivity.
  - rewrite IH. cbn [split_dot].
    rewrite digit_char_not_dot by apply mod10_bound.
    destruct (split_dot acc); reflexivity.
Qed.

Lemma parse_digits_acc_render (len : nat) :
  forall n acc a,
    parse_digits_acc (render_digits len n acc) a =
    parse_digits_acc acc (a * 10 ^ Z.of_nat len + n mod 10 ^ Z.of_nat len).
Proof.
  induction len as [|len IH]; intros n acc a.
  - simpl. rewrite Z.mod_1_r. f_equal. lia.
  - cbn [render_digits]. rewrite IH. cbn [parse_digits_acc].
    rewrite digit_val_char by apply mod10_bound.
    f_equal.
    rewrite Nat2Z.inj_succ, Z.pow_succ_r by lia.
    rewrite (Z.rem_mul_r n 10 (10 ^ Z.of_nat len)) by
      (try apply Z.pow_pos_nonneg; lia).
    lia.
Qed.

Lemma parse_digits_acc_append (s : string) :
  forall t a,
    parse_digits_acc (s ++ t) a =
    match parse_digits_acc s a with
    | Some b => parse_digits_acc t b
    | None => None
    end.
Proof.
  induction s as [|c s IH]; intros t a; simpl.
  - reflexivity.
  - destruct (digit_val c); [apply IH|reflexivity].
Qed.

Lemma parse_digits_acc_zeros (k : nat) :
  forall a, parse_digits_acc (repeat_string "0" k) a = Some (a * 10 ^ Z.of_nat k).
Proof.
  induction k as [|k IH]; intros a.
  - simpl. f_equal. lia.
  - cbn [repeat_string]. change ("0" ++ repeat_string "0" k)
      with (String "0" (repeat_string "0" k)).
    cbn [parse_digits_acc]. change (digit_val "0") with (Some 0).
    cbn iota. rewrite IH. f_equal.
    rewrite Nat2Z.inj_succ, Z.pow_succ_r by lia. lia.
Qed.

Lemma repeat_string_length (k : nat) :
  String.length (repeat_string "0" k) = k.
Proof. induction k as [|k IH]; simpl; [reflexivity|now rewrite IH]. Qed.

Lemma split_dot_no_dot (s : string) :
  forall a, parse_digits_acc s a <> None -> split_dot s = (s, None).
Proof.
  induction s as [|c s IH]; intros a H; simpl.
  - reflexivity.
  - simpl in H. destruct (digit_val c) as [d|] eqn:E; [|congruence].
    destruct (Ascii.eqb_spec c ".") as [->|_]; [discriminate E|].
    rewrite (IH _ H). reflexivity.
Qed.

Lemma utoa_digits (n : Z) :
  0 <= n ->
  parse_digits (utoa n) = Some n /\
  String.length (utoa n) = Z.to_nat (Z.max 1 (numDigits n)).
Proof.
  intros Hn. unfold utoa, parse_digits. split.
  - rewrite parse_digits_acc_render. cbn [parse_digits_acc]. f_equal.
    rewrite Z.mul_0_l, Z.add_0_l. apply Z.mod_small. split; [lia|].
    rewrite Z2Nat.id by lia.
    pose proof (numDigits_lt_pow n Hn) as Hlt.
    pose proof (numDigits_nonneg n) as Hd.
    assert (10 ^ numDigits n <= 10 ^ Z.max 1 (numDigits n))
      by (apply Z.pow_le_mono_r; lia).
    lia.
  - rewrite render_digits_length. simpl. lia.
Qed.

Lemma utoa_length_pos (n : Z) : 0 <= n -> (1 <= String.length (utoa n))%nat.
Proof.
  intros Hn. rewrite (proj2 (utoa_digits n Hn)).
  pose proof (numDigits_nonneg n). lia.
Qed.

(** The parts of [<whole>.<fraction>], for any fraction made of digits. *)
Lemma decimal_parts_whole_frac (w v : Z) (t : string) :
  0 <= w -> parse_digits t = Some v ->
  decimal_parts (utoa w ++ "." ++ t) =
  Some (w, v, Z.of_nat (String.length t)).
Proof.
  intros Hw Ht. unfold decimal_parts, utoa.
  rewrite render_digits_append, split_dot_render.
  change (split_dot ("" ++ "." ++ t)) with (("", Some t) : string * option string).
  cbn [fst snd].
  fold (utoa w).
  destruct (utoa_digits w Hw) as [Hp Hl].
  pose proof (utoa_length_pos w Hw) as Hlen.
  destruct (Nat.eqb_spec (String.length (utoa w) + String.length t) 0);
    [lia|].
  rewrite Hp, Ht. reflexivity.
Qed.

(** The parts of a text of digits without a point. *)
Lemma decimal_parts_whole (w : Z) :
  0 <= w -> decimal_parts (utoa w) = Some (w, 0, 0).
Proof.
  intros Hw. unfold decimal_parts.
  destruct (utoa_digits w Hw) as [Hp Hl].
  pose proof (utoa_length_pos w Hw) as Hlen.
  rewrite (split_dot_no_dot (utoa w) 0) by (unfold parse_digits in Hp; congruence).
  destruct (Nat.eqb_spec (String.length (utoa w) + String.length "") 0);
    [lia|].
  rewrite Hp. reflexivity.
Qed.

Lemma decimal_parts_minus (s : string) : decimal_parts (String "-" s) = None.
Proof.
  unfold decimal_parts. cbn [split_dot].
  change (("-" =? ".")%char) with false. cbn iota.
  destruct (split_dot s) as [a r].
  destruct (_ =? 0)%nat; reflexivity.
Qed.

(** ** Lemmas about the float formatting *)

Lemma pow2_pos (e : Z) : 0 <= e -> 0 < 2 ^ e.
Proof. intros. apply Z.pow_pos_nonneg; lia. Qed.

Lemma pow10_pos (e : Z) : 0 <= e -> 0 < 10 ^ e.
Proof. intros. apply Z.pow_pos_nonneg; lia. Qed.

Lemma Float_Int_nonneg (f : float64) : nonneg_float f -> 0 <= Float_Int f.
Proof.
  intros [Hs Hm]. unfold Float_Int. rewrite Hs.
  destruct (Z.leb_spec 0 (f_exp f)).
  - pose proof (pow2_pos (f_exp f) ltac:(lia)). nia.
  - apply Z.div_pos; [lia|]. apply pow2_pos. lia.
Qed.

Lemma round_half_even_nonneg (n d : Z) :
  0 <= n -> 0 < d -> 0 <= round_half_even n d.
Proof.
  intros Hn Hd. unfold round_half_even.
  pose proof (Z.div_pos n d Hn Hd).
  destruct (_ <? _); [lia|]. destruct (_ <? _); [lia|].
  destruct (Z.even _); lia.
Qed.

(** The rounded quotient is within half a unit of the exact one. *)
Lemma round_half_even_near (n d : Z) :
  0 < d -> 2 * Z.abs (round_half_even n d * d - n) <= d.
Proof.
  intros Hd. unfold round_half_even.
  pose proof (Z.div_mod n d ltac:(lia)) as Hdm.
  pose proof (Z.mod_pos_bound n d Hd) as Hb.
  destruct (Z.ltb_spec (2 * (n mod d)) d).
  - nia.
  - destruct (Z.ltb_spec d (2 * (n mod d))).
    + nia.
    + destruct (Z.even (n / d)); nia.
Qed.

(** When the quotient is exact nothing is rounded. *)
Lemma round_half_even_exact (q d : Z) :
  0 < d -> round_half_even (q * d) d = q.
Proof.
  intros Hd. unfold round_half_even.
  rewrite Z.div_mul, Z.mod_mul by lia.
  destruct (Z.ltb_spec (2 * 0) d); [reflexivity|lia].
Qed.

Lemma scaled_round_nonneg (prec : Z) (f : float64) :
  nonneg_float f -> 0 <= prec -> 0 <= scaled_round prec f.
Proof.
  intros [Hs Hm] Hp. unfold scaled_round.
  pose proof (pow10_pos prec Hp).
  destruct (Z.leb_spec 0 (f_exp f)).
  - pose proof (pow2_pos (f_exp f) ltac:(lia)). nia.
  - apply round_half_even_nonneg; [nia|]. apply pow2_pos. lia.
Qed.

Lemma Sprintf_f_parts (prec : Z) (f : float64) :
  nonneg_float f -> 0 <= prec ->
  decimal_parts (Sprintf_f prec f) =
  Some (scaled_round prec f / 10 ^ prec, scaled_round prec f mod 10 ^ prec, prec).
Proof.
  intros Hf Hp. pose proof (scaled_round_nonneg prec f Hf Hp) as Hs.
  pose proof (pow10_pos prec Hp) as H10.
  assert (Hw : 0 <= scaled_round prec f / 10 ^ prec) by (apply Z.div_pos; lia).
  unfold Sprintf_f. destruct Hf as [-> _]. cbv iota. rewrite append_nil_l.
  destruct (Z.eqb_spec prec 0) as [->|NE].
  - rewrite append_nil_r, decimal_parts_whole by exact Hw.
    rewrite Z.mod_1_r. reflexivity.
  - rewrite (decimal_parts_whole_frac _ (scaled_round prec f mod 10 ^ prec)).
    + rewrite render_digits_length. simpl String.length.
      rewrite Nat.add_0_r, Z2Nat.id by lia. reflexivity.
    + exact Hw.
    + unfold parse_digits. rewrite parse_digits_acc_render.
      cbn [parse_digits_acc]. rewrite Z2Nat.id by lia.
      rewrite Z.mod_mod by lia. f_equal.
Qed.

Lemma frac_digits_Sprintf_f (prec : Z) (f : float64) :
  nonneg_float f -> 0 <= prec -> frac_digits (Sprintf_f prec f) = prec.
Proof.
  intros Hf Hp. pose proof (scaled_round_nonneg prec f Hf Hp) as Hs.
  pose proof (pow10_pos prec Hp) as H10.
  assert (Hw : 0 <= scaled_round prec f / 10 ^ prec) by (apply Z.div_pos; lia).
  unfold frac_digits, Sprintf_f. destruct Hf as [-> _]. cbv iota. rewrite append_nil_l.
  destruct (Z.eqb_spec prec 0) as [->|NE].
  - rewrite append_nil_r.
    destruct (utoa_digits _ Hw) as [Hpd _].
    rewrite (split_dot_no_dot _ 0) by (unfold parse_digits in Hpd; congruence).
    reflexivity.
  - unfold utoa. rewrite render_digits_append, split_dot_render.
    cbn [append split_dot]. change (("." =? ".")%char) with true.
    cbn [snd]. rewrite render_digits_length. simpl String.length.
    rewrite Nat.add_0_r, Z2Nat.id by lia. reflexivity.
Qed.

Lemma formatFloatAsString_small (f : float64) :
  nonneg_float f -> numDigits (Float_Int f) <= 15 ->
  formatFloatAsString f = Ok (Sprintf_f (15 - numDigits (Float_Int f)) f).
Proof.
  intros Hf Hd. unfold formatFloatAsString.
  rewrite getNumDigits_nonneg_Ok by (apply Float_Int_nonneg; exact Hf).
  cbn [bind]. destruct (Z.leb_spec (numDigits (Float_Int f)) 15); [reflexivity|lia].
Qed.

Lemma formatFloatAsString_large (f : float64) :
  nonneg_float f -> 15 < numDigits (Float_Int f) ->
  formatFloatAsString f =
  Ok (utoa (Float_Int f / 10 ^ (numDigits (Float_Int f) - 15)
            * 10 ^ (numDigits (Float_Int f) - 15)) ++ ".0").
Proof.
  intros Hf Hd. unfold formatFloatAsString.
  pose proof (Float_Int_nonneg f Hf) as Hi.
  rewrite getNumDigits_nonneg_Ok by exact Hi.
  cbn [bind]. destruct (Z.leb_spec (numDigits (Float_Int f)) 15); [lia|].
  unfold itoa.
  set (k := numDigits (Float_Int f) - 15).
  pose proof (pow10_pos k ltac:(lia)) as H10.
  assert (0 <= Float_Int f / 10 ^ k * 10 ^ k).
  { pose proof (Z.div_pos (Float_Int f) (10 ^ k) Hi H10). nia. }
  destruct (Z.ltb_spec (Float_Int f / 10 ^ k * 10 ^ k) 0); [lia|reflexivity].
Qed.

(** ** Lemmas about the texts handed to [strconv.ParseFloat] *)

Lemma render_digits_first (len : nat) :
  forall n acc,
    exists d rest,
      0 <= d < 10 /\ render_digits (S len) n acc = String (digit_char d) rest.
Proof.
  induction len as [|len IH]; intros n acc.
  - exists (n mod 10), acc. split; [apply mod10_bound|reflexivity].
  - change (render_digits (S (S len)) n acc)
      with (render_digits (S len) (n / 10) (String (digit_char (n mod 10)) acc)).
    apply IH.
Qed.

Lemma ParseFloat_unsigned_text (n : Z) (t : string) :
  ParseFloat (utoa n ++ t) = ParseFloat_unsigned (utoa n ++ t).
Proof.
  unfold utoa.
  assert (exists len, Z.to_nat (Z.max 1 (numDigits n)) = S len) as [len ->].
  { exists (Nat.pred (Z.to_nat (Z.max 1 (numDigits n)))). lia. }
  destruct (render_digits_first len n "") as (d & rest & Hd & ->).
  digit_split Hd; reflexivity.
Qed.

Lemma numDigits_zero_inv (x : Z) : 0 <= x -> numDigits x = 0 -> x = 0.
Proof.
  intros Hx H0. destruct (Z.eq_dec x 0) as [|NE]; [assumption|].
  destruct (numDigits_pos x ltac:(lia)). lia.
Qed.

Lemma numDigits_pow10 (w : Z) : 0 <= w -> numDigits (10 ^ w) = w + 1.
Proof.
  intros Hw. apply numDigits_unique; [lia|].
  replace (w + 1 - 1) with w by lia. split; [lia|].
  apply Z.pow_lt_mono_r; lia.
Qed.

Lemma numDigits_le (x w : Z) : 0 <= w -> 0 <= x < 10 ^ w -> numDigits x <= w.
Proof.
  intros Hw [Hx Hlt]. destruct (Z.eq_dec x 0) as [->|NE].
  - rewrite numDigits_zero. exact Hw.
  - destruct (numDigits_pos x ltac:(lia)) as (Hd & Hlo & _).
    destruct (Z_le_gt_dec (numDigits x) w) as [|Hgt]; [assumption|].
    assert (10 ^ w <= 10 ^ (numDigits x - 1)) by (apply Z.pow_le_mono_r; lia).
    lia.
Qed.

(** The text [<whole>.<zeros><decimal>] that the formatters build for a
    power of ten [10^w] denotes the quotient exactly, so [ParseFloat] gives
    the double nearest to it. *)
Lemma whole_decimal_exact (w v : Z) :
  0 <= w -> 0 <= v ->
  (zeros <- strings_Repeat "0"
              (numDigits (10 ^ w) - numDigits (v mod 10 ^ w) - 1) ;;
   parse_whole_decimal (v / 10 ^ w) zeros (v mod 10 ^ w)) =
  nearest_double v (10 ^ w).
Proof.
  intros Hw Hv.
  pose proof (pow10_pos w Hw) as HF.
  pose proof (Z.mod_pos_bound v (10 ^ w) HF) as Hdec.
  pose proof (Z.div_pos v (10 ^ w) Hv HF) as Hwhole.
  pose proof (Z.div_mod v (10 ^ w) ltac:(lia)) as Hdm.
  set (dec := v mod 10 ^ w) in *. set (whole := v / 10 ^ w) in *.
  pose proof (numDigits_le dec w Hw Hdec) as Hn2.
  pose proof (numDigits_nonneg dec) as Hn2'.
  rewrite numDigits_pow10 by exact Hw.
  unfold strings_Repeat.
  destruct (Z.ltb_spec (w + 1 - numDigits dec - 1) 0); [lia|].
  cbn [bind]. unfold parse_whole_decimal, itoa.
  destruct (Z.ltb_spec whole 0); [lia|]. destruct (Z.ltb_spec dec 0); [lia|].
  rewrite ParseFloat_unsigned_text. unfold ParseFloat_unsigned.
  set (zeros := repeat_string "0" (Z.to_nat (w + 1 - numDigits dec - 1))).
  destruct (utoa_digits dec (proj1 Hdec)) as [Hpd Hld].
  assert (Hparse : parse_digits (zeros ++ utoa dec) = Some dec).
  { unfold parse_digits. rewrite parse_digits_acc_append.
    unfold zeros. rewrite parse_digits_acc_zeros. exact Hpd. }
  rewrite (decimal_parts_whole_frac whole dec _ Hwhole Hparse).
  unfold nearest_double. f_equal. apply Qred_complete.
  unfold decimal_value, Qeq. cbn [Qnum Qden].
  rewrite length_append, Hld. unfold zeros. rewrite repeat_string_length.
  set (L := Z.of_nat _).
  assert (HL : L = w /\ 1 <= numDigits dec \/ L = w + 1 /\ dec = 0).
  { unfold L. destruct (Z.eq_dec (numDigits dec) 0) as [E0|NE].
    - right. split; [lia|]. apply numDigits_zero_inv; [lia|exact E0].
    - left. split; lia. }
  assert (HLpos : 0 < 10 ^ L) by (apply pow10_pos; lia).
  rewrite !Z2Pos.id by lia.
  destruct HL as [[-> _]|[-> E0]].
  - lia.
  - rewrite E0 in *. rewrite Z.pow_add_r by lia. nia.
Qed.

Lemma getDESOToDAOCoinBaseUnitsScalingFactor_value :
  getDESOToDAOCoinBaseUnitsScalingFactor = 10 ^ 9.
Proof. reflexivity. Qed.

Lemma OneE38_value : OneE38 = 10 ^ 38.
Proof. reflexivity. Qed.

Lemma BaseUnitsPerCoin_value : BaseUnitsPerCoin = 10 ^ 18.
Proof. reflexivity. Qed.

Lemma NanosPerUnit_value : U256.SetUint64 NanosPerUnit = 10 ^ 9.
Proof. reflexivity. Qed.

(** ** [getNumDigits]: termination *)

Lemma round_float64_returns (q : Q) : returns (round_float64 q).
Proof.
  unfold returns, round_float64.
  destruct (_ <=? _); [left; eexists; reflexivity|].
  destruct (_ =? _); destruct (_ <? _);
    (left; eexists; reflexivity) || (right; eexists; reflexivity).
Qed.

Lemma CalculateExchangeRateAsFloat_exact (buy sell : string) (v : Z) :
  0 <= v ->
  CalculateExchangeRateAsFloat buy sell v =
  nearest_double
    (if (buy =? "")%string then v / 10 ^ 9
     else if (sell =? "")%string then v * 10 ^ 9 else v)
    (10 ^ 38).
Proof.
  intros Hv. unfold CalculateExchangeRateAsFloat.
  rewrite getDESOToDAOCoinBaseUnitsScalingFactor_value, OneE38_value.
  set (v' := if (buy =? "")%string then v / 10 ^ 9
             else if (sell =? "")%string then v * 10 ^ 9 else v).
  assert (Hv' : 0 <= v').
  { unfold v'. destruct (buy =? "")%string.
    - apply Z.div_pos; lia.
    - destruct (sell =? "")%string; lia. }
  rewrite (getNumDigits_nonneg_Ok (10 ^ 38)) by lia.
  rewrite getNumDigits_nonneg_Ok
    by (apply Z.mod_pos_bound; apply pow10_pos; lia).
  cbn [bind]. apply (whole_decimal_exact 38 v'); [lia|exact Hv'].
Qed.

Lemma quantity_float_exact (w q : Z) :
  0 <= w -> 0 <= q ->
  calculateQuantityToFillAsFloatWithScalingFactor q (10 ^ w) =
  nearest_double q (10 ^ w).
Proof.
  intros Hw Hq. unfold calculateQuantityToFillAsFloatWithScalingFactor.
  pose proof (pow10_pos w Hw) as HF.
  unfold U256.Div, U256.Mod.
  destruct (Z.eqb_spec (10 ^ w) 0); [lia|].
  rewrite (getNumDigits_nonneg_Ok (10 ^ w)) by lia.
  rewrite getNumDigits_nonneg_Ok by (apply Z.mod_pos_bound; exact HF).
  cbn [bind]. apply (whole_decimal_exact w q); assumption.
Qed.

(** C10. For every non-negative big integer the loop of [getNumDigits]
    exits, with any fuel from some point on, and returns the number of
    decimal digits of its argument, 0 for 0; so [formatFloatAsString]
    returns a text on every non-negative float and the formatters from
    canonical form return on every non-negative value. Non-negativity is needed:
    on a negative integer the loop exits with no amount of fuel (Euclidean
    division by ten never takes a negative number to zero), and
    [formatFloatAsString] hangs on every float whose integer part is
    negative. *)
Theorem getNumDigits_terminates_on_nonneg :
  (forall val, 0 <= val ->
     exists fuel0, forall fuel, (fuel0 <= fuel)%nat ->
       getNumDigits_loop fuel val 0 = Some (numDigits val)) /\
  (forall val, 0 <= val -> getNumDigits val = Ok (numDigits val)) /\
  numDigits 0 = 0 /\
  (forall val, 0 < val ->
     1 <= numDigits val /\
     10 ^ (numDigits val - 1) <= val < 10 ^ numDigits val) /\
  (forall val fuel, val < 0 -> getNumDigits_loop fuel val 0 = None) /\
  (forall f, nonneg_float f -> succeeds (formatFloatAsString f)) /\
  (forall f, Float_Int f < 0 -> formatFloatAsString f = Hang) /\
  (forall buy sell v, 0 <= v ->
     returns (CalculateExchangeRateAsFloat buy sell v)) /\
  (forall q, 0 <= q ->
     returns (calculateQuantityToFillFromDAOCoinBaseUnitsToFloat q) /\
     returns (calculateQuantityToFillFromDESONanosToFloat q)).
Proof.
  repeat split.
  - intros val Hval. exists (digits_fuel val). intros fuel Hfuel.
    pose proof (getNumDigits_nonneg_Ok val Hval) as H.
    unfold getNumDigits in H.
    destruct (getNumDigits_loop (digits_fuel val) val 0) as [r|] eqn:E;
      [|discriminate].
    injection H as <-.
    apply (getNumDigits_loop_more _ _ _ _ E). exact Hfuel.
  - apply getNumDigits_nonneg_Ok.
  - apply numDigits_pos. assumption.
  - apply numDigits_pos. assumption.
  - apply numDigits_pos. assumption.
  - intros val fuel Hval. apply getNumDigits_loop_negative. exact Hval.
  - intros f Hf.
    destruct (Z_le_gt_dec (numDigits (Float_Int f)) 15).
    + eexists. apply formatFloatAsString_small; assumption.
    + eexists. apply formatFloatAsString_large; [assumption|lia].
  - intros f Hf. unfold formatFloatAsString.
    rewrite getNumDigits_negative_Hang by exact Hf. reflexivity.
  - intros buy sell v Hv.
    rewrite CalculateExchangeRateAsFloat_exact by exact Hv.
    apply round_float64_returns.
  - unfold calculateQuantityToFillFromDAOCoinBaseUnitsToFloat.
    rewrite BaseUnitsPerCoin_value, quantity_float_exact by lia.
    apply round_float64_returns.
  - unfold calculateQuantityToFillFromDESONanosToFloat.
    rewrite NanosPerUnit_value, quantity_float_exact by lia.
    apply round_float64_returns.
Qed.

Lemma getNumDigits_terminates_on_nonneg_witness :
  getNumDigits 1234 = Ok (numDigits 1234) /\
  getNumDigits_loop 1000 (-7) 0 = None /\
  formatFloatAsString (mkFloat true 3 (-1)) = Hang.
Proof.
  destruct getNumDigits_terminates_on_nonneg
    as (_ & H2 & _ & _ & H5 & _ & H7 & _).
  split; [apply H2; lia|].
  split; [apply H5; lia|].
  apply H7. vm_compute. reflexivity.
Defined.

(** ** The rate converter *)

Lemma MulOverflow_small (x y : Z) :
  0 <= x * y < U256.modulus -> U256.MulOverflow x y = (x * y, false).
Proof.
  intros H. unfold U256.MulOverflow.
  rewrite Z.mod_small by exact H.
  destruct (Z.leb_spec U256.modulus (x * y)); [lia|reflexivity].
Qed.

Lemma MulOverflow_large (x y : Z) :
  U256.modulus <= x * y -> snd (U256.MulOverflow x y) = true.
Proof.
  intros H. unfold U256.MulOverflow. cbn [snd].
  destruct (Z.leb_spec U256.modulus (x * y)); [reflexivity|lia].
Qed.

(** C1. [CalculateScaledExchangeRate] first obtains the raw scaled rate [R]
    of the formatted price from the ledger library (an error of the library
    is returned as it is, a raw rate of zero is a range error) and then
    corrects it for $DESO: buying $DESO gives [R * K], or an overflow error
    when the product does not fit 256 bits; otherwise selling $DESO gives
    [R / K], or a range error when the quotient is zero; otherwise [R]
    itself; [K] is the constant [10^9] of
    [getDESOToDAOCoinBaseUnitsScalingFactor]. With the library of the
    specification, the price 1.0 gives [RATE_SCALE / K] when $DESO is sold
    and [RATE_SCALE * K] when it is bought. *)
Theorem CalculateScaledExchangeRate_correction :
  getDESOToDAOCoinBaseUnitsScalingFactor = 10 ^ 9 /\
  (forall (L : LedgerLib) (buy sell : string) (f : float64) (text : string),
     formatFloatAsString f = Ok text ->
     (forall e, CalculateScaledExchangeRateFromString text = Err e ->
        CalculateScaledExchangeRate buy sell f = Err e) /\
     (CalculateScaledExchangeRateFromString text = Ok 0 ->
        CalculateScaledExchangeRate buy sell f = Err RangeError) /\
     (forall R, CalculateScaledExchangeRateFromString text = Ok R -> 0 < R ->
        (buy = "" -> R * 10 ^ 9 < 2 ^ 256 ->
           CalculateScaledExchangeRate buy sell f = Ok (R * 10 ^ 9)) /\
        (buy = "" -> 2 ^ 256 <= R * 10 ^ 9 ->
           CalculateScaledExchangeRate buy sell f = Err OverflowError) /\
        (buy <> "" -> sell = "" -> R / 10 ^ 9 <> 0 ->
           CalculateScaledExchangeRate buy sell f = Ok (R / 10 ^ 9)) /\
        (buy <> "" -> sell = "" -> R / 10 ^ 9 = 0 ->
           CalculateScaledExchangeRate buy sell f = Err RangeError) /\
        (buy <> "" -> sell <> "" ->
           CalculateScaledExchangeRate buy sell f = Ok R))) /\
  CalculateScaledExchangeRate (lib := SpecLib) "DAO" "" float_1 =
    Ok (OneE38 / 10 ^ 9) /\
  CalculateScaledExchangeRate (lib := SpecLib) "" "DAO" float_1 =
    Ok (OneE38 * 10 ^ 9).
Proof.
  split; [reflexivity|]. split; [|split; vm_compute; reflexivity].
  intros L buy sell f text Hfmt.
  unfold CalculateScaledExchangeRate. rewrite Hfmt. cbn [bind].
  split; [|split].
  - intros e ->. reflexivity.
  - intros ->. reflexivity.
  - intros R -> HR. cbn [bind]. unfold U256.IsZero.
    destruct (Z.eqb_spec R 0) as [|_]; [lia|].
    rewrite getDESOToDAOCoinBaseUnitsScalingFactor_value.
    repeat split.
    + intros -> Hfit. cbn [String.eqb].
      rewrite MulOverflow_small; [reflexivity|].
      unfold U256.modulus. lia.
    + intros -> Hbig. cbn [String.eqb].
      pose proof (MulOverflow_large R (10 ^ 9) Hbig) as Hov.
      destruct (U256.MulOverflow R (10 ^ 9)) as [product overflow].
      cbn [snd] in Hov. rewrite Hov. reflexivity.
    + intros Hbuy -> Hq.
      apply String.eqb_neq in Hbuy. rewrite Hbuy. cbn [String.eqb].
      unfold U256.Div. change (10 ^ 9 =? 0) with false. cbv iota.
      destruct (Z.eqb_spec (R / 10 ^ 9) 0); [contradiction|reflexivity].
    + intros Hbuy -> Hq.
      apply String.eqb_neq in Hbuy. rewrite Hbuy. cbn [String.eqb].
      unfold U256.Div. change (10 ^ 9 =? 0) with false. cbv iota.
      rewrite Hq. reflexivity.
    + intros Hbuy Hsell.
      apply String.eqb_neq in Hbuy, Hsell. rewrite Hbuy, Hsell. reflexivity.
Qed.

Lemma CalculateScaledExchangeRate_correction_witness :
  CalculateScaledExchangeRate (lib := SpecLib) "" "DAO" float_3 =
    Ok (300000000000000000000000000000000000000 * 10 ^ 9) /\
  CalculateScaledExchangeRate (lib := SpecLib) "DAO" "" float_3 =
    Ok (300000000000000000000000000000000000000 / 10 ^ 9) /\
  CalculateScaledExchangeRate (lib := SpecLib) "DAO1" "DAO2" float_3 =
    Ok 300000000000000000000000000000000000000.
Proof.
  destruct CalculateScaledExchangeRate_correction as (_ & H & _).
  assert (Hfmt : formatFloatAsString float_3 = Ok "3.00000000000000")
    by (vm_compute; reflexivity).
  assert (Hraw : CalculateScaledExchangeRateFromString (LedgerLib := SpecLib)
                   "3.00000000000000" =
                 Ok 300000000000000000000000000000000000000)
    by (vm_compute; reflexivity).
  split; [|split].
  - destruct (H SpecLib "" "DAO" float_3 _ Hfmt) as (_ & _ & HR).
    destruct (HR _ Hraw ltac:(lia)) as (H1 & _).
    apply H1; [reflexivity|vm_compute; reflexivity].
  - destruct (H SpecLib "DAO" "" float_3 _ Hfmt) as (_ & _ & HR).
    destruct (HR _ Hraw ltac:(lia)) as (_ & _ & H3 & _).
    apply H3; [discriminate|reflexivity|vm_compute; discriminate].
  - destruct (H SpecLib "DAO1" "DAO2" float_3 _ Hfmt) as (_ & _ & HR).
    destruct (HR _ Hraw ltac:(lia)) as (_ & _ & _ & _ & H5).
    apply H5; discriminate.
Defined.

(** ** The quantity converter *)

Lemma isCoinToFillDESO_true_iff (buy sell op : string) :
  isCoinToFillDESO buy sell op = true <->
  (buy = "" /\ op = "BID") \/ (sell = "" /\ op = "ASK").
Proof.
  unfold isCoinToFillDESO, DAOCoinLimitOrderOperationTypeStringBID,
    DAOCoinLimitOrderOperationTypeStringASK.
  rewrite orb_true_iff, !andb_true_iff, !String.eqb_eq. reflexivity.
Qed.

Lemma CalculateQuantityToFillAsBaseUnits_factor
  (L : LedgerLib) (buy sell op : string) (q : float64) :
  CalculateQuantityToFillAsBaseUnits buy sell op q =
  (text <- formatFloatAsString q ;;
   ScaleFloatFormatStringToUint256 text
     (if isCoinToFillDESO buy sell op then 10 ^ 9 else 10 ^ 18)).
Proof.
  unfold CalculateQuantityToFillAsBaseUnits.
  destruct (isCoinToFillDESO buy sell op); reflexivity.
Qed.

(** C2. The quantity field is in units of $DESO exactly when $DESO is
    bought by a BID or sold by an ASK: [isCoinToFillDESO] agrees with the
    decision table [QuantityAssetSide] of the specification on every pair
    and operation, [CalculateQuantityToFillAsBaseUnits] hands the formatted
    quantity to the library with the factor [10^9] in exactly those cases
    and with [10^18] in every other case, and a pair without $DESO is
    always on the [10^18] side. *)
Theorem CalculateQuantityToFillAsBaseUnits_side :
  forall (L : LedgerLib) (buy sell : string) (op : OperationType)
         (q : float64),
    (isCoinToFillDESO buy sell (operation_string op) = true <->
       (buy = "" /\ op = BID) \/ (sell = "" /\ op = ASK)) /\
    (isCoinToFillDESO buy sell (operation_string op) = true <->
       QuantityAssetSide (asset_of buy) (asset_of sell) op = Reference) /\
    CalculateQuantityToFillAsBaseUnits buy sell (operation_string op) q =
      (text <- formatFloatAsString q ;;
       ScaleFloatFormatStringToUint256 text
         (base_units (QuantityAssetSide (asset_of buy) (asset_of sell) op))) /\
    (asset_of buy = Generic -> asset_of sell = Generic ->
       QuantityAssetSide (asset_of buy) (asset_of sell) op = Generic /\
       isCoinToFillDESO buy sell (operation_string op) = false).
Proof.
  intros L buy sell op q.
  assert (Hside :
    isCoinToFillDESO buy sell (operation_string op) =
    match QuantityAssetSide (asset_of buy) (asset_of sell) op with
    | Reference => true
    | Generic => false
    end).
  { unfold isCoinToFillDESO, asset_of.
    destruct (buy =? "")%string, (sell =? "")%string, op; reflexivity. }
  split; [|split; [|split]].
  - rewrite isCoinToFillDESO_true_iff. destruct op; cbn [operation_string];
      unfold DAOCoinLimitOrderOperationTypeStringASK,
        DAOCoinLimitOrderOperationTypeStringBID;
      split; intros [[H1 H2]|[H1 H2]]; try discriminate; auto.
  - rewrite Hside.
    destruct (QuantityAssetSide (asset_of buy) (asset_of sell) op);
      split; congruence.
  - rewrite CalculateQuantityToFillAsBaseUnits_factor, Hside.
    destruct (QuantityAssetSide (asset_of buy) (asset_of sell) op);
      reflexivity.
  - intros Hb Hs. rewrite Hside, Hb, Hs. destruct op; split; reflexivity.
Qed.

Lemma CalculateQuantityToFillAsBaseUnits_side_witness :
  QuantityAssetSide (asset_of "DAO1") (asset_of "DAO2") BID = Generic /\
  isCoinToFillDESO "DAO1" "DAO2" (operation_string BID) = false.
Proof.
  apply (CalculateQuantityToFillAsBaseUnits_side SpecLib "DAO1" "DAO2" BID
           float_1); reflexivity.
Defined.

(** C9. Neither direction of the quantity converter checks the operation
    type: for every operation string other than "BID" and "ASK", the empty
    one included, [isCoinToFillDESO] is false whatever the pair is, and the
    quantity is scaled with the DAO coin factor [10^18], to base units and
    back, without an error for the operation type; with the library of the
    specification the quantity 1.0 of a pair that buys $DESO becomes
    [10^18] base units under the empty operation string. *)
Theorem quantity_operation_type_unchecked :
  (forall (L : LedgerLib) (buy sell op : string) (q : float64) (u : Z),
     op <> "BID" -> op <> "ASK" ->
     isCoinToFillDESO buy sell op = false /\
     CalculateQuantityToFillAsBaseUnits buy sell op q =
       (text <- formatFloatAsString q ;;
        ScaleFloatFormatStringToUint256 text (10 ^ 18)) /\
     CalculateQuantityToFillAsFloat buy sell op u =
       calculateQuantityToFillAsFloatWithScalingFactor u (10 ^ 18) /\
     (0 <= u ->
      CalculateQuantityToFillAsFloat buy sell op u =
        nearest_double u (10 ^ 18))) /\
  CalculateQuantityToFillAsBaseUnits (lib := SpecLib) "" "DAO" "" float_1 =
    Ok (10 ^ 18) /\
  CalculateQuantityToFillAsBaseUnits (lib := SpecLib) "" "DAO" "BID" float_1 =
    Ok (10 ^ 9).
Proof.
  split; [|split; vm_compute; reflexivity].
  intros L buy sell op q u Hbid Hask.
  assert (Hfalse : isCoinToFillDESO buy sell op = false).
  { destruct (isCoinToFillDESO buy sell op) eqn:E; [|reflexivity].
    apply isCoinToFillDESO_true_iff in E.
    destruct E as [[_ E]|[_ E]]; contradiction. }
  assert (Hfloat : CalculateQuantityToFillAsFloat buy sell op u =
                   calculateQuantityToFillAsFloatWithScalingFactor u (10 ^ 18)).
  { unfold CalculateQuantityToFillAsFloat. rewrite Hfalse. reflexivity. }
  split; [exact Hfalse|]. split; [|split].
  - rewrite CalculateQuantityToFillAsBaseUnits_factor, Hfalse. reflexivity.
  - exact Hfloat.
  - intros Hu. rewrite Hfloat. apply quantity_float_exact; lia.
Qed.

Lemma quantity_operation_type_unchecked_witness :
  isCoinToFillDESO "" "" "bid" = false /\
  CalculateQuantityToFillAsFloat "" "" "bid" 500000000000000000 =
    nearest_double 500000000000000000 (10 ^ 18).
Proof.
  destruct quantity_operation_type_unchecked as (H & _).
  assert (Hbid : "bid" <> "BID") by (intros E; discriminate E).
  assert (Hask : "bid" <> "ASK") by (intros E; discriminate E).
  destruct (H SpecLib "" "" "bid" float_1 500000000000000000 Hbid Hask)
    as (H1 & _ & _ & H4).
  split; [exact H1|]. apply H4. lia.
Defined.

(** ** Zero quantities *)

Lemma round_half_even_zero (d : Z) : 0 < d -> round_half_even 0 d = 0.
Proof. intros Hd. apply (round_half_even_exact 0 d Hd). Qed.

Lemma formatFloatAsString_zero (e : Z) :
  exists text,
    formatFloatAsString (mkFloat false 0 e) = Ok text /\
    decimal_parts text = Some (0, 0, 15).
Proof.
  set (f := mkFloat false 0 e).
  assert (Hf : nonneg_float f) by (split; [reflexivity|cbn; lia]).
  assert (Hi : Float_Int f = 0).
  { unfold Float_Int, f. cbn [f_neg f_mant f_exp].
    destruct (0 <=? e); [lia|]. apply Zdiv_0_l. }
  exists (Sprintf_f 15 f). split.
  - rewrite formatFloatAsString_small; rewrite ?Hi, ?numDigits_zero;
      [reflexivity|exact Hf|lia].
  - rewrite Sprintf_f_parts by (try exact Hf; lia).
    assert (Hs : scaled_round 15 f = 0).
    { unfold scaled_round, f. cbn [f_neg f_mant f_exp].
      destruct (Z.leb_spec 0 e); [lia|].
      rewrite Z.mul_0_l. apply round_half_even_zero. apply pow2_pos. lia. }
    rewrite Hs. reflexivity.
Qed.

(** C4. A zero quantity is rejected with a range error for every pair and
    every operation string: [CalculateQuantityToFillAsBaseUnits] formats the
    float 0.0 as a text of value zero and hands it to the library, and the
    parser of the specification answers zero with a range error, as it does
    for the texts "0" and "0.0" at every scaling factor. The routes add no
    test of their own on this path: the outcome is the one of the library
    on that text. *)
Theorem zero_quantity_rejected :
  (forall (buy sell op : string) (e : Z),
     CalculateQuantityToFillAsBaseUnits (lib := SpecLib) buy sell op
       (mkFloat false 0 e) = Err RangeError) /\
  (forall F : Z,
     ParseDecimalToScaled "0" F = Err RangeError /\
     ParseDecimalToScaled "0.0" F = Err RangeError) /\
  (forall (L : LedgerLib) (buy sell op : string) (e : Z),
     exists text,
       formatFloatAsString (mkFloat false 0 e) = Ok text /\
       decimal_parts text = Some (0, 0, 15) /\
       CalculateQuantityToFillAsBaseUnits buy sell op (mkFloat false 0 e) =
         ScaleFloatFormatStringToUint256 text
           (if isCoinToFillDESO buy sell op then 10 ^ 9 else 10 ^ 18)).
Proof.
  split; [|split].
  - intros buy sell op e.
    rewrite CalculateQuantityToFillAsBaseUnits_factor.
    destruct (formatFloatAsString_zero e) as (text & -> & Hparts).
    cbn [bind ScaleFloatFormatStringToUint256 SpecLib].
    unfold ParseDecimalToScaled. rewrite Hparts.
    rewrite !Z.mul_0_l, Zdiv_0_l. reflexivity.
  - intros F. unfold ParseDecimalToScaled.
    change (decimal_parts "0") with (Some (0, 0, 0)).
    change (decimal_parts "0.0") with (Some (0, 0, 1)).
    cbv iota beta. rewrite !Z.mul_0_l, !Zdiv_0_l. split; reflexivity.
  - intros L buy sell op e.
    destruct (formatFloatAsString_zero e) as (text & Hfmt & Hparts).
    exists text. split; [exact Hfmt|]. split; [exact Hparts|].
    rewrite CalculateQuantityToFillAsBaseUnits_factor, Hfmt. reflexivity.
Qed.

(** ** Prices as text *)

(** C8. For a pair of two DAO coins the price "3" of a BID becomes the rate
    [3 * 10^38] and the price "3" of an ASK becomes
    33333333333333333333333333333333333334, the quotient [10^38 / 3] rounded
    up, one more than the floor, while the parse of a price floors (the
    digits of 1.234e-38 below [10^-38] are dropped); the float route gives
    the same BID rate for the price 3.0. *)
Theorem price_three_bid_and_ask :
  CalculateScaledExchangeRateFromPriceString "DAO1" "DAO2" "3" BID =
    Ok 300000000000000000000000000000000000000 /\
  CalculateScaledExchangeRateFromPriceString "DAO1" "DAO2" "3" ASK =
    Ok 33333333333333333333333333333333333334 /\
  300000000000000000000000000000000000000 = 3 * 10 ^ 38 /\
  33333333333333333333333333333333333334 = 10 ^ 38 / 3 + 1 /\
  3 * (33333333333333333333333333333333333334 - 1) < 10 ^ 38
    <= 3 * 33333333333333333333333333333333333334 /\
  CalculateScaledExchangeRateFromPriceString "DAO1" "DAO2"
    "0.00000000000000000000000000000000000001234" BID = Ok 1 /\
  CalculateScaledExchangeRate (lib := SpecLib) "DAO1" "DAO2" float_3 =
    Ok 300000000000000000000000000000000000000.
Proof.
  repeat split; vm_compute; reflexivity || discriminate.
Qed.

(** ** The tests of the repository, run on the model *)

(** The literals of the tests denote the doubles used here. *)
Example literals_are_doubles :
  ParseFloat "1.1" = Ok float_1_1 /\
  ParseFloat "0.0000000000000001" = Ok float_1e_16 /\
  ParseFloat "100000000000000000000000000000000000000" = Ok float_1e38 /\
  ParseFloat "10000000000000000000000000000000000000000" = Ok float_1e40 /\
  ParseFloat "1234567890123456789.0" = Ok float_1234567890123456789 /\
  ParseFloat "0.9999999999999999" = Ok float_below_1.
Proof. repeat split; vm_compute; reflexivity. Qed.

(** [TestCalculateScaledExchangeRate]: some of the rates that succeed and
    the two that fail. *)
Example test_CalculateScaledExchangeRate :
  CalculateScaledExchangeRate (lib := SpecLib) "DAO1" "DAO2" float_1_1 =
    Ok (OneE38 * 1 + OneE38 / 10) /\
  CalculateScaledExchangeRate (lib := SpecLib) "DAO1" "DAO2"
    (mkFloat false 5120000000000005 (-9)) = Ok (OneE38 * 10000000000000) /\
  CalculateScaledExchangeRate (lib := SpecLib) "DAO1" "DAO2"
    (mkFloat false 8000000000000008 (-3)) = Ok (OneE38 * 1000000000000000) /\
  CalculateScaledExchangeRate (lib := SpecLib) "DAO1" "DAO2"
    float_1234567890123456789 = Ok (OneE38 * 1234567890123450000) /\
  CalculateScaledExchangeRate (lib := SpecLib) "DAO1" "DAO2" float_1e_16 =
    Err RangeError /\
  CalculateScaledExchangeRate (lib := SpecLib) "DAO1" "DAO2" float_1e40 =
    Err OverflowError.
Proof. repeat split; vm_compute; reflexivity. Qed.

(** [TestCalculateScaledExchangeRateFromPriceString]: the prices that
    succeed. *)
Example test_CalculateScaledExchangeRateFromPriceString :
  CalculateScaledExchangeRateFromPriceString "DAO1" "DAO2" "1.0" ASK =
    Ok OneE38 /\
  CalculateScaledExchangeRateFromPriceString "DAO1" "DAO2" "20" BID =
    Ok (20 * OneE38) /\
  CalculateScaledExchangeRateFromPriceString "DAO1" "DAO2" "20" ASK =
    Ok (OneE38 / 20) /\
  CalculateScaledExchangeRateFromPriceString "DAO1" "DAO2" "0.005" BID =
    Ok 500000000000000000000000000000000000 /\
  CalculateScaledExchangeRateFromPriceString "DAO1" "DAO2" ".005" ASK =
    Ok 20000000000000000000000000000000000000000 /\
  CalculateScaledExchangeRateFromPriceString "DAO1" "DAO2"
    "0.00000000000000000000000000000000000001" ASK = Ok (OneE38 * OneE38) /\
  CalculateScaledExchangeRateFromPriceString "DAO1" "DAO2"
    "100000000000000000000000000000000000000" BID = Ok (OneE38 * OneE38) /\
  CalculateScaledExchangeRateFromPriceString "DAO1" "DAO2"
    "100000000000000000000000000000000000000" ASK = Ok 1 /\
  CalculateScaledExchangeRateFromPriceString "DAO1" "DAO2"
    "0.00000000000000000000000000000000000001234" BID = Ok 1.
Proof. repeat split; vm_compute; reflexivity. Qed.

(** [TestCalculateExchangeRateAsFloat] and
    [TestCalculateQuantityToFillAsFloat]. *)
Example test_CalculateExchangeRateAsFloat :
  CalculateExchangeRateAsFloat "DAO1" "DAO2"
    (OneE38 * 100 + OneE38 / 100000000) = ParseFloat "100.00000001" /\
  CalculateExchangeRateAsFloat "DAO1" ""
    (OneE38 * 100 + OneE38 / 100000000) = ParseFloat "100000000010" /\
  CalculateExchangeRateAsFloat "" "DAO1"
    (OneE38 * 100 + OneE38 / 100000000) =
    Ok (mkFloat false 7555786373347011 (-76)) /\
  CalculateQuantityToFillAsFloat "" "DAO" "BID" BaseUnitsPerCoin =
    ParseFloat "1000000000" /\
  CalculateQuantityToFillAsFloat "DAO" "" "BID" BaseUnitsPerCoin =
    ParseFloat "1".
Proof. repeat split; vm_compute; reflexivity. Qed.

(** ** The significant-digit limiter *)



Lemma Qfloor_F2Q (f : float64) :
  nonneg_float f -> Qfloor (F2Q f) = Float_Int f.
Proof.
  intros [Hs Hm]. unfold F2Q, Float_Int. rewrite Hs.
  destruct (Z.leb_spec 0 (f_exp f)).
  - apply Qfloor_Z.
  - unfold Qfloor. rewrite Z2Pos.id by (apply pow2_pos; lia). reflexivity.
Qed.

(** ** Rounding in the conversions to decimal *)

Lemma decimal_value_split (S k : Z) :
  0 <= k ->
  decimal_value (S / 10 ^ k, S mod 10 ^ k, k) = S # Z.to_pos (10 ^ k).
Proof.
  intros Hk. unfold decimal_value. f_equal.
  pose proof (pow10_pos k Hk).
  rewrite (Z.div_mod S (10 ^ k)) at 3 by lia. lia.
Qed.

(** The text of [%.<prec>f] is within half a unit of its last digit. *)
Lemma Sprintf_f_near (prec : Z) (f : float64) :
  nonneg_float f -> 0 <= prec ->
  (Qabs ((scaled_round prec f # Z.to_pos (10 ^ prec)) - F2Q f)
   <= 1 # Z.to_pos (2 * 10 ^ prec))%Q.
Proof.
  intros [Hs Hm] Hp. pose proof (pow10_pos prec Hp) as H10.
  unfold scaled_round, F2Q. rewrite Hs.
  destruct (Z.leb_spec 0 (f_exp f)) as [He|He].
  - pose proof (pow2_pos (f_exp f) He) as H2.
    unfold Qle, Qabs, Qminus, Qplus, Qopp, inject_Z. cbn [Qnum Qden].
    rewrite Pos.mul_1_r, !Z2Pos.id by lia.
    replace (f_mant f * 2 ^ f_exp f * 10 ^ prec * 1 +
             - (f_mant f * 2 ^ f_exp f) * 10 ^ prec) with 0 by ring.
    cbn [Z.abs]. lia.
  - pose proof (pow2_pos (- f_exp f) ltac:(lia)) as H2.
    pose proof (round_half_even_near (f_mant f * 10 ^ prec)
                  (2 ^ (- f_exp f)) H2) as Hnear.
    set (S := round_half_even (f_mant f * 10 ^ prec) (2 ^ (- f_exp f))) in *.
    set (D := 2 ^ (- f_exp f)) in *. set (P := 10 ^ prec) in *.
    unfold Qle, Qabs, Qminus, Qplus, Qopp. cbn [Qnum Qden].
    rewrite Pos2Z.inj_mul, !Z2Pos.id by lia.
    replace (S * D + - f_mant f * P) with (S * D - f_mant f * P) by ring.
    nia.
Qed.

Lemma inject_Z_Float_Int_le (f : float64) :
  nonneg_float f -> (inject_Z (Float_Int f) <= F2Q f)%Q.
Proof.
  intros Hf. rewrite <- (Qfloor_F2Q f Hf). apply Qfloor_le.
Qed.

Lemma F2Q_lt_Float_Int_succ (f : float64) :
  nonneg_float f -> (F2Q f < inject_Z (Float_Int f + 1))%Q.
Proof.
  intros Hf. rewrite <- (Qfloor_F2Q f Hf). apply Qlt_floor.
Qed.

Lemma decimal_parts_point_zero (T : Z) :
  0 <= T -> decimal_parts (utoa T ++ ".0") = Some (T, 0, 1).
Proof.
  intros HT. apply (decimal_parts_whole_frac T 0 "0" HT). reflexivity.
Qed.

(** ** The range of the rate converter *)



Lemma CalculateScaledExchangeRate_spec_raw
  (buy sell : string) (f : float64) (text : string) (i fr k : Z) :
  formatFloatAsString f = Ok text ->
  decimal_parts text = Some (i, fr, k) ->
  CalculateScaledExchangeRate (lib := SpecLib) buy sell f =
  (let raw := i * 10 ^ 38 + fr * 10 ^ 38 / 10 ^ k in
   if raw =? 0 then Err RangeError
   else if 2 ^ 256 <=? raw then Err OverflowError
   else if (buy =? "")%string then
     if 2 ^ 256 <=? raw * 10 ^ 9 then Err OverflowError
     else Ok ((raw * 10 ^ 9) mod 2 ^ 256)
   else if (sell =? "")%string then
     if raw / 10 ^ 9 =? 0 then Err RangeError else Ok (raw / 10 ^ 9)
   else Ok raw).
Proof.
  intros Hfmt Hparts. unfold CalculateScaledExchangeRate.
  rewrite Hfmt. cbn [bind CalculateScaledExchangeRateFromString SpecLib].
  unfold ParseDecimalToScaled. rewrite Hparts, OneE38_value.
  cbv zeta. set (raw := i * 10 ^ 38 + fr * 10 ^ 38 / 10 ^ k).
  destruct (Z.eqb_spec raw 0) as [E0|NE0]; [reflexivity|].
  unfold U256.modulus.
  destruct (Z.leb_spec (2 ^ 256) raw); [reflexivity|].
  cbn [bind]. unfold U256.IsZero.
  destruct (Z.eqb_spec raw 0) as [|_]; [contradiction|].
  rewrite getDESOToDAOCoinBaseUnitsScalingFactor_value.
  unfold U256.MulOverflow, U256.Div, U256.modulus.
  change (10 ^ 9 =? 0) with false. cbv iota.
  destruct (buy =? "")%string; [|reflexivity].
  destruct (2 ^ 256 <=? raw * 10 ^ 9); reflexivity.
Qed.

(** C5, as amended. Whatever the library is, a raw scaled rate of zero is
    a range error and an error of the library is returned unchanged. With
    the parser of the specification, the price is judged on its formatted
    text: the raw value [i * 10^38 + fr * 10^38 / 10^k] of a text with
    integer part [i] and [k] fractional digits [fr] gives a range error when
    it is zero and an overflow error when it does not fit 256 bits, and for
    a pair of two DAO coins every other text is accepted with that raw
    value. The double 1e40 overflows and the double 1e-16, formatted as
    "0.000000000000000", is out of range. *)
Theorem rate_range_errors :
  (forall (L : LedgerLib) (buy sell : string) (f : float64) (text : string),
     formatFloatAsString f = Ok text ->
     (CalculateScaledExchangeRateFromString text = Ok 0 ->
        CalculateScaledExchangeRate buy sell f = Err RangeError) /\
     (forall e, CalculateScaledExchangeRateFromString text = Err e ->
        CalculateScaledExchangeRate buy sell f = Err e)) /\
  (forall (buy sell : string) (f : float64) (text : string) (i fr k : Z),
     formatFloatAsString f = Ok text ->
     decimal_parts text = Some (i, fr, k) ->
     let raw := i * 10 ^ 38 + fr * 10 ^ 38 / 10 ^ k in
     (raw = 0 ->
        CalculateScaledExchangeRate (lib := SpecLib) buy sell f =
          Err RangeError) /\
     (2 ^ 256 <= raw ->
        CalculateScaledExchangeRate (lib := SpecLib) buy sell f =
          Err OverflowError) /\
     (0 < raw < 2 ^ 256 -> buy <> "" -> sell <> "" ->
        CalculateScaledExchangeRate (lib := SpecLib) buy sell f = Ok raw)) /\
  CalculateScaledExchangeRate (lib := SpecLib) "DAO1" "DAO2" float_1e40 =
    Err OverflowError /\
  formatFloatAsString float_1e_16 = Ok "0.000000000000000" /\
  CalculateScaledExchangeRate (lib := SpecLib) "DAO1" "DAO2" float_1e_16 =
    Err RangeError.
Proof.
  split; [|split; [|repeat split; vm_compute; reflexivity]].
  - intros L buy sell f text Hfmt.
    unfold CalculateScaledExchangeRate. rewrite Hfmt. cbn [bind].
    split; [intros ->|intros e ->]; reflexivity.
  - intros buy sell f text i fr k Hfmt Hparts raw.
    rewrite (CalculateScaledExchangeRate_spec_raw _ _ _ _ _ _ _ Hfmt Hparts).
    cbv zeta. fold raw. split; [|split].
    + intros ->. reflexivity.
    + intros Hbig. destruct (Z.eqb_spec raw 0); [lia|].
      destruct (Z.leb_spec (2 ^ 256) raw); [reflexivity|lia].
    + intros [Hlo Hhi] Hbuy Hsell.
      apply String.eqb_neq in Hbuy, Hsell. rewrite Hbuy, Hsell.
      destruct (Z.eqb_spec raw 0); [lia|].
      destruct (Z.leb_spec (2 ^ 256) raw); [lia|reflexivity].
Qed.

Lemma rate_range_errors_witness :
  CalculateScaledExchangeRate (lib := SpecLib) "DAO1" "DAO2" float_1e39 =
    Ok (999999999999999000000000000000000000000 * 10 ^ 38 +
        0 * 10 ^ 38 / 10 ^ 1).
Proof.
  destruct rate_range_errors as (_ & H & _).
  assert (Hfmt : formatFloatAsString float_1e39 =
                 Ok "999999999999999000000000000000000000000.0")
    by (vm_compute; reflexivity).
  assert (Hparts : decimal_parts "999999999999999000000000000000000000000.0" =
                   Some (999999999999999000000000000000000000000, 0, 1))
    by (vm_compute; reflexivity).
  destruct (H "DAO1" "DAO2" float_1e39 _ _ _ _ Hfmt Hparts) as (_ & _ & H3).
  apply H3.
  - vm_compute. split; reflexivity.
  - intros E; discriminate E.
  - intros E; discriminate E.
Defined.

(** C5, as stated, fails: the set of accepted prices is not the interval
    from [10^-38] to [10^38]. The double 1e-16 lies in the interval and is
    rejected, as the tests of the repository expect; the double next above
    1e38 lies outside it and is accepted with the rate [10^38 * 10^38], the
    rate the tests expect for the price 10^38. *)
Lemma rate_range_not_the_interval :
  ((1 # Z.to_pos (10 ^ 38)) <= F2Q float_1e_16)%Q /\
  (F2Q float_1e_16 < inject_Z (10 ^ 38))%Q /\
  CalculateScaledExchangeRate (lib := SpecLib) "DAO1" "DAO2" float_1e_16 =
    Err RangeError /\
  (inject_Z (10 ^ 38) <= F2Q float_above_1e38)%Q /\
  formatFloatAsString float_above_1e38 =
    Ok "100000000000000000000000000000000000000.0" /\
  CalculateScaledExchangeRate (lib := SpecLib) "DAO1" "DAO2" float_above_1e38 =
    Ok (OneE38 * OneE38).
Proof.
  split; [vm_compute; intros E; discriminate E|].
  split; [vm_compute; reflexivity|].
  split; [vm_compute; reflexivity|].
  split; [vm_compute; intros E; discriminate E|].
  split; vm_compute; reflexivity.
Qed.

(** ** The round trip of a rate *)


(** [TestCalculateScaledExchangeRateFromPriceString]: the prices that
    fail, for either operation. *)
Example test_price_string_errors :
  Forall
    (fun price =>
       forall op,
         exists e,
           CalculateScaledExchangeRateFromPriceString "DAO1" "DAO2" price op =
           Err e)
    [ "0.000000000000000000000000000000000000001";
      "10000000000000000000000000000000000000000";
      "0"; "0.0"; "-1"; "-1.0"; "-.1"; "a"; "2.a"; "a.2"; "" ].
Proof.
  repeat constructor; intros []; eexists; vm_compute; reflexivity.
Qed.

(** [TestCalculateQuantityToFillAsBaseUnits]: the quantity 1 on the four
    sides. *)
Example test_CalculateQuantityToFillAsBaseUnits :
  CalculateQuantityToFillAsBaseUnits (lib := SpecLib) "" "DAO" "BID" float_1 =
    Ok (U256.SetUint64 NanosPerUnit) /\
  CalculateQuantityToFillAsBaseUnits (lib := SpecLib) "DAO" "" "BID" float_1 =
    Ok BaseUnitsPerCoin /\
  CalculateQuantityToFillAsBaseUnits (lib := SpecLib) "DAO" "" "ASK" float_1 =
    Ok (U256.SetUint64 NanosPerUnit) /\
  CalculateQuantityToFillAsBaseUnits (lib := SpecLib) "" "DAO" "ASK" float_1 =
    Ok BaseUnitsPerCoin.
Proof. repeat split; vm_compute; reflexivity. Qed.

(** The named constants are doubles. *)
Example named_doubles :
  Forall is_double
    [ float_0; float_1; float_3; float_1_1; float_below_1; float_1e_16;
      float_1e38; float_above_1e38; float_1e39; float_1e40;
      float_1234567890123456789; float_1e23;
      float_99999999999999900000000; float_1_5e_15; float_1e_15;
      float_100000000000_0625 ].
Proof. repeat constructor; cbn; lia. Qed.

(** The model of [strconv.ParseFloat] at the edges of the doubles: a tie
    goes to the even mantissa, the smallest subnormal is reached, and a
    value beyond the largest double is a range error. *)
Example ParseFloat_edges :
  ParseFloat "9007199254740993" = Ok (mkFloat false (2 ^ 52) 1) /\
  ParseFloat "9007199254740995" = Ok (mkFloat false 4503599627370498 1) /\
  ParseFloat ("0." ++ repeat_string "0" 323 ++ "5") =
    Ok (mkFloat false 1 (-1074)) /\
  ParseFloat ("1" ++ repeat_string "0" 309) = Err ErrRange /\
  ParseFloat "-0.5" = Ok (mkFloat true (2 ^ 52) (-53)).
Proof. repeat split; vm_compute; reflexivity. Qed.

(** ** The conversions to float never fail *)

Lemma Qred_num_bounds (n : Z) (d : positive) :
  0 <= n -> 0 <= Qnum (Qred (n # d)) <= n.
Proof.
  intros Hn. unfold Qred.
  pose proof (Z.ggcd_correct_divisors n (Zpos d)) as Hdiv.
  pose proof (Z.ggcd_gcd n (Zpos d)) as Hg.
  pose proof (Z.gcd_nonneg n (Zpos d)) as Hg0.
  destruct (Z.ggcd n (Zpos d)) as (g & n' & d').
  cbn [fst snd Qnum] in *. destruct Hdiv as [Hn' Hd'].
  rewrite <- Hg in Hg0.
  assert (Hgpos : 0 < g).
  { destruct (Z.eq_dec g 0) as [E|NE]; [|lia].
    rewrite E, Z.mul_0_l in Hd'. discriminate Hd'. }
  assert (Hn'0 : 0 <= n').
  { destruct (Z_lt_le_dec n' 0) as [Hneg|]; [|assumption].
    pose proof (Z.mul_pos_neg g n' Hgpos Hneg). lia. }
  split; [exact Hn'0|].
  rewrite Hn'. replace n' with (1 * n') at 1 by lia.
  apply Z.mul_le_mono_nonneg_r; lia.
Qed.

Lemma round_half_even_le (N D B : Z) :
  0 < D -> N < B * D -> round_half_even N D <= B.
Proof.
  intros HD HN. unfold round_half_even.
  assert (N / D < B) by (apply Z.div_lt_upper_bound; lia).
  destruct (_ <? _); [lia|]. destruct (_ <? _); [lia|].
  destruct (Z.even _); lia.
Qed.

Lemma below_2_53_mono (n d e e' : Z) :
  0 <= n -> 0 < d -> e <= e' -> below_2_53 n d e -> below_2_53 n d e'.
Proof.
  intros Hn Hd Hle. unfold below_2_53.
  destruct (Z.leb_spec 0 e) as [He|He], (Z.leb_spec 0 e') as [He'|He'];
    try lia; intros H.
  - assert (2 ^ e <= 2 ^ e') by (apply Z.pow_le_mono_r; lia).
    pose proof (pow2_pos e He). nia.
  - assert (1 <= 2 ^ (- e)) by (pose proof (pow2_pos (- e)); lia).
    pose proof (pow2_pos e' He'). nia.
  - assert (2 ^ (- e') <= 2 ^ (- e)) by (apply Z.pow_le_mono_r; lia).
    nia.
Qed.

Lemma below_2_53_log2 (n d : Z) :
  0 < n -> 0 < d ->
  below_2_53 n d (Z.log2 n - Z.log2 d - 53 + 1).
Proof.
  intros Hn Hd.
  pose proof (Z.log2_spec n Hn) as [_ Hnhi].
  pose proof (Z.log2_spec d Hd) as [Hdlo _].
  pose proof (Z.log2_nonneg n) as Hln. pose proof (Z.log2_nonneg d) as Hld.
  set (ln := Z.log2 n) in *. set (ld := Z.log2 d) in *.
  unfold below_2_53.
  destruct (Z.leb_spec 0 (ln - ld - 53 + 1)) as [He|He].
  - assert (E : 2 ^ Z.succ ln = 2 ^ 53 * 2 ^ ld * 2 ^ (ln - ld - 53 + 1)).
    { rewrite <- !Z.pow_add_r by lia. f_equal. lia. }
    pose proof (pow2_pos (ln - ld - 53 + 1) He). nia.
  - assert (E : 2 ^ Z.succ ln * 2 ^ (- (ln - ld - 53 + 1)) = 2 ^ 53 * 2 ^ ld).
    { rewrite <- !Z.pow_add_r by lia. f_equal. lia. }
    pose proof (pow2_pos (- (ln - ld - 53 + 1)) ltac:(lia)). nia.
Qed.

(** A non-negative rational whose numerator is below [2^1023] is rounded
    to a double, without a range error. *)
Lemma round_float64_Ok (q : Q) :
  Qnum q < 2 ^ 1023 ->
  exists r, round_float64 q = Ok r /\ is_double r /\ f_neg r = false.
Proof.
  intros Hq. unfold round_float64.
  set (n := Qnum q) in *. set (d := Zpos (Qden q)).
  assert (Hd : 0 < d) by (unfold d; lia).
  destruct (Z.leb_spec n 0) as [Hn|Hn].
  - eexists. split; [reflexivity|]. split; [|reflexivity].
    unfold is_double. cbn. lia.
  - cbv zeta.
    set (e0 := Z.log2 n - Z.log2 d - 53).
    set (e1 := if (if 0 <=? e0 then 2 ^ 53 * d * 2 ^ e0 <=? n
                   else 2 ^ 53 * d <=? n * 2 ^ (- e0))
               then e0 + 1 else e0).
    set (e2 := Z.max e1 (-1074)).
    assert (He1 : e0 <= e1 <= e0 + 1 /\ below_2_53 n d e1).
    { unfold e1.
      destruct (if 0 <=? e0 then 2 ^ 53 * d * 2 ^ e0 <=? n
                else 2 ^ 53 * d <=? n * 2 ^ (- e0)) eqn:Hge.
      - split; [lia|]. apply below_2_53_log2; lia.
      - split; [lia|]. unfold below_2_53.
        destruct (0 <=? e0); apply Z.leb_gt in Hge; exact Hge. }
    destruct He1 as [He1 Hb1].
    assert (Hb2 : below_2_53 n d e2)
      by (apply (below_2_53_mono n d e1 e2); unfold e2; lia || assumption).
    assert (He0 : e0 <= 969).
    { unfold e0. pose proof (Z.log2_nonneg d).
      assert (Z.log2 n < 1023) by (apply Z.log2_lt_pow2; lia). lia. }
    set (m := if 0 <=? e2 then round_half_even n (d * 2 ^ e2)
              else round_half_even (n * 2 ^ (- e2)) d).
    assert (Hm : 0 <= m <= 2 ^ 53).
    { unfold m. unfold below_2_53 in Hb2.
      destruct (Z.leb_spec 0 e2) as [He2|He2].
      - pose proof (pow2_pos e2 He2). split.
        + apply round_half_even_nonneg; nia.
        + apply round_half_even_le; nia.
      - pose proof (pow2_pos (- e2) ltac:(lia)). split.
        + apply round_half_even_nonneg; nia.
        + apply round_half_even_le; nia. }
    destruct (Z.eqb_spec m (2 ^ 53)) as [E53|N53].
    + destruct (Z.ltb_spec 971 (e2 + 1)); [unfold e2 in *; lia|].
      eexists. split; [reflexivity|]. split; [|reflexivity].
      unfold is_double. cbn [f_mant f_exp]. unfold e2 in *. lia.
    + destruct (Z.ltb_spec 971 e2); [unfold e2 in *; lia|].
      eexists. split; [reflexivity|]. split; [|reflexivity].
      unfold is_double. cbn [f_mant f_exp]. unfold e2 in *. lia.
Qed.

Lemma nearest_double_Ok (n d : Z) :
  0 <= n < 2 ^ 1023 -> 0 < d ->
  exists r, nearest_double n d = Ok r /\ is_double r /\ f_neg r = false.
Proof.
  intros Hn Hd. unfold nearest_double. apply round_float64_Ok.
  pose proof (Qred_num_bounds n (Z.to_pos d) (proj1 Hn)). lia.
Qed.

(** X1. [CalculateExchangeRateAsFloat] returns a float on every 256-bit
    rate and every pair: it never returns an error, panics or hangs, as
    the comment on its error branch says, and the float is a non-negative
    double. *)
Theorem CalculateExchangeRateAsFloat_never_fails :
  forall (buy sell : string) (v : Z),
    0 <= v < 2 ^ 256 ->
    exists r,
      CalculateExchangeRateAsFloat buy sell v = Ok r /\
      is_double r /\ f_neg r = false.
Proof.
  intros buy sell v Hv.
  rewrite CalculateExchangeRateAsFloat_exact by lia.
  apply nearest_double_Ok; [|lia].
  destruct (buy =? "")%string.
  - pose proof (Z.div_pos v (10 ^ 9) ltac:(lia) ltac:(lia)).
    assert (v / 10 ^ 9 <= v) by (apply Z.div_le_upper_bound; lia). lia.
  - destruct (sell =? "")%string; lia.
Qed.

Lemma CalculateExchangeRateAsFloat_never_fails_witness :
  exists r,
    CalculateExchangeRateAsFloat "" "DAO" (2 ^ 256 - 1) = Ok r /\
    is_double r /\ f_neg r = false.
Proof.
  apply (CalculateExchangeRateAsFloat_never_fails "" "DAO" (2 ^ 256 - 1)).
  lia.
Defined.

Lemma CalculateQuantityToFillAsFloat_Ok (buy sell op : string) (u : Z) :
  0 <= u < 2 ^ 256 ->
  exists r,
    CalculateQuantityToFillAsFloat buy sell op u = Ok r /\
    is_double r /\ f_neg r = false.
Proof.
  intros Hu. unfold CalculateQuantityToFillAsFloat,
    calculateQuantityToFillFromDESONanosToFloat,
    calculateQuantityToFillFromDAOCoinBaseUnitsToFloat.
  rewrite NanosPerUnit_value, BaseUnitsPerCoin_value.
  destruct (isCoinToFillDESO buy sell op);
    rewrite quantity_float_exact by lia; apply nearest_double_Ok; lia.
Qed.

(** X2. [CalculateQuantityToFillAsFloat] returns a float on every 256-bit
    quantity, every pair and every operation string, known or not: it
    never returns an error, panics or hangs, and the float is a
    non-negative double. *)
Theorem CalculateQuantityToFillAsFloat_never_fails :
  forall (buy sell op : string) (u : Z),
    0 <= u < 2 ^ 256 ->
    exists r,
      CalculateQuantityToFillAsFloat buy sell op u = Ok r /\
      is_double r /\ f_neg r = false.
Proof.
  intros buy sell op u Hu.
  destruct (CalculateQuantityToFillAsFloat_Ok buy sell op u Hu)
    as (r & Hr & Hd & Hs).
  exists r. auto.
Qed.

Lemma CalculateQuantityToFillAsFloat_never_fails_witness :
  exists r,
    CalculateQuantityToFillAsFloat "" "DAO" "BID" 0 = Ok r /\
    is_double r /\ f_neg r = false.
Proof.
  apply (CalculateQuantityToFillAsFloat_never_fails "" "DAO" "BID" 0). lia.
Defined.

Lemma CalculateExchangeRateAsFloat_Ok (buy sell : string) (v : Z) :
  0 <= v < 2 ^ 256 ->
  exists r, CalculateExchangeRateAsFloat buy sell v = Ok r.
Proof.
  intros Hv. rewrite CalculateExchangeRateAsFloat_exact by lia.
  assert (Hb : 0 <= (if (buy =? "")%string then v / 10 ^ 9
                     else if (sell =? "")%string then v * 10 ^ 9 else v)
               < 2 ^ 1023).
  { destruct (buy =? "")%string.
    - pose proof (Z.div_pos v (10 ^ 9) ltac:(lia) ltac:(lia)).
      assert (v / 10 ^ 9 <= v) by (apply Z.div_le_upper_bound; lia). lia.
    - destruct (sell =? "")%string; lia. }
  destruct (nearest_double_Ok _ (10 ^ 38) Hb ltac:(lia)) as (r & Hr & _).
  exists r. exact Hr.
Qed.

(** ** Operation types *)

Lemma orderOperationTypeToString_cases {L : Ledger} (op : Z) :
  (op = DAOCoinLimitOrderOperationTypeASK /\
   orderOperationTypeToString op = Value "ASK") \/
  (op <> DAOCoinLimitOrderOperationTypeASK /\
   op = DAOCoinLimitOrderOperationTypeBID /\
   orderOperationTypeToString op = Value "BID") \/
  (op <> DAOCoinLimitOrderOperationTypeASK /\
   op <> DAOCoinLimitOrderOperationTypeBID /\
   orderOperationTypeToString op = Failure (UnknownOperationType op)).
Proof.
  unfold orderOperationTypeToString.
  destruct (Z.eqb_spec op DAOCoinLimitOrderOperationTypeASK) as [E|NE].
  - left. split; [exact E|reflexivity].
  - destruct (Z.eqb_spec op DAOCoinLimitOrderOperationTypeBID) as [E'|NE'].
    + right. left. repeat split; assumption.
    + right. right. repeat split; assumption.
Qed.

(** X3. The two conversions of the operation type are inverse to each
    other: a ledger value that [orderOperationTypeToString] accepts is
    given back by [orderOperationTypeToUint64], and, the ledger values of
    ASK and BID being different, a string that [orderOperationTypeToUint64]
    accepts is given back by [orderOperationTypeToString]. The first accepts
    the two ledger values only, the second the strings "ASK" and "BID"
    only, in capitals. *)
Theorem operation_type_round_trip :
  forall (L : Ledger),
    DAOCoinLimitOrderOperationTypeASK <> DAOCoinLimitOrderOperationTypeBID ->
    (forall op s,
       orderOperationTypeToString op = Value s ->
       orderOperationTypeToUint64 s = Value op) /\
    (forall s op,
       orderOperationTypeToUint64 s = Value op ->
       orderOperationTypeToString op = Value s) /\
    (forall op,
       (exists s, orderOperationTypeToString op = Value s) <->
       op = DAOCoinLimitOrderOperationTypeASK \/
       op = DAOCoinLimitOrderOperationTypeBID) /\
    (forall s,
       (exists op, orderOperationTypeToUint64 s = Value op) <->
       s = "ASK" \/ s = "BID").
Proof.
  intros L Hdiff. split; [|split; [|split]].
  - intros op s H.
    destruct (orderOperationTypeToString_cases op)
      as [[E H']|[(NE & E & H')|(_ & _ & H')]];
      rewrite H' in H; try discriminate H; injection H as <-; subst op;
      reflexivity.
  - intros s op H. unfold orderOperationTypeToUint64 in H.
    unfold DAOCoinLimitOrderOperationTypeStringASK,
      DAOCoinLimitOrderOperationTypeStringBID in H.
    destruct (String.eqb_spec s "ASK") as [->|NA].
    + injection H as <-. unfold orderOperationTypeToString.
      rewrite Z.eqb_refl. reflexivity.
    + destruct (String.eqb_spec s "BID") as [->|NB]; [|discriminate H].
      injection H as <-. unfold orderOperationTypeToString.
      destruct (Z.eqb_spec DAOCoinLimitOrderOperationTypeBID
                  DAOCoinLimitOrderOperationTypeASK) as [E|_];
        [congruence|].
      rewrite Z.eqb_refl. reflexivity.
  - intros op. split.
    + intros [s H].
      destruct (orderOperationTypeToString_cases op)
        as [[E _]|[(_ & E & _)|(_ & _ & H')]]; auto.
      rewrite H' in H. discriminate H.
    + intros [E|E];
        destruct (orderOperationTypeToString_cases op)
          as [[_ H']|[(_ & _ & H')|(N1 & N2 & _)]];
        try (eexists; exact H'); contradiction.
  - intros s. unfold orderOperationTypeToUint64,
      DAOCoinLimitOrderOperationTypeStringASK,
      DAOCoinLimitOrderOperationTypeStringBID. split.
    + intros [op H].
      destruct (String.eqb_spec s "ASK"); [auto|].
      destruct (String.eqb_spec s "BID"); [auto|discriminate H].
    + intros [->| ->]; eexists; reflexivity.
Qed.

Lemma operation_type_round_trip_witness :
  orderOperationTypeToString (L := ExampleLedger) 2 = Value "BID" /\
  orderOperationTypeToUint64 (L := ExampleLedger) "BID" = Value 2.
Proof.
  assert (Hdiff : @DAOCoinLimitOrderOperationTypeASK ExampleLedger <>
                  @DAOCoinLimitOrderOperationTypeBID ExampleLedger)
    by (intros E; discriminate E).
  destruct (operation_type_round_trip ExampleLedger Hdiff) as (H1 & H2 & _).
  split.
  - apply H2. reflexivity.
  - apply H1. reflexivity.
Defined.

(** ** Responses for orders *)

Lemma known_operation_type_string {L : Ledger} (order : DAOCoinLimitOrderEntry) :
  known_operation_type order = true ->
  exists s, orderOperationTypeToString (EntryOperationType order) = Value s.
Proof.
  unfold known_operation_type. intros H.
  apply orb_true_iff in H. rewrite !Z.eqb_eq in H.
  destruct (orderOperationTypeToString_cases (EntryOperationType order))
    as [[_ H']|[(_ & _ & H')|(N1 & N2 & _)]];
    try (eexists; exact H'). destruct H; contradiction.
Qed.

Lemma unknown_operation_type_string {L : Ledger} (order : DAOCoinLimitOrderEntry) :
  known_operation_type order = false ->
  orderOperationTypeToString (EntryOperationType order) =
  Failure (UnknownOperationType (EntryOperationType order)).
Proof.
  unfold known_operation_type. intros H.
  apply orb_false_iff in H. rewrite !Z.eqb_neq in H. destruct H as [N1 N2].
  destruct (orderOperationTypeToString_cases (EntryOperationType order))
    as [[E _]|[(_ & E & _)|(_ & _ & H')]]; try contradiction. exact H'.
Qed.

Lemma buildDAOCoinLimitOrderResponse_known {L : Ledger}
  (t b s : string) (order : DAOCoinLimitOrderEntry) :
  order_in_range order -> known_operation_type order = true ->
  exists response,
    buildDAOCoinLimitOrderResponse t b s order = Value response /\
    response_of t b s order response.
Proof.
  intros [Hrate Hqty] Hknown.
  destruct (known_operation_type_string order Hknown) as [op Hop].
  destruct (CalculateExchangeRateAsFloat_Ok b s _ Hrate) as [rate Hr].
  destruct (CalculateQuantityToFillAsFloat_Ok b s op _ Hqty)
    as (qty & Hq & _).
  unfold buildDAOCoinLimitOrderResponse.
  rewrite Hop. cbn [result_bind]. rewrite Hr. cbn [of_outcome result_bind].
  rewrite Hq. cbn [of_outcome result_bind].
  eexists. split; [reflexivity|].
  unfold response_of. cbn. repeat split; assumption.
Qed.

Lemma buildDAOCoinLimitOrderResponse_unknown {L : Ledger}
  (t b s : string) (order : DAOCoinLimitOrderEntry) :
  known_operation_type order = false ->
  buildDAOCoinLimitOrderResponse t b s order =
  Failure (UnknownOperationType (EntryOperationType order)).
Proof.
  intros Hunknown. unfold buildDAOCoinLimitOrderResponse.
  rewrite (unknown_operation_type_string order Hunknown). reflexivity.
Qed.

(** X4. For an order with 256-bit numbers, [buildDAOCoinLimitOrderResponse]
    fails exactly when the operation type is neither ASK nor BID, with the
    error of [orderOperationTypeToString]; the two conversions never make it
    fail. A response that is built carries the three keys it was given, the
    identifier of the order, the operation string, and the rate and the
    quantity that [CalculateExchangeRateAsFloat] and
    [CalculateQuantityToFillAsFloat] give for that pair and operation. *)
Theorem buildDAOCoinLimitOrderResponse_outcome :
  forall (L : Ledger) (t b s : string) (order : DAOCoinLimitOrderEntry),
    order_in_range order ->
    (known_operation_type order = true ->
       exists response,
         buildDAOCoinLimitOrderResponse t b s order = Value response /\
         response_of t b s order response) /\
    (known_operation_type order = false ->
       buildDAOCoinLimitOrderResponse t b s order =
         Failure (UnknownOperationType (EntryOperationType order))).
Proof.
  intros L t b s order Hrange. split.
  - apply buildDAOCoinLimitOrderResponse_known. exact Hrange.
  - apply buildDAOCoinLimitOrderResponse_unknown.
Qed.

Lemma example_orders_in_range :
  Forall order_in_range [example_bid; example_bad; example_ask].
Proof. repeat constructor; cbn; lia. Qed.

Lemma buildDAOCoinLimitOrderResponse_outcome_witness :
  (exists response,
     buildDAOCoinLimitOrderResponse (L := ExampleLedger) "T" "" "DAO"
       example_bid = Value response /\
     response_of "T" "" "DAO" example_bid response) /\
  buildDAOCoinLimitOrderResponse (L := ExampleLedger) "T" "DAO1" "DAO2"
    example_bad = Failure (UnknownOperationType 3).
Proof.
  assert (Hbid : order_in_range example_bid) by (split; cbn; lia).
  assert (Hbad : order_in_range example_bad) by (split; cbn; lia).
  split.
  - apply (buildDAOCoinLimitOrderResponse_outcome ExampleLedger "T" "" "DAO"
             example_bid Hbid). reflexivity.
  - apply (buildDAOCoinLimitOrderResponse_outcome ExampleLedger "T" "DAO1"
             "DAO2" example_bad Hbad). reflexivity.
Defined.

Lemma Forall2_length_filter_le {A B : Type} (P : A -> B -> Prop)
  (f : A -> bool) (l : list A) (l' : list B) :
  Forall2 P (filter f l) l' ->
  List.length l' = List.length (filter f l) /\
  (List.length l' <= List.length l)%nat.
Proof.
  intros H. apply Forall2_length in H. split; [lia|].
  rewrite <- H. apply filter_length_le.
Qed.

Lemma responsesForCoinPair_loop_spec {L : Ledger}
  (utxoView : UtxoView) (b s : string) (orders : list DAOCoinLimitOrderEntry) :
  Forall order_in_range orders ->
  forall responses,
    exists built,
      responsesForCoinPair_loop utxoView b s orders responses =
        Value (responses ++ built)%list /\
      Forall2
        (fun order response =>
           response_of
             (Base58CheckEncode
                (GetPublicKeyForPKID utxoView (TransactorPKID order)))
             b s order response)
        (filter known_operation_type orders) built.
Proof.
  induction 1 as [|order orders Hrange _ IH]; intros responses.
  - exists []. split; [cbn; rewrite app_nil_r; reflexivity|constructor].
  - cbn [responsesForCoinPair_loop filter].
    destruct (known_operation_type order) eqn:Hknown.
    + destruct (buildDAOCoinLimitOrderResponse_known
                  (Base58CheckEncode
                     (GetPublicKeyForPKID utxoView (TransactorPKID order)))
                  b s order Hrange Hknown) as (response & -> & Hresp).
      destruct (IH (responses ++ [response])%list) as (built & -> & Hbuilt).
      exists (response :: built). split.
      * rewrite <- app_assoc. reflexivity.
      * constructor; assumption.
    + rewrite buildDAOCoinLimitOrderResponse_unknown by exact Hknown.
      apply IH.
Qed.

(** X5. On orders with 256-bit numbers,
    [buildDAOCoinLimitOrderResponsesFromEntriesForCoinPair] always returns
    a list: one response for each order whose operation type is ASK or BID,
    in the order of the input, and nothing for the other orders, which are
    skipped without an error. Each response carries the encoded key of the
    transactor of its order and the pair of coins of the call. *)
Theorem responses_for_coin_pair :
  forall (L : Ledger) (utxoView : UtxoView) (b s : string)
         (orders : list DAOCoinLimitOrderEntry),
    Forall order_in_range orders ->
    exists responses,
      buildDAOCoinLimitOrderResponsesFromEntriesForCoinPair
        utxoView b s orders = Value responses /\
      Forall2
        (fun order response =>
           response_of
             (Base58CheckEncode
                (GetPublicKeyForPKID utxoView (TransactorPKID order)))
             b s order response)
        (filter known_operation_type orders) responses /\
      List.length responses =
        List.length (filter known_operation_type orders) /\
      (List.length responses <= List.length orders)%nat.
Proof.
  intros L utxoView b s orders Hrange.
  destruct (responsesForCoinPair_loop_spec utxoView b s orders Hrange [])
    as (built & Hloop & Hbuilt).
  exists built. split; [exact Hloop|]. split; [exact Hbuilt|].
  apply (Forall2_length_filter_le _ _ _ _ Hbuilt).
Qed.

Lemma responses_for_coin_pair_witness :
  exists responses,
    buildDAOCoinLimitOrderResponsesFromEntriesForCoinPair
      (L := ExampleLedger) tt "DAO1" "DAO2"
      [example_bid; example_bad; example_ask] = Value responses /\
    List.length responses = 2%nat.
Proof.
  destruct (responses_for_coin_pair ExampleLedger tt "DAO1" "DAO2"
              [example_bid; example_bad; example_ask] example_orders_in_range)
    as (responses & H & _ & Hlen & _).
  exists responses. split; [exact H|exact Hlen].
Defined.

Lemma responsesForTransactor_loop_spec {L : Ledger}
  (utxoView : UtxoView) (t : string) (orders : list DAOCoinLimitOrderEntry) :
  Forall order_in_range orders ->
  forall responses,
    exists built,
      responsesForTransactor_loop utxoView t orders responses =
        Value (responses ++ built)%list /\
      Forall2
        (fun order response =>
           response_of t
             (getPublicKeyBase58CheckForPKID utxoView
                (BuyingDAOCoinCreatorPKID order))
             (getPublicKeyBase58CheckForPKID utxoView
                (SellingDAOCoinCreatorPKID order))
             order response)
        (filter known_operation_type orders) built.
Proof.
  induction 1 as [|order orders Hrange _ IH]; intros responses.
  - exists []. split; [cbn; rewrite app_nil_r; reflexivity|constructor].
  - cbn [responsesForTransactor_loop filter].
    destruct (known_operation_type order) eqn:Hknown.
    + destruct (buildDAOCoinLimitOrderResponse_known t
                  (getPublicKeyBase58CheckForPKID utxoView
                     (BuyingDAOCoinCreatorPKID order))
                  (getPublicKeyBase58CheckForPKID utxoView
                     (SellingDAOCoinCreatorPKID order))
                  order Hrange Hknown) as (response & -> & Hresp).
      destruct (IH (responses ++ [response])%list) as (built & -> & Hbuilt).
      exists (response :: built). split.
      * rewrite <- app_assoc. reflexivity.
      * constructor; assumption.
    + rewrite buildDAOCoinLimitOrderResponse_unknown by exact Hknown.
      apply IH.
Qed.

(** X6. On orders with 256-bit numbers,
    [buildDAOCoinLimitOrderResponsesForTransactor] always returns a list:
    one response for each order whose operation type is ASK or BID, in the
    order of the input, the other orders being skipped. Each response
    carries the key of the transactor of the call, and as coins the keys
    that [getPublicKeyBase58CheckForPKID] gives for the two PKIDs of its
    order. *)
Theorem responses_for_transactor :
  forall (L : Ledger) (utxoView : UtxoView) (t : string)
         (orders : list DAOCoinLimitOrderEntry),
    Forall order_in_range orders ->
    exists responses,
      buildDAOCoinLimitOrderResponsesForTransactor utxoView t orders =
        Value responses /\
      Forall2
        (fun order response =>
           response_of t
             (getPublicKeyBase58CheckForPKID utxoView
                (BuyingDAOCoinCreatorPKID order))
             (getPublicKeyBase58CheckForPKID utxoView
                (SellingDAOCoinCreatorPKID order))
             order response)
        (filter known_operation_type orders) responses /\
      List.length responses =
        List.length (filter known_operation_type orders) /\
      (List.length responses <= List.length orders)%nat.
Proof.
  intros L utxoView t orders Hrange.
  destruct (responsesForTransactor_loop_spec utxoView t orders Hrange [])
    as (built & Hloop & Hbuilt).
  exists built. split; [exact Hloop|]. split; [exact Hbuilt|].
  apply (Forall2_length_filter_le _ _ _ _ Hbuilt).
Qed.

Lemma responses_for_transactor_witness :
  exists responses,
    buildDAOCoinLimitOrderResponsesForTransactor
      (L := ExampleLedger) tt "T"
      [example_bid; example_bad; example_ask] = Value responses /\
    List.length responses = 2%nat.
Proof.
  destruct (responses_for_transactor ExampleLedger tt "T"
              [example_bid; example_bad; example_ask] example_orders_in_range)
    as (responses & H & _ & Hlen & _).
  exists responses. split; [exact H|exact Hlen].
Defined.

(** ** $DESO in the orders of a transactor *)

Lemma getPublicKeyBase58CheckForPKID_zero {L : Ledger}
  (utxoView : UtxoView) (pkid : PKID) :
  IsZeroPKID pkid = true -> getPublicKeyBase58CheckForPKID utxoView pkid = "".
Proof.
  intros H. unfold getPublicKeyBase58CheckForPKID. rewrite H. reflexivity.
Qed.

Lemma quantity_float_side (buy sell op : string) (u : Z) :
  0 <= u ->
  CalculateQuantityToFillAsFloat buy sell op u =
  nearest_double u (if isCoinToFillDESO buy sell op then 10 ^ 9 else 10 ^ 18).
Proof.
  intros Hu. unfold CalculateQuantityToFillAsFloat,
    calculateQuantityToFillFromDESONanosToFloat,
    calculateQuantityToFillFromDAOCoinBaseUnitsToFloat.
  rewrite NanosPerUnit_value, BaseUnitsPerCoin_value.
  destruct (isCoinToFillDESO buy sell op); apply quantity_float_exact; lia.
Qed.

(** X7. In the responses for a transactor the zero PKID stands for $DESO.
    For an order with 256-bit numbers and a known operation type whose
    bought coin is the zero PKID, the response has the empty buying key and
    its rate is the double nearest to [(rate / 10^9) / 10^38]; if the order
    is a BID its quantity is the double nearest to [quantity / 10^9], in
    $DESO and not in DAO coin units. For an ASK whose sold coin is the zero
    PKID the selling key is empty and the quantity is again the double
    nearest to [quantity / 10^9]. *)
Theorem transactor_order_with_deso :
  forall (L : Ledger) (utxoView : UtxoView) (t : string)
         (order : DAOCoinLimitOrderEntry),
    order_in_range order ->
    known_operation_type order = true ->
    exists response,
      buildDAOCoinLimitOrderResponse t
        (getPublicKeyBase58CheckForPKID utxoView
           (BuyingDAOCoinCreatorPKID order))
        (getPublicKeyBase58CheckForPKID utxoView
           (SellingDAOCoinCreatorPKID order))
        order = Value response /\
      (IsZeroPKID (BuyingDAOCoinCreatorPKID order) = true ->
         BuyingDAOCoinCreatorPublicKeyBase58Check response = "" /\
         nearest_double
           (ScaledExchangeRateCoinsToSellPerCoinToBuy order / 10 ^ 9)
           (10 ^ 38) = Ok (ExchangeRateCoinsToSellPerCoinToBuy response) /\
         (ResponseOperationType response = "BID" ->
            nearest_double (QuantityToFillInBaseUnits order) (10 ^ 9) =
              Ok (QuantityToFill response))) /\
      (IsZeroPKID (SellingDAOCoinCreatorPKID order) = true ->
         SellingDAOCoinCreatorPublicKeyBase58Check response = "" /\
         (ResponseOperationType response = "ASK" ->
            nearest_double (QuantityToFillInBaseUnits order) (10 ^ 9) =
              Ok (QuantityToFill response))).
Proof.
  intros L utxoView t order Hrange Hknown.
  destruct (buildDAOCoinLimitOrderResponse_known t
              (getPublicKeyBase58CheckForPKID utxoView
                 (BuyingDAOCoinCreatorPKID order))
              (getPublicKeyBase58CheckForPKID utxoView
                 (SellingDAOCoinCreatorPKID order))
              order Hrange Hknown)
    as (response & Hbuild & Ht & Hb & Hs & Hid & Hop & Hrate & Hqty).
  destruct Hrange as [Hr Hq].
  exists response. split; [exact Hbuild|]. split.
  - intros Hzero.
    rewrite (getPublicKeyBase58CheckForPKID_zero _ _ Hzero) in *.
    split; [exact Hb|]. split.
    + rewrite <- Hrate, CalculateExchangeRateAsFloat_exact by lia.
      reflexivity.
    + intros Hbid. rewrite <- Hqty, Hbid, quantity_float_side by lia.
      reflexivity.
  - intros Hzero.
    rewrite (getPublicKeyBase58CheckForPKID_zero _ _ Hzero) in *.
    split; [exact Hs|].
    intros Hask. rewrite <- Hqty, Hask, quantity_float_side by lia.
    unfold isCoinToFillDESO. cbn [String.eqb andb orb].
    rewrite andb_false_r. reflexivity.
Qed.

Lemma transactor_order_with_deso_witness :
  exists response,
    buildDAOCoinLimitOrderResponse (L := ExampleLedger) "T"
      (getPublicKeyBase58CheckForPKID (L := ExampleLedger) tt 0)
      (getPublicKeyBase58CheckForPKID (L := ExampleLedger) tt 7)
      example_bid = Value response /\
    BuyingDAOCoinCreatorPublicKeyBase58Check response = "".
Proof.
  assert (Hbid : order_in_range example_bid) by (split; cbn; lia).
  destruct (transactor_order_with_deso ExampleLedger tt "T" example_bid Hbid
              eq_refl) as (response & Hbuild & Hbuy & _).
  exists response. split; [exact Hbuild|].
  apply Hbuy. reflexivity.
Defined.

(** ** The scaling factor of the quantity formatter *)

Lemma nearest_double_not_Panic (n d : Z) : nearest_double n d <> Panic.
Proof.
  unfold nearest_double.
  destruct (round_float64_returns (Qred (n # Z.to_pos d))) as [[r H]|[e H]];
    rewrite H; discriminate.
Qed.

Lemma quantity_float_panics (q sf : Z) :
  numDigits (U256.Mod q sf) = numDigits sf -> 0 <= sf -> 0 <= U256.Mod q sf ->
  calculateQuantityToFillAsFloatWithScalingFactor q sf = Panic.
Proof.
  intros Hsame Hsf Hmod. unfold calculateQuantityToFillAsFloatWithScalingFactor.
  rewrite (getNumDigits_nonneg_Ok sf) by exact Hsf.
  rewrite getNumDigits_nonneg_Ok by exact Hmod.
  cbn [bind]. rewrite Hsame. unfold strings_Repeat.
  destruct (Z.ltb_spec (numDigits sf - numDigits sf - 1) 0); [reflexivity|lia].
Qed.

(** X8. [calculateQuantityToFillAsFloatWithScalingFactor] is free of
    panics exactly for the scaling factors that are powers of ten, which
    the two factors of its callers are. For any other factor, zero
    included, some quantity makes the count of leading zeros negative and
    [strings.Repeat] panic: the quantity [scalingFactor - 1] for a positive
    factor, every quantity for the factor zero. *)
Theorem quantity_formatter_needs_power_of_ten :
  forall sf : Z,
    0 <= sf ->
    ((forall q, 0 <= q ->
        calculateQuantityToFillAsFloatWithScalingFactor q sf <> Panic) <->
     exists w, 0 <= w /\ sf = 10 ^ w).
Proof.
  intros sf Hsf. split.
  - intros Hsafe.
    destruct (Z.eq_dec sf 0) as [->|Hnz].
    + exfalso. apply (Hsafe 0 ltac:(lia)).
      apply quantity_float_panics; [reflexivity|lia|cbn; lia].
    + destruct (numDigits_pos sf ltac:(lia)) as (Hn & Hlo & Hhi).
      destruct (Z.eq_dec sf (10 ^ (numDigits sf - 1))) as [E|NE].
      * exists (numDigits sf - 1). split; [lia|exact E].
      * exfalso. apply (Hsafe (sf - 1) ltac:(lia)).
        assert (Hmod : U256.Mod (sf - 1) sf = sf - 1).
        { unfold U256.Mod. destruct (Z.eqb_spec sf 0); [lia|].
          apply Z.mod_small. lia. }
        apply quantity_float_panics; rewrite ?Hmod; try lia.
        apply numDigits_unique; lia.
  - intros (w & Hw & ->) q Hq.
    rewrite quantity_float_exact by assumption.
    apply nearest_double_not_Panic.
Qed.

Lemma quantity_formatter_needs_power_of_ten_witness :
  (forall q, 0 <= q ->
     calculateQuantityToFillAsFloatWithScalingFactor q (10 ^ 18) <> Panic) /\
  calculateQuantityToFillAsFloatWithScalingFactor 19 20 = Panic.
Proof.
  split.
  - apply (quantity_formatter_needs_power_of_ten (10 ^ 18)); [lia|].
    exists 18. split; [lia|reflexivity].
  - vm_compute. reflexivity.
Defined.

(** ** The rate that [CalculateScaledExchangeRate] returns *)

(** X9. Whatever the library of the ledger is, as long as the rates it
    returns are 256-bit values, a rate that [CalculateScaledExchangeRate]
    returns is never zero and fits 256 bits, for every pair: a zero rate is
    turned into an error on each of the three paths. *)
Theorem CalculateScaledExchangeRate_positive :
  forall (L : LedgerLib) (buy sell : string) (f : float64) (r : Z),
    (forall text R,
       CalculateScaledExchangeRateFromString text = Ok R ->
       0 <= R < 2 ^ 256) ->
    CalculateScaledExchangeRate buy sell f = Ok r ->
    0 < r < 2 ^ 256.
Proof.
  intros L buy sell f r Hlib H. unfold CalculateScaledExchangeRate in H.
  destruct (formatFloatAsString f) as [text| | |]; try discriminate H.
  cbn [bind] in H.
  destruct (CalculateScaledExchangeRateFromString text) as [R| | |] eqn:HR;
    try discriminate H.
  cbn [bind] in H. apply Hlib in HR.
  unfold U256.IsZero in H.
  destruct (Z.eqb_spec R 0) as [|NR]; [discriminate H|].
  rewrite getDESOToDAOCoinBaseUnitsScalingFactor_value in H.
  destruct (buy =? "")%string.
  - unfold U256.MulOverflow, U256.modulus in H.
    destruct (Z.leb_spec (2 ^ 256) (R * 10 ^ 9)); [discriminate H|].
    injection H as <-. rewrite Z.mod_small by lia. lia.
  - destruct (sell =? "")%string.
    + unfold U256.Div in H. change (10 ^ 9 =? 0) with false in H.
      cbv iota in H.
      destruct (Z.eqb_spec (R / 10 ^ 9) 0) as [|NQ]; [discriminate H|].
      injection H as <-.
      pose proof (Z.div_pos R (10 ^ 9) ltac:(lia) ltac:(lia)).
      assert (R / 10 ^ 9 <= R) by (apply Z.div_le_upper_bound; lia). lia.
    + injection H as <-. lia.
Qed.

Lemma digit_val_range (c : ascii) (d : Z) : digit_val c = Some d -> 0 <= d.
Proof.
  unfold digit_val. destruct (_ && _)%bool; [|discriminate].
  intros H. injection H as <-. lia.
Qed.

Lemma parse_digits_acc_nonneg (s : string) :
  forall a v, parse_digits_acc s a = Some v -> 0 <= a -> 0 <= v.
Proof.
  induction s as [|c s IH]; intros a v H Ha; cbn [parse_digits_acc] in H.
  - injection H as <-. exact Ha.
  - destruct (digit_val c) as [d|] eqn:Hd; [|discriminate H].
    apply (IH _ _ H). pose proof (digit_val_range c d Hd). lia.
Qed.

Lemma ParseDecimalToScaled_range (text : string) (F R : Z) :
  0 <= F -> ParseDecimalToScaled text F = Ok R -> 0 <= R < 2 ^ 256.
Proof.
  intros HF H. unfold ParseDecimalToScaled in H.
  destruct (decimal_parts text) as [[[i fr] k]|] eqn:Hparts;
    [|discriminate H].
  destruct (_ =? 0); [discriminate H|].
  unfold U256.modulus in H.
  destruct (Z.leb_spec (2 ^ 256) (i * F + fr * F / 10 ^ k));
    [discriminate H|].
  injection H as <-. split; [|assumption].
  unfold decimal_parts in Hparts.
  destruct (split_dot text) as [ip rest].
  set (fp := match rest with Some t => t | None => "" end) in *.
  destruct (_ =? 0)%nat; [discriminate Hparts|].
  destruct (parse_digits ip) as [i'|] eqn:Hi; [|discriminate Hparts].
  destruct (parse_digits fp) as [fr'|] eqn:Hfr; [|discriminate Hparts].
  injection Hparts as <- <- <-.
  pose proof (parse_digits_acc_nonneg _ _ _ Hi ltac:(lia)).
  pose proof (parse_digits_acc_nonneg _ _ _ Hfr ltac:(lia)).
  assert (0 <= fr' * F / 10 ^ Z.of_nat (String.length fp)).
  { apply Z.div_pos; [nia|]. apply pow10_pos. lia. }
  nia.
Qed.

Lemma CalculateScaledExchangeRate_positive_witness :
  0 < 300000000000000000000000000000 < 2 ^ 256.
Proof.
  apply (CalculateScaledExchangeRate_positive SpecLib "DAO" "" float_3).
  - intros text R H. apply (ParseDecimalToScaled_range text OneE38).
    + unfold OneE38. lia.
    + exact H.
  - vm_compute. reflexivity.
Defined.

(** ** Negative prices and quantities *)

Lemma Float_Int_negative_iff (f : float64) :
  0 <= f_mant f -> (Float_Int f < 0 <-> (F2Q f <= inject_Z (-1))%Q).
Proof.
  intros Hm. unfold Float_Int, F2Q.
  destruct (f_neg f); destruct (Z.leb_spec 0 (f_exp f)) as [He|He].
  - rewrite <- Zle_Qle. lia.
  - pose proof (pow2_pos (- f_exp f) ltac:(lia)) as H2.
    unfold Qle, inject_Z. cbn [Qnum Qden].
    rewrite Z2Pos.id by exact H2.
    pose proof (Z.div_pos (f_mant f) (2 ^ (- f_exp f)) Hm H2) as Hdiv.
    split; intros Hlt.
    + assert (Hone : 1 <= f_mant f / 2 ^ (- f_exp f)) by lia.
      assert (2 ^ (- f_exp f) <= f_mant f).
      { destruct (Z_lt_le_dec (f_mant f) (2 ^ (- f_exp f))) as [Hsmall|];
          [|assumption].
        rewrite Z.div_small in Hone by lia. lia. }
      lia.
    + assert (1 <= f_mant f / 2 ^ (- f_exp f))
        by (apply Z.div_le_lower_bound; lia).
      lia.
  - rewrite <- Zle_Qle. pose proof (pow2_pos (f_exp f) He). split; nia.
  - pose proof (pow2_pos (- f_exp f) ltac:(lia)) as H2.
    unfold Qle, inject_Z. cbn [Qnum Qden].
    rewrite Z2Pos.id by exact H2.
    pose proof (Z.div_pos (f_mant f) (2 ^ (- f_exp f)) Hm H2).
    split; lia.
Qed.

(** X10. [formatFloatAsString] hangs exactly on the finite floats that
    are at most -1: their integer part is negative and the loop of
    [getNumDigits] never reaches zero. On an infinity and on NaN it panics
    and does not hang. So, whatever the library of the ledger is, a finite
    price of -1 or less makes [CalculateScaledExchangeRate] hang and a
    finite quantity of -1 or less makes [CalculateQuantityToFillAsBaseUnits]
    hang, for every pair and operation; neither returns an error. *)
Theorem negative_input_hangs :
  forall x : float64_value,
    (forall f, x = Finite f -> 0 <= f_mant f) ->
    (formatFloatAsString_value x = Hang <->
     exists f, x = Finite f /\ (F2Q f <= inject_Z (-1))%Q) /\
    (forall f,
       x = Finite f -> (F2Q f <= inject_Z (-1))%Q ->
       forall (L : LedgerLib) (buy sell op : string),
         CalculateScaledExchangeRate buy sell f = Hang /\
         CalculateQuantityToFillAsBaseUnits buy sell op f = Hang).
Proof.
  intros x Hwf.
  assert (Hhang : forall f, Float_Int f < 0 -> formatFloatAsString f = Hang).
  { intros f H. unfold formatFloatAsString.
    rewrite getNumDigits_negative_Hang by exact H. reflexivity. }
  split; [split|].
  - destruct x as [f|neg|]; cbn [formatFloatAsString_value]; intros H;
      try discriminate H.
    exists f. split; [reflexivity|].
    apply Float_Int_negative_iff; [apply Hwf; reflexivity|].
    destruct (Z_lt_le_dec (Float_Int f) 0) as [|Hpos]; [assumption|].
    unfold formatFloatAsString in H.
    rewrite getNumDigits_nonneg_Ok in H by exact Hpos. cbn [bind] in H.
    destruct (_ <=? _); discriminate H.
  - intros (f & -> & H). cbn [formatFloatAsString_value].
    apply Hhang. apply Float_Int_negative_iff; [apply Hwf; reflexivity|].
    exact H.
  - intros f -> H L buy sell op.
    apply Float_Int_negative_iff in H; [|apply Hwf; reflexivity].
    unfold CalculateScaledExchangeRate, CalculateQuantityToFillAsBaseUnits,
      calculateQuantityToFillAsDESONanos,
      calculateQuantityToFillAsDAOCoinBaseUnits,
      calculateQuantityToFillToBaseUnitsWithScalingFactor.
    rewrite (Hhang f H). split; [reflexivity|].
    destruct (isCoinToFillDESO buy sell op); reflexivity.
Qed.

Lemma negative_input_hangs_witness :
  formatFloatAsString_value (Finite (mkFloat true 5 (-1))) = Hang /\
  CalculateScaledExchangeRate (lib := SpecLib) "DAO1" "DAO2"
    (mkFloat true 5 (-1)) = Hang /\
  CalculateQuantityToFillAsBaseUnits (lib := SpecLib) "DAO1" "DAO2" "BID"
    (mkFloat true 5 (-1)) = Hang.
Proof.
  assert (Hwf : forall f, Finite (mkFloat true 5 (-1)) = Finite f ->
                          0 <= f_mant f).
  { intros f E. injection E as <-. cbn. lia. }
  assert (Hle : (F2Q (mkFloat true 5 (-1)) <= inject_Z (-1))%Q)
    by (vm_compute; intros E; discriminate E).
  destruct (negative_input_hangs (Finite (mkFloat true 5 (-1))) Hwf)
    as (Hiff & Hroutes).
  split.
  - apply Hiff. exists (mkFloat true 5 (-1)). split; [reflexivity|exact Hle].
  - apply (Hroutes (mkFloat true 5 (-1)) eq_refl Hle SpecLib
             "DAO1" "DAO2" "BID").
Defined.

(** ** Rates of pairs with $DESO *)

Lemma nearest_double_zero (d : Z) :
  nearest_double 0 d = Ok (mkFloat false 0 (-1074)).
Proof.
  unfold nearest_double, round_float64.
  pose proof (Qred_num_bounds 0 (Z.to_pos d) ltac:(lia)) as H.
  destruct (Z.leb_spec (Qnum (Qred (0 # Z.to_pos d))) 0); [reflexivity|lia].
Qed.

(** X11. When $DESO is bought, [CalculateExchangeRateAsFloat] divides the
    rate by [10^9] first, so it shows the same float for all rates with the
    same quotient, and the float zero for every rate below [10^9], although
    such a rate is not zero. The corrections of the two directions fit
    together: the rate [v * 10^9] of a pair that buys $DESO, and the rate
    [v] of a pair of two DAO coins, are shown as the same float, which is
    also what a pair that sells $DESO shows for [v / 10^9] when [v] is a
    multiple of [10^9]. *)
Theorem exchange_rate_views :
  forall (sell dao1 dao2 : string) (v : Z),
    0 <= v -> dao1 <> "" -> dao2 <> "" ->
    (forall v', 0 <= v' -> v / 10 ^ 9 = v' / 10 ^ 9 ->
       CalculateExchangeRateAsFloat "" sell v =
       CalculateExchangeRateAsFloat "" sell v') /\
    (v < 10 ^ 9 ->
       CalculateExchangeRateAsFloat "" sell v = Ok (mkFloat false 0 (-1074))) /\
    CalculateExchangeRateAsFloat "" sell (v * 10 ^ 9) =
      CalculateExchangeRateAsFloat dao1 dao2 v /\
    (v mod 10 ^ 9 = 0 ->
       CalculateExchangeRateAsFloat dao1 "" (v / 10 ^ 9) =
       CalculateExchangeRateAsFloat dao1 dao2 v).
Proof.
  intros sell dao1 dao2 v Hv H1 H2.
  apply String.eqb_neq in H1, H2.
  split; [|split; [|split]].
  - intros v' Hv' Hq.
    rewrite !CalculateExchangeRateAsFloat_exact by assumption.
    cbn [String.eqb]. rewrite Hq. reflexivity.
  - intros Hsmall. rewrite CalculateExchangeRateAsFloat_exact by assumption.
    cbn [String.eqb]. rewrite Z.div_small by lia. apply nearest_double_zero.
  - rewrite !CalculateExchangeRateAsFloat_exact by lia.
    cbn [String.eqb]. rewrite H1, H2, Z.div_mul by lia. reflexivity.
  - intros Hmod.
    rewrite !CalculateExchangeRateAsFloat_exact
      by (try apply Z.div_pos; lia).
    rewrite H1, H2. cbn [String.eqb].
    pose proof (Z.div_mod v (10 ^ 9) ltac:(lia)) as Hdm.
    replace (v / 10 ^ 9 * 10 ^ 9) with v by lia. reflexivity.
Qed.

Lemma exchange_rate_views_witness :
  CalculateExchangeRateAsFloat "" "DAO" 999999999 =
    Ok (mkFloat false 0 (-1074)).
Proof.
  assert (Hd : "DAO" <> "") by (intros E; discriminate E).
  destruct (exchange_rate_views "DAO" "DAO" "DAO" 999999999
              ltac:(lia) Hd Hd) as (_ & H & _).
  apply H. lia.
Defined.

(** ** The digit count *)

(** X12. On non-negative integers [getNumDigits] is monotone, and it
    grows by exactly one when its argument is multiplied by ten (for a
    positive argument). *)
Theorem getNumDigits_monotone :
  forall x y : Z,
    0 <= x <= y ->
    exists n m,
      getNumDigits x = Ok n /\ getNumDigits y = Ok m /\ n <= m /\
      (0 < x -> getNumDigits (10 * x) = Ok (n + 1)).
Proof.
  intros x y [Hx Hxy].
  exists (numDigits x), (numDigits y).
  split; [apply getNumDigits_nonneg_Ok; lia|].
  split; [apply getNumDigits_nonneg_Ok; lia|]. split.
  - apply numDigits_le; [apply numDigits_nonneg|].
    split; [lia|]. pose proof (numDigits_lt_pow y ltac:(lia)). lia.
  - intros Hpos. rewrite getNumDigits_nonneg_Ok by lia. f_equal.
    destruct (numDigits_pos x Hpos) as (Hn & Hlo & Hhi).
    apply numDigits_unique; [lia|].
    replace (numDigits x + 1 - 1) with (Z.succ (numDigits x - 1)) by lia.
    replace (numDigits x + 1) with (Z.succ (numDigits x)) by lia.
    rewrite !Z.pow_succ_r by lia. lia.
Qed.

Lemma getNumDigits_monotone_witness :
  exists n m,
    getNumDigits 99 = Ok n /\ getNumDigits 100 = Ok m /\ n <= m /\
    (0 < 99 -> getNumDigits (10 * 99) = Ok (n + 1)).
Proof.
  apply (getNumDigits_monotone 99 100). lia.
Defined.

(** ** Whole numbers *)

Lemma round_half_even_one (n : Z) : round_half_even n 1 = n.
Proof.
  pose proof (round_half_even_exact n 1 ltac:(lia)) as H.
  rewrite Z.mul_1_r in H. exact H.
Qed.

(** A whole number below [2^53] is itself a double. *)
Lemma round_float64_whole (k : Z) :
  0 < k < 2 ^ 53 ->
  exists r, round_float64 (k # 1) = Ok r /\ F2Q r == inject_Z k.
Proof.
  intros Hk. unfold round_float64. cbn [Qnum Qden].
  destruct (Z.leb_spec k 0) as [|_]; [lia|].
  cbv zeta. change (Z.log2 1) with 0.
  pose proof (Z.log2_spec k ltac:(lia)) as [Hlo Hhi].
  pose proof (Z.log2_nonneg k) as Hl0.
  assert (Hl52 : Z.log2 k <= 52).
  { assert (Z.log2 k < 53) by (apply Z.log2_lt_pow2; lia). lia. }
  set (lk := Z.log2 k) in *.
  replace (lk - 0 - 53) with (lk - 53) by lia.
  destruct (Z.leb_spec 0 (lk - 53)) as [|_]; [lia|].
  assert (Hpow : 2 ^ lk * 2 ^ (- (lk - 53)) = 2 ^ 53).
  { rewrite <- Z.pow_add_r by lia. f_equal. lia. }
  pose proof (pow2_pos (- (lk - 53)) ltac:(lia)) as Hp53.
  destruct (Z.leb_spec (2 ^ 53 * 1) (k * 2 ^ (- (lk - 53)))) as [_|Hbad];
    [|nia].
  replace (lk - 53 + 1) with (lk - 52) by lia.
  rewrite Z.max_l by lia.
  set (P := 2 ^ (- (lk - 52))).
  assert (HP : 0 < P) by (apply pow2_pos; lia).
  assert (HP53 : 2 ^ Z.succ lk * P = 2 ^ 53).
  { unfold P. rewrite <- Z.pow_add_r by lia. f_equal. lia. }
  assert (Hm : (if 0 <=? lk - 52 then round_half_even k (1 * 2 ^ (lk - 52))
                else round_half_even (k * P) 1) = k * P).
  { destruct (Z.leb_spec 0 (lk - 52)) as [He|He].
    - assert (E : lk - 52 = 0) by lia.
      unfold P. rewrite E. change (1 * 2 ^ 0) with 1. change (2 ^ (- 0)) with 1.
      rewrite Z.mul_1_r. apply round_half_even_one.
    - apply round_half_even_one. }
  rewrite Hm.
  destruct (Z.eqb_spec (k * P) (2 ^ 53)) as [E|_]; [nia|].
  destruct (Z.ltb_spec 971 (lk - 52)) as [|_]; [lia|].
  eexists. split; [reflexivity|].
  unfold F2Q. cbn [f_neg f_mant f_exp].
  destruct (Z.leb_spec 0 (lk - 52)) as [He|He].
  - assert (E : lk - 52 = 0) by lia.
    unfold P. rewrite E. change (2 ^ (- 0)) with 1. change (2 ^ 0) with 1.
    rewrite !Z.mul_1_r. reflexivity.
  - fold P. unfold Qeq, inject_Z. cbn [Qnum Qden].
    rewrite Z2Pos.id by exact HP. lia.
Qed.

Lemma Qred_whole (k : Z) : Qred (k # 1) = k # 1.
Proof.
  unfold Qred.
  pose proof (Z.ggcd_correct_divisors k 1) as Hdiv.
  pose proof (Z.ggcd_gcd k 1) as Hg.
  pose proof (Z.gcd_nonneg k 1) as Hg0.
  destruct (Z.ggcd k 1) as (g & n' & d').
  cbn [fst snd] in *. destruct Hdiv as [Hn' Hd']. rewrite <- Hg in Hg0.
  symmetry in Hd'. apply Z.eq_mul_1_nonneg in Hd'; [|exact Hg0].
  destruct Hd' as [-> ->].
  rewrite Z.mul_1_l in Hn'. subst n'. reflexivity.
Qed.

Lemma nearest_double_whole (k F : Z) :
  0 <= k < 2 ^ 53 -> 0 < F ->
  exists r, nearest_double (k * F) F = Ok r /\ F2Q r == inject_Z k.
Proof.
  intros Hk HF.
  destruct (Z.eq_dec k 0) as [->|Hnz].
  - rewrite Z.mul_0_l, nearest_double_zero. eexists. split; [reflexivity|].
    vm_compute. reflexivity.
  - destruct (round_float64_whole k ltac:(lia)) as (r & Hr & Hv).
    exists r. split; [|exact Hv].
    unfold nearest_double. rewrite <- Hr. f_equal.
    transitivity (Qred (k # 1)).
    + apply Qred_complete. unfold Qeq. cbn [Qnum Qden].
      rewrite Z2Pos.id by exact HF. lia.
    + apply Qred_whole.
Qed.

(** X13. Whole numbers are shown exactly. For every whole number [k]
    below [2^53], the rate [k * 10^38] of a pair of two DAO coins is
    converted to a float whose value is exactly [k], and the quantity
    [k * 10^9] or [k * 10^18], on the $DESO side or on the DAO coin side, to
    a float whose value is exactly [k]. *)
Theorem whole_numbers_are_exact :
  forall (buy sell op : string) (k : Z),
    0 <= k < 2 ^ 53 ->
    (buy <> "" -> sell <> "" ->
     exists r,
       CalculateExchangeRateAsFloat buy sell (k * 10 ^ 38) = Ok r /\
       F2Q r == inject_Z k) /\
    (exists r,
       CalculateQuantityToFillAsFloat buy sell op
         (k * (if isCoinToFillDESO buy sell op then 10 ^ 9 else 10 ^ 18)) =
         Ok r /\
       F2Q r == inject_Z k).
Proof.
  intros buy sell op k Hk. split.
  - intros Hb Hs. apply String.eqb_neq in Hb, Hs.
    rewrite CalculateExchangeRateAsFloat_exact by lia.
    rewrite Hb, Hs. apply nearest_double_whole; lia.
  - rewrite quantity_float_side
      by (destruct (isCoinToFillDESO buy sell op); lia).
    destruct (isCoinToFillDESO buy sell op);
      apply nearest_double_whole; lia.
Qed.

Lemma whole_numbers_are_exact_witness :
  exists r,
    CalculateExchangeRateAsFloat "DAO1" "DAO2" (3 * 10 ^ 38) = Ok r /\
    F2Q r == inject_Z 3.
Proof.
  assert (H1 : "DAO1" <> "") by (intros E; discriminate E).
  assert (H2 : "DAO2" <> "") by (intros E; discriminate E).
  apply (whole_numbers_are_exact "DAO1" "DAO2" "BID" 3 ltac:(lia)); assumption.
Defined.

(** ** The conversions to float keep the order *)

Lemma round_half_even_scale (c n d : Z) :
  0 < c -> 0 < d -> round_half_even (c * n) (c * d) = round_half_even n d.
Proof.
  intros Hc Hd. unfold round_half_even.
  rewrite Z.div_mul_cancel_l, Z.mul_mod_distr_l by lia.
  pose proof (Z.mod_pos_bound n d Hd) as Hb.
  destruct (Z.ltb_spec (2 * (c * (n mod d))) (c * d)),
    (Z.ltb_spec (2 * (n mod d)) d); try nia; try reflexivity.
  destruct (Z.ltb_spec (c * d) (2 * (c * (n mod d)))),
    (Z.ltb_spec d (2 * (n mod d))); try nia; reflexivity.
Qed.

Lemma round_half_even_ge (N D B : Z) :
  0 < D -> B * D <= N -> B <= round_half_even N D.
Proof.
  intros HD HN. unfold round_half_even.
  assert (B <= N / D) by (apply Z.div_le_lower_bound; lia).
  destruct (_ <? _); [lia|]. destruct (_ <? _); [lia|].
  destruct (Z.even _); lia.
Qed.

Lemma round_half_even_mono (N1 D1 N2 D2 : Z) :
  0 < D1 -> 0 < D2 -> N1 * D2 <= N2 * D1 ->
  round_half_even N1 D1 <= round_half_even N2 D2.
Proof.
  intros H1 H2 Hle.
  pose proof (Z.div_mod N1 D1 ltac:(lia)) as E1.
  pose proof (Z.div_mod N2 D2 ltac:(lia)) as E2.
  pose proof (Z.mod_pos_bound N1 D1 H1) as B1.
  pose proof (Z.mod_pos_bound N2 D2 H2) as B2.
  assert (Hfloor : N1 / D1 <= N2 / D2).
  { apply Z.div_le_lower_bound; [lia|].
    assert (D1 * (D2 * (N1 / D1)) <= D1 * N2) by nia.
    apply (Z.mul_le_mono_pos_l _ _ D1); lia. }
  unfold round_half_even.
  set (f1 := N1 / D1) in *. set (f2 := N2 / D2) in *.
  set (r1 := N1 mod D1) in *. set (r2 := N2 mod D2) in *.
  destruct (Z.eq_dec f1 f2) as [Ef|Nf].
  - assert (Hr : r1 * D2 <= r2 * D1) by nia.
    rewrite <- Ef.
    destruct (Z.ltb_spec (2 * r1) D1) as [Ha|Ha].
    + destruct (2 * r2 <? D2); [lia|]. destruct (D2 <? 2 * r2); [lia|].
      destruct (Z.even f1); lia.
    + assert (Hb : D2 <= 2 * r2) by nia.
      destruct (Z.ltb_spec (2 * r2) D2); [lia|].
      destruct (Z.ltb_spec D1 (2 * r1)) as [Hc|Hc].
      * assert (D2 < 2 * r2) by nia.
        destruct (Z.ltb_spec D2 (2 * r2)); lia.
      * destruct (Z.ltb_spec D2 (2 * r2)); [destruct (Z.even f1); lia|].
        lia.
  - assert (f1 + 1 <= f2) by lia.
    destruct (2 * r1 <? D1); destruct (2 * r2 <? D2); try lia;
      destruct (D1 <? 2 * r1); destruct (D2 <? 2 * r2); try lia;
      destruct (Z.even f1); destruct (Z.even f2); lia.
Qed.

Lemma pow2_shift (e : Z) :
  -1074 <= e ->
  (0 <= e -> 2 ^ (e + 1074) = 2 ^ 1074 * 2 ^ e) /\
  (e < 0 -> 2 ^ 1074 = 2 ^ (e + 1074) * 2 ^ (- e)).
Proof.
  intros He. split; intros H.
  - rewrite <- Z.pow_add_r by lia. f_equal. lia.
  - rewrite <- Z.pow_add_r by lia. f_equal. lia.
Qed.

(** The mantissa at the exponent [e], with numerator and denominator
    brought to the common scale [2^1074]. *)
Lemma mantissa_scaled (n d e : Z) :
  0 < d -> -1074 <= e ->
  (if 0 <=? e then round_half_even n (d * 2 ^ e)
   else round_half_even (n * 2 ^ (- e)) d) =
  round_half_even (n * 2 ^ 1074) (d * 2 ^ (e + 1074)).
Proof.
  intros Hd He. destruct (pow2_shift e He) as [Hpos Hneg].
  destruct (Z.leb_spec 0 e) as [H|H].
  - rewrite (Hpos H).
    replace (n * 2 ^ 1074) with (2 ^ 1074 * n) by ring.
    replace (d * (2 ^ 1074 * 2 ^ e)) with (2 ^ 1074 * (d * 2 ^ e)) by ring.
    symmetry. apply round_half_even_scale; [lia|].
    pose proof (pow2_pos e H). nia.
  - rewrite (Hneg H).
    replace (n * (2 ^ (e + 1074) * 2 ^ (- e)))
      with (2 ^ (e + 1074) * (n * 2 ^ (- e))) by ring.
    replace (d * 2 ^ (e + 1074)) with (2 ^ (e + 1074) * d) by ring.
    symmetry. apply round_half_even_scale; [|lia].
    apply pow2_pos. lia.
Qed.

Lemma below_2_53_scaled (n d e : Z) :
  0 < d -> -1074 <= e ->
  (below_2_53 n d e <-> n * 2 ^ 1074 < 2 ^ 53 * (d * 2 ^ (e + 1074))).
Proof.
  intros Hd He. destruct (pow2_shift e He) as [Hpos Hneg].
  unfold below_2_53. destruct (Z.leb_spec 0 e) as [H|H].
  - rewrite (Hpos H). pose proof (pow2_pos e H). split; nia.
  - rewrite (Hneg H). pose proof (pow2_pos (e + 1074) ltac:(lia)).
    pose proof (pow2_pos (- e) ltac:(lia)). split; nia.
Qed.

Lemma F2Q_scaled (m e : Z) :
  -1074 <= e ->
  F2Q (mkFloat false m e) == (m * 2 ^ (e + 1074) # Z.to_pos (2 ^ 1074)).
Proof.
  intros He. destruct (pow2_shift e He) as [Hpos Hneg].
  unfold F2Q. cbn [f_neg f_mant f_exp].
  destruct (Z.leb_spec 0 e) as [H|H]; unfold Qeq, inject_Z; cbn [Qnum Qden].
  - rewrite Z2Pos.id by (apply pow2_pos; lia). rewrite (Hpos H). ring.
  - rewrite !Z2Pos.id by (apply pow2_pos; lia).
    rewrite (Hneg H) at 1. ring.
Qed.

(** The exponent and the mantissa that [round_float64] chooses for a
    positive rational [n / d], on the common scale [2^1074]: the quotient
    by [2^e] is below [2^53], it is at least [2^52] unless the exponent is
    the smallest one, the mantissa is that quotient rounded, and the value
    of the double is the mantissa times [2^e]. *)
Lemma round_float64_shape (q : Q) :
  0 < Qnum q ->
  exists e m,
    -1074 <= e /\
    m = round_half_even (Qnum q * 2 ^ 1074) (Zpos (Qden q) * 2 ^ (e + 1074)) /\
    Qnum q * 2 ^ 1074 < 2 ^ 53 * (Zpos (Qden q) * 2 ^ (e + 1074)) /\
    (-1074 < e ->
       2 ^ 52 * (Zpos (Qden q) * 2 ^ (e + 1074)) <= Qnum q * 2 ^ 1074) /\
    (forall r, round_float64 q = Ok r ->
       F2Q r == (m * 2 ^ (e + 1074) # Z.to_pos (2 ^ 1074))).
Proof.
  intros Hn. unfold round_float64.
  set (n := Qnum q) in *. set (d := Zpos (Qden q)).
  assert (Hd : 0 < d) by (unfold d; lia).
  destruct (Z.leb_spec n 0) as [|_]; [lia|].
  cbv zeta.
  set (e0 := Z.log2 n - Z.log2 d - 53).
  set (ge := if 0 <=? e0 then 2 ^ 53 * d * 2 ^ e0 <=? n
             else 2 ^ 53 * d <=? n * 2 ^ (- e0)).
  set (e1 := if ge then e0 + 1 else e0).
  set (e2 := Z.max e1 (-1074)).
  assert (He2 : -1074 <= e2) by (unfold e2; lia).
  rewrite (mantissa_scaled n d e2 Hd He2).
  set (m := round_half_even (n * 2 ^ 1074) (d * 2 ^ (e2 + 1074))).
  assert (Hge : ge = false -> below_2_53 n d e0).
  { unfold ge, below_2_53. destruct (0 <=? e0); intros H;
      apply Z.leb_gt in H; exact H. }
  assert (Hge' : ge = true -> ~ below_2_53 n d e0).
  { unfold ge, below_2_53. destruct (0 <=? e0); intros H;
      apply Z.leb_le in H; lia. }
  assert (Hb1 : below_2_53 n d e1).
  { unfold e1. destruct ge eqn:E.
    - apply below_2_53_log2; lia.
    - apply Hge. reflexivity. }
  assert (Hb2 : below_2_53 n d e2).
  { apply (below_2_53_mono n d e1 e2); unfold e2; lia || assumption. }
  apply (below_2_53_scaled n d e2 Hd He2) in Hb2.
  exists e2, m. split; [exact He2|]. split; [reflexivity|].
  split; [exact Hb2|]. split.
  - intros Hfree.
    assert (Ee : e2 = e1) by (unfold e2 in *; lia).
    assert (He0 : -1074 <= e0) by (unfold e1 in *; destruct ge; lia).
    pose proof (pow2_pos (e0 + 1074) ltac:(lia)) as Hp0.
    rewrite Ee. unfold e1. destruct ge eqn:E.
    + pose proof (Hge' eq_refl) as Hnot.
      rewrite (below_2_53_scaled n d e0 Hd He0) in Hnot.
      replace (e0 + 1 + 1074) with (Z.succ (e0 + 1074)) by lia.
      rewrite Z.pow_succ_r by lia. lia.
    + pose proof (Z.log2_spec n Hn) as [Hnlo _].
      pose proof (Z.log2_spec d Hd) as [_ Hdhi].
      pose proof (Z.log2_nonneg n). pose proof (Z.log2_nonneg d).
      assert (Epow : 2 ^ 52 * 2 ^ Z.succ (Z.log2 d) * 2 ^ (e0 + 1074) =
                     2 ^ Z.log2 n * 2 ^ 1074).
      { rewrite <- !Z.pow_add_r by lia. f_equal. unfold e0. lia. }
      nia.
  - intros r Hr.
    destruct (Z.eqb_spec m (2 ^ 53)) as [E53|N53].
    + destruct (971 <? e2 + 1); [discriminate Hr|].
      injection Hr as <-. rewrite F2Q_scaled by lia.
      unfold Qeq. cbn [Qnum Qden]. f_equal. rewrite E53.
      replace (e2 + 1 + 1074) with (Z.succ (e2 + 1074)) by lia.
      rewrite Z.pow_succ_r by lia. lia.
    + destruct (971 <? e2); [discriminate Hr|].
      injection Hr as <-. apply F2Q_scaled. lia.
Qed.

Lemma round_float64_zero (q : Q) (r : float64) :
  Qnum q <= 0 -> round_float64 q = Ok r -> F2Q r == 0.
Proof.
  intros Hn H. unfold round_float64 in H.
  destruct (Z.leb_spec (Qnum q) 0); [|lia].
  injection H as <-. vm_compute. reflexivity.
Qed.

Lemma round_float64_nonneg (q : Q) (r : float64) :
  round_float64 q = Ok r -> (0 <= F2Q r)%Q.
Proof.
  intros H. destruct (Z_le_gt_dec (Qnum q) 0) as [Hn|Hn].
  - rewrite (round_float64_zero q r Hn H). apply Qle_refl.
  - destruct (round_float64_shape q ltac:(lia))
      as (e & m & He & Hm & Hlt & _ & Hv).
    rewrite (Hv r H). unfold Qle. cbn [Qnum Qden].
    pose proof (pow2_pos (e + 1074) ltac:(lia)) as Hp.
    assert (0 <= m).
    { rewrite Hm. apply round_half_even_nonneg; [|nia].
      pose proof (pow2_pos 1074 ltac:(lia)). nia. }
    nia.
Qed.

(** Rounding to the nearest double keeps the order. *)
Lemma round_float64_mono (q1 q2 : Q) (r1 r2 : float64) :
  (q1 <= q2)%Q ->
  round_float64 q1 = Ok r1 -> round_float64 q2 = Ok r2 ->
  (F2Q r1 <= F2Q r2)%Q.
Proof.
  intros Hle H1 H2.
  destruct (Z_le_gt_dec (Qnum q1) 0) as [Hn1|Hn1].
  - rewrite (round_float64_zero q1 r1 Hn1 H1).
    apply (round_float64_nonneg q2 r2 H2).
  - unfold Qle in Hle.
    assert (Hn2 : 0 < Qnum q2).
    { destruct (Z_le_gt_dec (Qnum q2) 0); [|lia]. nia. }
    destruct (round_float64_shape q1 ltac:(lia))
      as (e1 & m1 & He1 & Hm1 & Hlt1 & Hge1 & Hv1).
    destruct (round_float64_shape q2 Hn2)
      as (e2 & m2 & He2 & Hm2 & Hlt2 & Hge2 & Hv2).
    rewrite (Hv1 r1 H1), (Hv2 r2 H2).
    set (n1 := Qnum q1) in *. set (n2 := Qnum q2) in *.
    set (d1 := Zpos (Qden q1)) in *. set (d2 := Zpos (Qden q2)) in *.
    assert (Hd1 : 0 < d1) by (unfold d1; lia).
    assert (Hd2 : 0 < d2) by (unfold d2; lia).
    set (A := 2 ^ 1074) in *.
    assert (HA : 0 < A) by (unfold A; lia).
    set (W1 := e1 + 1074) in *. set (W2 := e2 + 1074) in *.
    pose proof (pow2_pos W1 ltac:(unfold W1; lia)) as HP1.
    pose proof (pow2_pos W2 ltac:(unfold W2; lia)) as HP2.
    unfold Qle. cbn [Qnum Qden].
    apply Z.mul_le_mono_nonneg_r; [lia|].
    assert (Hm1le : m1 <= 2 ^ 53).
    { rewrite Hm1. apply round_half_even_le; nia. }
    assert (Hm10 : 0 <= m1).
    { rewrite Hm1. apply round_half_even_nonneg; nia. }
    destruct (Z.lt_trichotomy W1 W2) as [Hlt|[Heq|Hgt]].
    + assert (Hfree : -1074 < e2) by (unfold W1, W2 in *; lia).
      assert (Hm2ge : 2 ^ 52 <= m2).
      { rewrite Hm2. apply round_half_even_ge; [nia|]. apply Hge2. exact Hfree. }
      assert (Hpow : 2 * 2 ^ W1 <= 2 ^ W2).
      { rewrite <- Z.pow_succ_r by (unfold W1; lia).
        apply Z.pow_le_mono_r; lia. }
      apply Z.le_trans with (2 ^ 53 * 2 ^ W1); [nia|].
      apply Z.le_trans with (2 ^ 52 * 2 ^ W2); [|nia].
      change (2 ^ 53) with (2 ^ 52 * 2). nia.
    + rewrite Heq in *.
      apply Z.mul_le_mono_nonneg_r; [lia|].
      rewrite Hm1, Hm2. apply round_half_even_mono; [nia|nia|].
      replace (n1 * A * (d2 * 2 ^ W2)) with (n1 * d2 * (A * 2 ^ W2)) by ring.
      replace (n2 * A * (d1 * 2 ^ W2)) with (n2 * d1 * (A * 2 ^ W2)) by ring.
      apply Z.mul_le_mono_nonneg_r; [nia|exact Hle].
    + exfalso.
      assert (Hfree : -1074 < e1) by (unfold W1, W2 in *; lia).
      specialize (Hge1 Hfree).
      assert (Hpow : 2 * 2 ^ W2 <= 2 ^ W1).
      { rewrite <- Z.pow_succ_r by (unfold W2; lia).
        apply Z.pow_le_mono_r; lia. }
      assert (Hx : n2 * A < 2 ^ 52 * (d2 * 2 ^ W1)).
      { apply Z.lt_le_trans with (2 ^ 53 * (d2 * 2 ^ W2)); [exact Hlt2|].
        change (2 ^ 53) with (2 ^ 52 * 2). nia. }
      assert (Hy : n2 * A * d1 < n1 * A * d2).
      { apply Z.lt_le_trans with (2 ^ 52 * (d2 * 2 ^ W1) * d1).
        - apply Z.mul_lt_mono_pos_r; assumption.
        - replace (2 ^ 52 * (d2 * 2 ^ W1) * d1)
            with (2 ^ 52 * (d1 * 2 ^ W1) * d2) by ring.
          apply Z.mul_le_mono_nonneg_r; [lia|exact Hge1]. }
      assert (Hz : n1 * d2 * A <= n2 * d1 * A)
        by (apply Z.mul_le_mono_nonneg_r; lia).
      lia.
Qed.

Lemma nearest_double_mono (n1 n2 F : Z) (r1 r2 : float64) :
  0 < F -> n1 <= n2 ->
  nearest_double n1 F = Ok r1 -> nearest_double n2 F = Ok r2 ->
  (F2Q r1 <= F2Q r2)%Q.
Proof.
  intros HF Hle H1 H2. unfold nearest_double in *.
  assert (Hq : (Qred (n1 # Z.to_pos F) <= Qred (n2 # Z.to_pos F))%Q).
  { apply Qred_le. unfold Qle. cbn [Qnum Qden].
    apply Z.mul_le_mono_nonneg_r; lia. }
  exact (round_float64_mono _ _ _ _ Hq H1 H2).
Qed.

(** X14. The conversions to float keep the order: of two 256-bit rates of
    the same pair the larger one is never shown as the smaller float, and
    of two 256-bit quantities on the same side the larger one is never shown
    as the smaller float. Both floats exist, since the conversions do not
    fail. *)
Theorem conversions_keep_the_order :
  forall (buy sell op : string) (v1 v2 : Z),
    0 <= v1 -> v1 <= v2 -> v2 < 2 ^ 256 ->
    (exists r1 r2,
       CalculateExchangeRateAsFloat buy sell v1 = Ok r1 /\
       CalculateExchangeRateAsFloat buy sell v2 = Ok r2 /\
       (F2Q r1 <= F2Q r2)%Q) /\
    (exists r1 r2,
       CalculateQuantityToFillAsFloat buy sell op v1 = Ok r1 /\
       CalculateQuantityToFillAsFloat buy sell op v2 = Ok r2 /\
       (F2Q r1 <= F2Q r2)%Q).
Proof.
  intros buy sell op v1 v2 H0 Hle Hhi. split.
  - destruct (CalculateExchangeRateAsFloat_Ok buy sell v1 ltac:(lia))
      as [r1 H1].
    destruct (CalculateExchangeRateAsFloat_Ok buy sell v2 ltac:(lia))
      as [r2 H2].
    exists r1, r2. split; [exact H1|]. split; [exact H2|].
    rewrite CalculateExchangeRateAsFloat_exact in H1, H2 by lia.
    refine (nearest_double_mono _ _ (10 ^ 38) r1 r2 _ _ H1 H2); [lia|].
    destruct (buy =? "")%string.
    + apply Z.div_le_mono; lia.
    + destruct (sell =? "")%string; lia.
  - destruct (CalculateQuantityToFillAsFloat_Ok buy sell op v1 ltac:(lia))
      as (r1 & H1 & _).
    destruct (CalculateQuantityToFillAsFloat_Ok buy sell op v2 ltac:(lia))
      as (r2 & H2 & _).
    exists r1, r2. split; [exact H1|]. split; [exact H2|].
    rewrite quantity_float_side in H1, H2 by lia.
    refine (nearest_double_mono v1 v2 _ r1 r2 _ Hle H1 H2).
    destruct (isCoinToFillDESO buy sell op); lia.
Qed.

Lemma conversions_keep_the_order_witness :
  exists r1 r2,
    CalculateExchangeRateAsFloat "" "DAO"
      199999999999999999999999999999999999999 = Ok r1 /\
    CalculateExchangeRateAsFloat "" "DAO"
      200000000000000000000000000000000000000 = Ok r2 /\
    (F2Q r1 <= F2Q r2)%Q.
Proof.
  apply (conversions_keep_the_order "" "DAO" "BID"
           199999999999999999999999999999999999999
           200000000000000000000000000000000000000); lia.
Defined.

Lemma Qred_den_bounds (n : Z) (d : positive) :
  Zpos (Qden (Qred (n # d))) <= Zpos d /\
  (0 < n -> 0 < Qnum (Qred (n # d))).
Proof.
  unfold Qred.
  pose proof (Z.ggcd_correct_divisors n (Zpos d)) as Hdiv.
  pose proof (Z.ggcd_gcd n (Zpos d)) as Hg.
  pose proof (Z.gcd_nonneg n (Zpos d)) as Hg0.
  destruct (Z.ggcd n (Zpos d)) as (g & n' & d').
  cbn [fst snd Qnum Qden] in *. destruct Hdiv as [Hn' Hd'].
  rewrite <- Hg in Hg0.
  assert (Hgpos : 0 < g).
  { destruct (Z.eq_dec g 0) as [E|NE]; [|lia].
    rewrite E, Z.mul_0_l in Hd'. discriminate Hd'. }
  assert (Hd'pos : 0 < d').
  { destruct (Z_lt_le_dec 0 d') as [|Hle]; [assumption|].
    assert (g * d' <= 0) by nia. lia. }
  split.
  - rewrite Z2Pos.id by exact Hd'pos. rewrite Hd'.
    replace d' with (1 * d') at 1 by lia.
    apply Z.mul_le_mono_nonneg_r; lia.
  - intros Hn. destruct (Z_lt_le_dec 0 n') as [|Hle]; [assumption|].
    assert (g * n' <= 0) by nia. lia.
Qed.

Lemma round_float64_error (q : Q) (r : float64) :
  0 < Qnum q -> Zpos (Qden q) <= 2 ^ 1021 ->
  round_float64 q = Ok r ->
  (Qabs (F2Q r - q) * inject_Z (2 ^ 53) <= q)%Q.
Proof.
  intros Hn Hd H.
  destruct (round_float64_shape q Hn) as (e & m & He & Hm & Hlt & Hge & HF).
  rewrite (HF r H). clear HF H.
  assert (HA : 2 ^ 1074 = 2 ^ 53 * 2 ^ 1021) by (rewrite <- Z.pow_add_r; lia).
  assert (HA0 : 0 < 2 ^ 1021) by (apply Z.pow_pos_nonneg; lia).
  pose proof (pow2_pos (e + 1074) ltac:(lia)) as HW.
  destruct q as [n d]. cbn [Qnum Qden] in *.
  set (A := 2 ^ 1074) in *. set (W := 2 ^ (e + 1074)) in *.
  set (D := Zpos d) in *.
  assert (HApos : 0 < A) by lia.
  assert (He' : -1074 < e).
  { destruct (Z.eq_dec e (-1074)) as [E|NE]; [|lia].
    exfalso. unfold W in Hlt. rewrite E in Hlt.
    change (2 ^ (-1074 + 1074)) with 1 in Hlt.
    assert (1 * A <= n * A) by (apply Z.mul_le_mono_nonneg_r; lia).
    assert (2 ^ 53 * (D * 1) <= 2 ^ 53 * 2 ^ 1021)
      by (apply Z.mul_le_mono_nonneg_l; lia).
    lia. }
  specialize (Hge He').
  pose proof (round_half_even_near (n * A) (D * W) ltac:(nia)) as Hnear.
  rewrite <- Hm in Hnear.
  cbv [Qle Qabs Qminus Qplus Qopp Qmult inject_Z Qnum Qden].
  rewrite !Pos2Z.inj_mul. rewrite Z2Pos.id by exact HApos.
  fold D.
  replace (m * W * D + - n * A) with (m * (D * W) - n * A) by ring.
  set (X := Z.abs (m * (D * W) - n * A)) in *.
  assert (HX : X * 2 ^ 53 <= n * A).
  { change (2 ^ 53) with (2 ^ 52 * 2).
    assert (2 ^ 52 * (2 * X) <= 2 ^ 52 * (D * W))
      by (apply Z.mul_le_mono_nonneg_l; lia).
    lia. }
  replace (n * (A * D * 1)) with (n * A * D) by ring.
  apply Z.mul_le_mono_nonneg_r; [unfold D; lia|exact HX].
Qed.

Lemma nearest_double_error (n F : Z) (r : float64) :
  0 <= n -> 0 < F -> F <= 2 ^ 1021 ->
  nearest_double n F = Ok r ->
  (Qabs (F2Q r - (n # Z.to_pos F)) * inject_Z (2 ^ 53) <= n # Z.to_pos F)%Q.
Proof.
  intros Hn HF HF' H.
  destruct (Z.eq_dec n 0) as [E|NE].
  - subst n. rewrite nearest_double_zero in H. injection H as <-.
    vm_compute. discriminate.
  - unfold nearest_double in H.
    destruct (Qred_den_bounds n (Z.to_pos F)) as [Hden Hnum].
    rewrite Z2Pos.id in Hden by exact HF.
    pose proof (round_float64_error _ r (Hnum ltac:(lia)) ltac:(lia) H) as HE.
    rewrite (Qred_correct (n # Z.to_pos F)) in HE. exact HE.
Qed.

(** X15. The float shown for a 256-bit rate or quantity is accurate to one
    part in [2^53]: its distance from the exact quotient (the corrected rate
    over [10^38], the quantity over the scaling factor of its side),
    multiplied by [2^53], is at most that quotient. *)
Theorem conversions_relative_error :
  forall (buy sell op : string) (v : Z) (r : float64),
    0 <= v -> v < 2 ^ 256 ->
    (CalculateExchangeRateAsFloat buy sell v = Ok r ->
     let exact :=
       (if (buy =? "")%string then v / 10 ^ 9
        else if (sell =? "")%string then v * 10 ^ 9 else v)
       # Z.to_pos (10 ^ 38) in
     (Qabs (F2Q r - exact) * inject_Z (2 ^ 53) <= exact)%Q) /\
    (CalculateQuantityToFillAsFloat buy sell op v = Ok r ->
     let exact :=
       v # Z.to_pos (if isCoinToFillDESO buy sell op
                     then 10 ^ 9 else 10 ^ 18) in
     (Qabs (F2Q r - exact) * inject_Z (2 ^ 53) <= exact)%Q).
Proof.
  intros buy sell op v r H0 Hhi.
  assert (Hbig : 10 ^ 38 <= 2 ^ 1021).
  { apply Z.le_trans with (2 ^ 127); [vm_compute; discriminate|].
    apply Z.pow_le_mono_r; lia. }
  split; intros H; cbv zeta.
  - rewrite CalculateExchangeRateAsFloat_exact in H by exact H0.
    apply nearest_double_error; try assumption; [|lia].
    destruct (buy =? "")%string.
    + apply Z.div_pos; lia.
    + destruct (sell =? "")%string; lia.
  - rewrite quantity_float_side in H by exact H0.
    apply nearest_double_error; try assumption.
    + destruct (isCoinToFillDESO buy sell op); lia.
    + destruct (isCoinToFillDESO buy sell op); lia.
Qed.

Lemma conversions_relative_error_witness :
  CalculateExchangeRateAsFloat "DAO" "" 33333333333333333333333333333
    = Ok (mkFloat false 6004799503160661 (-54)) /\
  (Qabs (F2Q (mkFloat false 6004799503160661 (-54)) -
         (33333333333333333333333333333 * 10 ^ 9 # Z.to_pos (10 ^ 38)))
   * inject_Z (2 ^ 53)
   <= 33333333333333333333333333333 * 10 ^ 9 # Z.to_pos (10 ^ 38))%Q.
Proof.
  assert (H : CalculateExchangeRateAsFloat "DAO" "" 33333333333333333333333333333
              = Ok (mkFloat false 6004799503160661 (-54)))
    by (vm_compute; reflexivity).
  split; [exact H|].
  exact (proj1 (conversions_relative_error "DAO" "" "BID"
                  33333333333333333333333333333
                  (mkFloat false 6004799503160661 (-54))
                  ltac:(lia) ltac:(lia)) H).
Defined.

(** ** Nearest integers *)

(** No integer is nearer to [n / d] than [round_half_even n d]. *)
Lemma round_half_even_closest (n d M : Z) :
  0 < d ->
  Z.abs (round_half_even n d * d - n) <= Z.abs (M * d - n).
Proof.
  intros Hd. pose proof (round_half_even_near n d Hd) as Hnear.
  set (m := round_half_even n d) in *.
  destruct (Z.lt_trichotomy M m) as [Hlt|[->|Hgt]]; [|lia|].
  - assert (M * d <= m * d - d) by nia. lia.
  - assert (m * d + d <= M * d) by nia. lia.
Qed.

(** When another integer is as near, the one chosen is even. *)
Lemma round_half_even_tie (n d M : Z) :
  0 < d -> M <> round_half_even n d ->
  Z.abs (M * d - n) = Z.abs (round_half_even n d * d - n) ->
  Z.even (round_half_even n d) = true.
Proof.
  intros Hd HM Htie. pose proof (round_half_even_near n d Hd) as Hnear.
  assert (Hhalf : 2 * Z.abs (round_half_even n d * d - n) = d).
  { set (m := round_half_even n d) in *.
    destruct (Z.lt_trichotomy M m) as [Hlt|[->|Hgt]]; [|lia|].
    - assert (M * d <= m * d - d) by nia. lia.
    - assert (m * d + d <= M * d) by nia. lia. }
  clear Htie HM Hnear. revert Hhalf. unfold round_half_even.
  pose proof (Z.div_mod n d ltac:(lia)) as Hdm.
  pose proof (Z.mod_pos_bound n d Hd) as Hb.
  destruct (Z.ltb_spec (2 * (n mod d)) d); [intros; nia|].
  destruct (Z.ltb_spec d (2 * (n mod d))); [intros; nia|].
  intros _. destruct (Z.even (n / d)) eqn:E; [exact E|].
  rewrite Z.even_add, E. reflexivity.
Qed.


(** Distances between fractions, on a common denominator. *)
Lemma Qabs_diff_le (S S' P n d : Z) :
  0 < P -> 0 < d ->
  ((Qabs ((S # Z.to_pos P) - (n # Z.to_pos d)) <=
    Qabs ((S' # Z.to_pos P) - (n # Z.to_pos d)))%Q <->
   Z.abs (S * d - n * P) <= Z.abs (S' * d - n * P)).
Proof.
  intros HP Hd.
  unfold Qle, Qabs, Qminus, Qplus, Qopp. cbn [Qnum Qden].
  rewrite !Pos2Z.inj_mul, !Z2Pos.id by assumption.
  replace (S * d + - n * P) with (S * d - n * P) by ring.
  replace (S' * d + - n * P) with (S' * d - n * P) by ring.
  assert (0 < P * d) by nia.
  split; intros H0.
  - apply Z.mul_le_mono_pos_r in H0; assumption.
  - apply Z.mul_le_mono_pos_r; assumption.
Qed.

Lemma Qabs_diff_eq (S S' P n d : Z) :
  0 < P -> 0 < d ->
  (Qabs ((S # Z.to_pos P) - (n # Z.to_pos d)) ==
   Qabs ((S' # Z.to_pos P) - (n # Z.to_pos d)) <->
   Z.abs (S * d - n * P) = Z.abs (S' * d - n * P)).
Proof.
  intros HP Hd.
  unfold Qeq, Qabs, Qminus, Qplus, Qopp. cbn [Qnum Qden].
  rewrite !Pos2Z.inj_mul, !Z2Pos.id by assumption.
  replace (S * d + - n * P) with (S * d - n * P) by ring.
  replace (S' * d + - n * P) with (S' * d - n * P) by ring.
  assert (0 < P * d) by nia.
  split; intros H0.
  - apply Z.mul_cancel_r in H0; [assumption|lia].
  - rewrite H0. reflexivity.
Qed.

(** A non-negative float as a fraction [n / d]; the integer that
    [scaled_round] chooses is [n * 10^prec / d] rounded. *)
Lemma F2Q_fraction (f : float64) :
  nonneg_float f ->
  exists n d,
    0 <= n /\ 0 < d /\ F2Q f == n # Z.to_pos d /\
    Float_Int f = n / d /\
    forall prec, 0 <= prec ->
      scaled_round prec f = round_half_even (n * 10 ^ prec) d.
Proof.
  intros [Hs Hm]. unfold F2Q, scaled_round, Float_Int. rewrite Hs.
  destruct (Z.leb_spec 0 (f_exp f)) as [He|He].
  - pose proof (pow2_pos (f_exp f) He) as H2.
    exists (f_mant f * 2 ^ f_exp f), 1.
    split; [nia|]. split; [lia|]. split; [reflexivity|].
    split; [rewrite Z.div_1_r; reflexivity|].
    intros prec _. symmetry. apply round_half_even_one.
  - pose proof (pow2_pos (- f_exp f) ltac:(lia)) as H2.
    exists (f_mant f), (2 ^ (- f_exp f)).
    split; [exact Hm|]. split; [exact H2|]. split; [reflexivity|].
    split; [reflexivity|].
    intros prec _. reflexivity.
Qed.

(** The text of [%.<prec>f] denotes the multiple of [10^-prec] nearest to
    the float, and at a tie the one whose last digit is even. *)
Lemma scaled_round_nearest (prec : Z) (f : float64) :
  nonneg_float f -> 0 <= prec ->
  (forall S' : Z,
     (Qabs ((scaled_round prec f # Z.to_pos (10 ^ prec)) - F2Q f) <=
      Qabs ((S' # Z.to_pos (10 ^ prec)) - F2Q f))%Q) /\
  (forall S' : Z,
     S' <> scaled_round prec f ->
     Qabs ((S' # Z.to_pos (10 ^ prec)) - F2Q f) ==
     Qabs ((scaled_round prec f # Z.to_pos (10 ^ prec)) - F2Q f) ->
     Z.even (scaled_round prec f) = true).
Proof.
  intros Hf Hp. pose proof (pow10_pos prec Hp) as H10.
  destruct (F2Q_fraction f Hf) as (n & d & Hn & Hd & Hv & _ & Hs).
  rewrite (Hs prec Hp). split.
  - intros S'. rewrite Hv. apply Qabs_diff_le; try assumption.
    apply round_half_even_closest. exact Hd.
  - intros S' Hne Htie. rewrite Hv in Htie.
    apply Qabs_diff_eq in Htie; try assumption.
    apply (round_half_even_tie _ _ S' Hd Hne Htie).
Qed.

(** ** The significant-digit limiter *)

(** The text of a float with at most 15 integer digits: the integer [S]
    nearest to [f * 10^k], ties to even, written with the point before its
    last [k = 15 - d] digits. *)
Lemma formatFloatAsString_small_nearest (f : float64) :
  nonneg_float f -> numDigits (Float_Int f) <= 15 ->
  let k := 15 - numDigits (Float_Int f) in
  exists text S,
    0 <= S /\
    formatFloatAsString f = Ok text /\
    text = Sprintf_f k f /\
    text = utoa (S / 10 ^ k) ++
           (if k =? 0 then ""
            else "." ++ render_digits (Z.to_nat k) (S mod 10 ^ k) "") /\
    frac_digits text = k /\
    decimal_parts text = Some (S / 10 ^ k, S mod 10 ^ k, k) /\
    (Qabs ((S # Z.to_pos (10 ^ k)) - F2Q f)
     <= 1 # Z.to_pos (2 * 10 ^ k))%Q /\
    (forall S' : Z,
       (Qabs ((S # Z.to_pos (10 ^ k)) - F2Q f) <=
        Qabs ((S' # Z.to_pos (10 ^ k)) - F2Q f))%Q) /\
    (forall S' : Z,
       S' <> S ->
       Qabs ((S' # Z.to_pos (10 ^ k)) - F2Q f) ==
       Qabs ((S # Z.to_pos (10 ^ k)) - F2Q f) ->
       Z.even S = true).
Proof.
  intros Hf Hd k.
  pose proof (numDigits_nonneg (Float_Int f)) as Hd0.
  assert (Hk : 0 <= k) by (unfold k; lia).
  destruct (scaled_round_nearest k f Hf Hk) as [Hnear Htie].
  exists (Sprintf_f k f), (scaled_round k f).
  split; [apply scaled_round_nonneg; assumption|].
  split; [apply formatFloatAsString_small; assumption|].
  split; [reflexivity|].
  split; [unfold Sprintf_f; destruct Hf as [-> _]; reflexivity|].
  split; [apply frac_digits_Sprintf_f; assumption|].
  split; [apply Sprintf_f_parts; assumption|].
  split; [apply Sprintf_f_near; assumption|].
  split; assumption.
Qed.




(** ** The nearest double *)

(** [round_float64_shape] with the fields of the double: the mantissa is
    the rounded quotient, or [2^52] at the next exponent when the quotient
    is rounded up to [2^53]. *)
Lemma round_float64_fields (q : Q) (r : float64) :
  0 < Qnum q -> round_float64 q = Ok r ->
  exists e m,
    -1074 <= e /\
    m = round_half_even (Qnum q * 2 ^ 1074) (Zpos (Qden q) * 2 ^ (e + 1074)) /\
    Qnum q * 2 ^ 1074 < 2 ^ 53 * (Zpos (Qden q) * 2 ^ (e + 1074)) /\
    (-1074 < e ->
       2 ^ 52 * (Zpos (Qden q) * 2 ^ (e + 1074)) <= Qnum q * 2 ^ 1074) /\
    F2Q r == (m * 2 ^ (e + 1074) # Z.to_pos (2 ^ 1074)) /\
    f_neg r = false /\
    ((f_mant r = m /\ f_exp r = e) \/
     (m = 2 ^ 53 /\ f_mant r = 2 ^ 52 /\ f_exp r = e + 1)).
Proof.
  intros Hn Hr.
  revert Hr. unfold round_float64.
  set (n := Qnum q) in *. set (d := Zpos (Qden q)).
  assert (Hd : 0 < d) by (unfold d; lia).
  destruct (Z.leb_spec n 0) as [|_]; [lia|].
  cbv zeta.
  set (e0 := Z.log2 n - Z.log2 d - 53).
  set (ge := if 0 <=? e0 then 2 ^ 53 * d * 2 ^ e0 <=? n
             else 2 ^ 53 * d <=? n * 2 ^ (- e0)).
  set (e1 := if ge then e0 + 1 else e0).
  set (e2 := Z.max e1 (-1074)).
  assert (He2 : -1074 <= e2) by (unfold e2; lia).
  rewrite (mantissa_scaled n d e2 Hd He2).
  set (m2 := round_half_even (n * 2 ^ 1074) (d * 2 ^ (e2 + 1074))).
  intros Hr.
  assert (Hge0 : ge = false -> below_2_53 n d e0).
  { unfold ge, below_2_53. destruct (0 <=? e0); intros H;
      apply Z.leb_gt in H; exact H. }
  assert (Hge' : ge = true -> ~ below_2_53 n d e0).
  { unfold ge, below_2_53. destruct (0 <=? e0); intros H;
      apply Z.leb_le in H; lia. }
  assert (Hb1 : below_2_53 n d e1).
  { unfold e1. destruct ge eqn:E.
    - apply below_2_53_log2; lia.
    - apply Hge0. reflexivity. }
  assert (Hb2 : below_2_53 n d e2).
  { apply (below_2_53_mono n d e1 e2); unfold e2; lia || assumption. }
  apply (below_2_53_scaled n d e2 Hd He2) in Hb2.
  exists e2, m2. split; [exact He2|]. split; [reflexivity|].
  split; [exact Hb2|]. split.
  - intros Hfree.
    assert (Ee : e2 = e1) by (unfold e2 in *; lia).
    assert (He0 : -1074 <= e0) by (unfold e1 in *; destruct ge; lia).
    pose proof (pow2_pos (e0 + 1074) ltac:(lia)) as Hp0.
    rewrite Ee. unfold e1. destruct ge eqn:E.
    + pose proof (Hge' eq_refl) as Hnot.
      rewrite (below_2_53_scaled n d e0 Hd He0) in Hnot.
      replace (e0 + 1 + 1074) with (Z.succ (e0 + 1074)) by lia.
      rewrite Z.pow_succ_r by lia. lia.
    + pose proof (Z.log2_spec n Hn) as [Hnlo _].
      pose proof (Z.log2_spec d Hd) as [_ Hdhi].
      pose proof (Z.log2_nonneg n). pose proof (Z.log2_nonneg d).
      assert (Epow : 2 ^ 52 * 2 ^ Z.succ (Z.log2 d) * 2 ^ (e0 + 1074) =
                     2 ^ Z.log2 n * 2 ^ 1074).
      { rewrite <- !Z.pow_add_r by lia. f_equal. unfold e0. lia. }
      nia.
  - destruct (Z.eqb_spec m2 (2 ^ 53)) as [E53|N53].
    + destruct (971 <? e2 + 1); [discriminate Hr|].
      injection Hr as <-. split; [|split; [reflexivity|]].
      * rewrite F2Q_scaled by lia.
        unfold Qeq. cbn [Qnum Qden]. f_equal. rewrite E53.
        replace (e2 + 1 + 1074) with (Z.succ (e2 + 1074)) by lia.
        rewrite Z.pow_succ_r by lia. lia.
      * right. cbn [f_mant f_exp]. repeat split. exact E53.
    + destruct (971 <? e2); [discriminate Hr|].
      injection Hr as <-. split; [|split; [reflexivity|]].
      * apply F2Q_scaled. lia.
      * left. cbn [f_mant f_exp]. split; reflexivity.
Qed.

Lemma F2Q_signed_scaled (r : float64) :
  -1074 <= f_exp r ->
  F2Q r ==
  ((if f_neg r then - f_mant r else f_mant r) * 2 ^ (f_exp r + 1074)
   # Z.to_pos (2 ^ 1074)).
Proof.
  intros He. destruct (pow2_shift (f_exp r) He) as [Hpos Hneg].
  unfold F2Q. set (s := if f_neg r then - f_mant r else f_mant r).
  destruct (Z.leb_spec 0 (f_exp r)) as [H|H];
    unfold Qeq, inject_Z; cbn [Qnum Qden].
  - rewrite Z2Pos.id by (apply pow2_pos; lia). rewrite (Hpos H). ring.
  - rewrite !Z2Pos.id by (apply pow2_pos; lia).
    rewrite (Hneg H) at 1. ring.
Qed.

(** No double is nearer to a positive rational than the one that
    [round_float64] returns, and when another double is as near, the
    mantissa of the one returned is even. *)
Lemma round_float64_nearest (q : Q) (r r' : float64) :
  0 < Qnum q -> round_float64 q = Ok r -> is_double r' ->
  (Qabs (F2Q r - q) <= Qabs (F2Q r' - q))%Q /\
  (~ F2Q r' == F2Q r ->
   Qabs (F2Q r' - q) == Qabs (F2Q r - q) ->
   Z.even (f_mant r) = true).
Proof.
  intros Hn Hr [Hm' He'].
  destruct (round_float64_fields q r Hn Hr)
    as (e & m & He & Hm & Hlt & Hge & Hv & _ & Hfields).
  pose proof (F2Q_signed_scaled r' ltac:(lia)) as Hv'.
  destruct q as [n dq]. cbn [Qnum Qden] in *.
  change (n # dq) with (n # Z.to_pos (Zpos dq)).
  set (d := Zpos dq) in *. assert (Hd : 0 < d) by (unfold d; lia).
  set (A := 2 ^ 1074) in *. assert (HA : 0 < A) by (unfold A; lia).
  set (W := 2 ^ (e + 1074)) in *.
  assert (HW : 0 < W) by (apply pow2_pos; lia).
  set (W' := 2 ^ (f_exp r' + 1074)) in *.
  assert (HW' : 0 < W') by (apply pow2_pos; lia).
  set (X' := (if f_neg r' then - f_mant r' else f_mant r') * W') in *.
  assert (HSD : 0 < d * W) by nia.
  assert (HSN : 0 < n * A) by nia.
  assert (Hclosest : forall M,
            Z.abs (m * (d * W) - n * A) <= Z.abs (M * (d * W) - n * A)).
  { intros M. rewrite Hm. apply round_half_even_closest. exact HSD. }
  assert (Htie : forall M, M <> m ->
            Z.abs (M * (d * W) - n * A) = Z.abs (m * (d * W) - n * A) ->
            Z.even m = true).
  { intros M HM E. rewrite Hm. rewrite Hm in HM, E.
    apply (round_half_even_tie _ _ M HSD HM E). }
  assert (Heven : Z.even m = true -> Z.even (f_mant r) = true).
  { intros E. destruct Hfields as [[-> _]|(_ & -> & _)];
      [exact E|reflexivity]. }
  (* the other double, as a multiple of the unit of [r] or below it *)
  assert (Hcases :
            (exists M, X' * d = M * (d * W) /\ (X' = m * W -> M = m)) \/
            (X' * d < 2 ^ 52 * (d * W) /\ 2 ^ 52 * (d * W) <= n * A) \/
            (X' * d < 0)).
  { destruct (f_neg r') eqn:Hs.
    - destruct (Z.eq_dec (f_mant r') 0) as [E0|N0].
      + left. exists 0. unfold X'. rewrite E0. split; [ring|].
        intros E. symmetry in E. cbn in E.
        apply Z.mul_eq_0 in E. destruct E as [E|E]; [symmetry; exact E|lia].
      + right. right. unfold X'. nia.
    - destruct (Z_le_gt_dec e (f_exp r')) as [Hle|Hgt].
      + left. exists (f_mant r' * 2 ^ (f_exp r' - e)).
        assert (EW : W' = W * 2 ^ (f_exp r' - e)).
        { unfold W, W'. rewrite <- Z.pow_add_r by lia. f_equal. lia. }
        split.
        * unfold X'. rewrite EW. ring.
        * unfold X'. rewrite EW. intros E.
          apply (Z.mul_cancel_r _ _ W); [lia|]. rewrite <- E. ring.
      + right. left.
        assert (EW : W = W' * 2 ^ (e - f_exp r')).
        { unfold W, W'. rewrite <- Z.pow_add_r by lia. f_equal. lia. }
        assert (H2 : 2 <= 2 ^ (e - f_exp r')).
        { change 2 with (2 ^ 1) at 1. apply Z.pow_le_mono_r; lia. }
        split; [|apply Hge; lia].
        unfold X'. rewrite EW.
        assert (f_mant r' * W' * d < 2 ^ 53 * (d * W')) by nia.
        assert (2 ^ 53 * (d * W') <= 2 ^ 52 * (d * (W' * 2 ^ (e - f_exp r')))).
        { change (2 ^ 53) with (2 ^ 52 * 2).
          rewrite <- Z.mul_assoc. apply Z.mul_le_mono_nonneg_l; [lia|].
          nia. }
        lia. }
  split.
  - rewrite Hv, Hv'. fold X'. fold A. apply Qabs_diff_le; try assumption.
    replace (m * W * d) with (m * (d * W)) by ring.
    destruct Hcases as [(M & EM & _)|[[Hlow Hbig]|Hneg]].
    + rewrite EM. apply Hclosest.
    + specialize (Hclosest (2 ^ 52)). lia.
    + specialize (Hclosest 0). lia.
  - intros Hne Heq. apply Heven.
    rewrite Hv, Hv' in Heq. fold X' in Heq. fold A in Heq.
    apply Qabs_diff_eq in Heq; try assumption.
    replace (m * W * d) with (m * (d * W)) in Heq by ring.
    assert (HX : X' <> m * W).
    { intros E. apply Hne. rewrite Hv, Hv'. fold X'. rewrite E.
      reflexivity. }
    destruct Hcases as [(M & EM & HMm)|[[Hlow Hbig]|Hneg]].
    + rewrite EM in Heq. apply (Htie M); [|exact Heq].
      intros E. apply HX. subst M.
      apply (Z.mul_cancel_r _ _ d); [lia|]. rewrite EM. ring.
    + exfalso. specialize (Hclosest (2 ^ 52)). lia.
    + exfalso. specialize (Hclosest 0). lia.
Qed.

Lemma round_float64_normal (q : Q) (r : float64) :
  0 < Qnum q -> round_float64 q = Ok r ->
  2 ^ 52 <= f_mant r \/ f_exp r = -1074.
Proof.
  intros Hn Hr.
  destruct (round_float64_fields q r Hn Hr)
    as (e & m & He & Hm & Hlt & Hge & _ & _ & Hfields).
  destruct Hfields as [[Em Ee]|(_ & Em & _)]; [|left; lia].
  destruct (Z.eq_dec e (-1074)) as [E|NE]; [right; lia|].
  left. rewrite Em, Hm. apply round_half_even_ge.
  - pose proof (pow2_pos (e + 1074) ltac:(lia)). nia.
  - apply Hge. lia.
Qed.

(** The double that [nearest_double] returns for [n / F] is the nearest
    one, ties to the even mantissa. *)
Lemma nearest_double_is_nearest (n F : Z) (r : float64) :
  0 <= n < 2 ^ 1023 -> 0 < F ->
  nearest_double n F = Ok r ->
  is_nearest_double (n # Z.to_pos F) r.
Proof.
  intros Hn HF Hr.
  destruct (nearest_double_Ok n F Hn HF) as (r0 & Hr0 & Hdbl & Hsign).
  rewrite Hr in Hr0. injection Hr0 as <-.
  split; [exact Hdbl|]. split; [exact Hsign|].
  destruct (Z.eq_dec n 0) as [E|NE].
  - subst n. rewrite nearest_double_zero in Hr. injection Hr as <-.
    split; [right; reflexivity|]. split.
    + intros r' _.
      assert (E : Qabs (F2Q (mkFloat false 0 (-1074)) - (0 # Z.to_pos F)) == 0)
        by reflexivity.
      rewrite E. apply Qabs_nonneg.
    + intros; reflexivity.
  - unfold nearest_double in Hr.
    destruct (Qred_den_bounds n (Z.to_pos F)) as [_ Hnum].
    specialize (Hnum ltac:(lia)).
    split; [exact (round_float64_normal _ r Hnum Hr)|].
    split.
    + intros r' Hr'.
      destruct (round_float64_nearest _ r r' Hnum Hr Hr') as [Hle _].
      rewrite (Qred_correct (n # Z.to_pos F)) in Hle. exact Hle.
    + intros r' Hr' Hne Heq.
      destruct (round_float64_nearest _ r r' Hnum Hr Hr') as [_ Htie].
      apply Htie; [exact Hne|].
      rewrite (Qred_correct (n # Z.to_pos F)). exact Heq.
Qed.

(** ** Rounding in the conversions to decimal *)

(** C7, as amended. [formatFloatAsString] truncates only when the integer
    part has more than 15 digits: the text then denotes
    [floor(f / 10^(d-15)) * 10^(d-15)], at most [f] and less than
    [10^(d-15)] below it. With at most 15 integer digits the text has
    exactly [15 - d] digits after the point and denotes [S / 10^(15-d)]
    for the integer [S] nearest to [f * 10^(15-d)], ties to the even one: at
    most half a unit of the last digit away from [f], on either side. The
    conversions from canonical form write the exact quotient [scaled / F]
    with every digit and return the double nearest to it, ties to the even
    mantissa. *)
Theorem decimal_conversions_rounding :
  (forall f : float64,
     nonneg_float f ->
     let d := numDigits (Float_Int f) in
     (d <= 15 ->
        exists text S,
          0 <= S /\
          formatFloatAsString f = Ok text /\
          frac_digits text = 15 - d /\
          decimal_parts text =
            Some (S / 10 ^ (15 - d), S mod 10 ^ (15 - d), 15 - d) /\
          decimal_value (S / 10 ^ (15 - d), S mod 10 ^ (15 - d), 15 - d) =
            S # Z.to_pos (10 ^ (15 - d)) /\
          (Qabs ((S # Z.to_pos (10 ^ (15 - d))) - F2Q f)
           <= 1 # Z.to_pos (2 * 10 ^ (15 - d)))%Q /\
          (forall S' : Z,
             (Qabs ((S # Z.to_pos (10 ^ (15 - d))) - F2Q f) <=
              Qabs ((S' # Z.to_pos (10 ^ (15 - d))) - F2Q f))%Q) /\
          (forall S' : Z,
             S' <> S ->
             Qabs ((S' # Z.to_pos (10 ^ (15 - d))) - F2Q f) ==
             Qabs ((S # Z.to_pos (10 ^ (15 - d))) - F2Q f) ->
             Z.even S = true)) /\
     (15 < d ->
        exists text p,
          formatFloatAsString f = Ok text /\
          decimal_parts text = Some p /\
          decimal_value p ==
            inject_Z (Float_Int f / 10 ^ (d - 15) * 10 ^ (d - 15)) /\
          (decimal_value p <= F2Q f)%Q /\
          (F2Q f < decimal_value p + inject_Z (10 ^ (d - 15)))%Q)) /\
  (forall (buy sell : string) (v : Z),
     0 <= v ->
     CalculateExchangeRateAsFloat buy sell v =
       nearest_double
         (if (buy =? "")%string then v / 10 ^ 9
          else if (sell =? "")%string then v * 10 ^ 9 else v)
         (10 ^ 38)) /\
  (forall (buy sell op : string) (u : Z),
     0 <= u ->
     CalculateQuantityToFillAsFloat buy sell op u =
       nearest_double u
         (if isCoinToFillDESO buy sell op then 10 ^ 9 else 10 ^ 18)) /\
  (forall (buy sell : string) (v : Z),
     0 <= v < 2 ^ 256 ->
     exists r,
       CalculateExchangeRateAsFloat buy sell v = Ok r /\
       is_nearest_double
         ((if (buy =? "")%string then v / 10 ^ 9
           else if (sell =? "")%string then v * 10 ^ 9 else v)
          # Z.to_pos (10 ^ 38)) r) /\
  (forall (buy sell op : string) (u : Z),
     0 <= u < 2 ^ 256 ->
     exists r,
       CalculateQuantityToFillAsFloat buy sell op u = Ok r /\
       is_nearest_double
         (u # Z.to_pos (if isCoinToFillDESO buy sell op
                        then 10 ^ 9 else 10 ^ 18)) r).
Proof.
  assert (Hbig : 2 ^ 256 * 10 ^ 9 < 2 ^ 1023).
  { apply Z.lt_trans with (2 ^ 256 * 2 ^ 30).
    - apply Z.mul_lt_mono_pos_l; [lia|]. vm_compute. reflexivity.
    - rewrite <- Z.pow_add_r by lia. apply Z.pow_lt_mono_r; lia. }
  split; [|split; [|split; [|split]]].
  - intros f Hf d. unfold d.
    pose proof (numDigits_nonneg (Float_Int f)) as Hd0.
    pose proof (Float_Int_nonneg f Hf) as Hi.
    split.
    + intros Hd.
      destruct (formatFloatAsString_small_nearest f Hf Hd)
        as (text & S & HS & Hfmt & _ & _ & Hfrac & Hparts & Hhalf & Hnear
            & Htie).
      exists text, S.
      split; [exact HS|]. split; [exact Hfmt|]. split; [exact Hfrac|].
      split; [exact Hparts|].
      split; [apply decimal_value_split; lia|].
      split; [exact Hhalf|]. split; assumption.
    + intros Hd. set (k := numDigits (Float_Int f) - 15).
      pose proof (pow10_pos k ltac:(unfold k; lia)) as H10.
      pose proof (Z.div_pos (Float_Int f) (10 ^ k) Hi H10) as Hq.
      pose proof (Z.div_mod (Float_Int f) (10 ^ k) ltac:(lia)) as Hdm.
      pose proof (Z.mod_pos_bound (Float_Int f) (10 ^ k) H10) as Hmod.
      set (T := Float_Int f / 10 ^ k * 10 ^ k).
      assert (HT : 0 <= T) by (unfold T; nia).
      assert (Hval : decimal_value (T, 0, 1) == inject_Z T).
      { unfold decimal_value, Qeq, inject_Z. cbn [Qnum Qden].
        change (Z.pos (Z.to_pos (10 ^ 1))) with 10. change (10 ^ 1) with 10.
        lia. }
      exists (utoa T ++ ".0"), (T, 0, 1).
      split; [apply formatFloatAsString_large; assumption|].
      split; [apply decimal_parts_point_zero; exact HT|].
      split; [exact Hval|]. rewrite Hval. split.
      * apply Qle_trans with (inject_Z (Float_Int f)).
        -- rewrite <- Zle_Qle. unfold T. lia.
        -- apply inject_Z_Float_Int_le. exact Hf.
      * apply Qlt_le_trans with (inject_Z (Float_Int f + 1)).
        -- apply F2Q_lt_Float_Int_succ. exact Hf.
        -- rewrite <- inject_Z_plus, <- Zle_Qle. unfold T. lia.
  - intros buy sell v Hv. apply CalculateExchangeRateAsFloat_exact. exact Hv.
  - intros buy sell op u Hu. apply quantity_float_side. exact Hu.
  - intros buy sell v Hv.
    rewrite CalculateExchangeRateAsFloat_exact by lia.
    set (n := if (buy =? "")%string then v / 10 ^ 9
              else if (sell =? "")%string then v * 10 ^ 9 else v).
    assert (Hn : 0 <= n < 2 ^ 1023).
    { unfold n. destruct (buy =? "")%string.
      - split; [apply Z.div_pos; lia|].
        apply Z.le_lt_trans with v; [|lia].
        apply Z.div_le_upper_bound; lia.
      - destruct (sell =? "")%string; lia. }
    destruct (nearest_double_Ok n (10 ^ 38) Hn ltac:(lia)) as (r & Hr & _).
    exists r. split; [exact Hr|].
    apply nearest_double_is_nearest; [exact Hn|lia|exact Hr].
  - intros buy sell op u Hu.
    rewrite quantity_float_side by lia.
    set (F := if isCoinToFillDESO buy sell op then 10 ^ 9 else 10 ^ 18).
    assert (HF : 0 < F) by (unfold F; destruct (isCoinToFillDESO _ _ _); lia).
    assert (Hn : 0 <= u < 2 ^ 1023) by lia.
    destruct (nearest_double_Ok u F Hn HF) as (r & Hr & _).
    exists r. split; [exact Hr|].
    apply nearest_double_is_nearest; assumption.
Qed.

Lemma decimal_conversions_rounding_witness :
  (exists text S,
     0 <= S /\
     formatFloatAsString float_100000000000_0625 = Ok text /\
     frac_digits text = 15 - 12 /\
     decimal_parts text =
       Some (S / 10 ^ (15 - 12), S mod 10 ^ (15 - 12), 15 - 12) /\
     decimal_value (S / 10 ^ (15 - 12), S mod 10 ^ (15 - 12), 15 - 12) =
       S # Z.to_pos (10 ^ (15 - 12)) /\
     (Qabs ((S # Z.to_pos (10 ^ (15 - 12))) - F2Q float_100000000000_0625)
      <= 1 # Z.to_pos (2 * 10 ^ (15 - 12)))%Q /\
     (forall S' : Z,
        (Qabs ((S # Z.to_pos (10 ^ (15 - 12))) - F2Q float_100000000000_0625)
         <= Qabs ((S' # Z.to_pos (10 ^ (15 - 12)))
                  - F2Q float_100000000000_0625))%Q) /\
     (forall S' : Z,
        S' <> S ->
        Qabs ((S' # Z.to_pos (10 ^ (15 - 12))) - F2Q float_100000000000_0625)
        == Qabs ((S # Z.to_pos (10 ^ (15 - 12)))
                 - F2Q float_100000000000_0625) ->
        Z.even S = true)) /\
  (exists r,
     CalculateExchangeRateAsFloat "DAO1" "DAO2"
       199999999999999999999999999999999999999 = Ok r /\
     is_nearest_double
       (199999999999999999999999999999999999999 # Z.to_pos (10 ^ 38)) r).
Proof.
  assert (Hf : nonneg_float float_100000000000_0625)
    by (split; [reflexivity|cbn; lia]).
  destruct decimal_conversions_rounding as (Hfmt & _ & _ & Hrate & _).
  split.
  - destruct (Hfmt float_100000000000_0625 Hf) as (Hsmall & _).
    change (numDigits (Float_Int float_100000000000_0625)) with 12 in Hsmall.
    apply Hsmall. lia.
  - apply (Hrate "DAO1" "DAO2" 199999999999999999999999999999999999999). lia.
Defined.

(** C7, as stated, fails. The largest double below one is formatted as
    "1.000000000000000", above the input: the retained digits are rounded
    up, not truncated, and the text has sixteen significant digits. And the
    canonical rate [2 * 10^38 - 1], whose expansion is 1.99999...9 with 39
    digits, is converted to the double 2.0, above the exact value. *)
Lemma conversions_round_up :
  formatFloatAsString float_below_1 = Ok "1.000000000000000" /\
  decimal_parts "1.000000000000000" = Some (1, 0, 15) /\
  ~ (decimal_value (1, 0, 15)%Z <= F2Q float_below_1)%Q /\
  CalculateExchangeRateAsFloat "DAO1" "DAO2"
    199999999999999999999999999999999999999 = Ok (mkFloat false (2 ^ 52) (-51)) /\
  ~ (F2Q (mkFloat false (2 ^ 52) (-51)) <=
     199999999999999999999999999999999999999 # Z.to_pos (10 ^ 38))%Q.
Proof.
  split; [vm_compute; reflexivity|].
  split; [vm_compute; reflexivity|].
  split; [vm_compute; intros H; apply H; reflexivity|].
  split; [vm_compute; reflexivity|].
  vm_compute; intros H; apply H; reflexivity.
Qed.

(** The doubles named in the examples are what [strconv.ParseFloat] gives
    on their decimals. *)
Example named_doubles_parsed :
  ParseFloat "100000000000000000000000" = Ok float_1e23 /\
  ParseFloat "99999999999999900000000.0" =
    Ok float_99999999999999900000000 /\
  ParseFloat "0.0000000000000015" = Ok float_1_5e_15 /\
  ParseFloat "0.000000000000001" = Ok float_1e_15 /\
  ParseFloat "100000000000.0625" = Ok float_100000000000_0625 /\
  ParseFloat "100000000000.1875" = Ok (mkFloat false 6553600000012288 (-16)) /\
  F2Q (mkFloat false 6553600000012288 (-16)) ==
    F2Q (mkFloat false 1600000000003 (-4)).
Proof. repeat split; vm_compute; reflexivity. Qed.

(** At an exact tie the last digit printed is the even one, whether that
    is below the float (100000000000.0625) or above it
    (100000000000.1875). *)
Example formatFloatAsString_ties :
  formatFloatAsString float_100000000000_0625 = Ok "100000000000.062" /\
  formatFloatAsString (mkFloat false 1600000000003 (-4)) =
    Ok "100000000000.188".
Proof. split; vm_compute; reflexivity. Qed.

(** ** The round trip of a rate *)







